(** * Status tools of sonarcloud-cpp-minimal: a shallow embedding

  The repository ships three command-line tools under [tools/]:
  - [ci_check.py]         recent GitHub Actions runs,
  - [sonarcloud_check.py] SonarCloud quality gate, metrics, file coverage,
  - [status.py]           runs the two others and merges their exit codes.

  The embedding follows the Python text function by function.  Python
  [str] values are Rocq strings holding the UTF-8 encoding: comparing
  UTF-8 byte sequences lexicographically is comparing code points
  lexicographically, so [sorted] on strings is the byte order of
  [String.leb].  Values decoded from JSON keep their dynamic type
  ([pyval]); a [dict] is a [gmap]; exceptions are the left summand of
  [result]; the outside world (git, gh, the HTTP API, the sub-processes)
  is a record of answers passed to each [main]. *)

From stdpp Require Import base strings gmap list sorting pretty.
From Stdlib Require Import Ascii ZArith QArith Floats.SpecFloat Lia.

Open Scope string_scope.
Open Scope Z_scope.
Open Scope list_scope.

(** ** Python values and exceptions *)

Module Py.

(** The scalar JSON values the two providers put at the keys read by the
    tools: null, booleans, integers and strings. *)
Inductive pyval :=
| PNone
| PBool (b : bool)
| PInt (z : Z)
| PStr (s : string).

Inductive exn :=
| ValueError (msg : string)
| TypeError
| OverflowError
| AttributeError
| IndexError
| KeyError
| FileNotFoundError
| JSONDecodeError
| CalledProcessError
| RequestException
| SystemExit (code : Z).

(** A computation that may raise. *)
Definition result (A : Type) : Type := exn + A.

Definition ret {A} (a : A) : result A := inr a.
Definition raise {A} (e : exn) : result A := inl e.
Definition bind {A B} (m : result A) (k : A -> result B) : result B :=
  match m with
  | inl e => inl e
  | inr a => k a
  end.

(** [result] is a monad in the sense of stdpp: [x ← m; k] runs [m] and
    stops at the first exception. *)
#[export] Instance result_ret : MRet result := @ret.
#[export] Instance result_bind : MBind result := fun A B k m => bind m k.

(** [try: m  except: h] with a bare [except], which catches everything. *)
Definition try_except {A} (m : result A) (h : A) : A :=
  match m with
  | inl _ => h
  | inr a => a
  end.

(** [str(v)], as used by f-strings. *)
Definition str (v : pyval) : string :=
  match v with
  | PNone => "None"
  | PBool true => "True"
  | PBool false => "False"
  | PInt z => pretty z
  | PStr s => s
  end.

(** [v == 'literal'] for a string literal on the right. *)
Definition eq_str (v : pyval) (lit : string) : bool :=
  match v with
  | PStr s => String.eqb s lit
  | _ => false
  end.

(** A method of [str] called on a dynamically typed value. *)
Definition as_str (v : pyval) : result string :=
  match v with
  | PStr s => ret s
  | _ => raise AttributeError
  end.

(** [d.get(k, default)]. *)
Definition get (d : gmap string pyval) (k : string) (default : pyval) : pyval :=
  match d !! k with
  | Some v => v
  | None => default
  end.

(** Truth value of an optional string argument ([if workflow:]). *)
Definition truthy_opt (o : option string) : bool :=
  match o with
  | Some s => negb (String.eqb s "")
  | None => false
  end.

Definition nl : string := String "010"%char "".

(** [s * n]. *)
Fixpoint repeat_str (s : string) (n : nat) : string :=
  match n with
  | O => ""
  | S k => s +:+ repeat_str s k
  end.

(** ["\n".join(lines)]. *)
Definition join_lines (lines : list string) : string := String.concat nl lines.

(** [sub in s]. *)
Fixpoint contains (sub s : string) : bool :=
  String.prefix sub s ||
  match s with
  | "" => false
  | String _ s' => contains sub s'
  end.

(** Whether an occurrence of [sub] in [front ++ rest] starts inside
    [front]. *)
Fixpoint starts_within (sub front rest : string) : bool :=
  match front with
  | "" => false
  | String c front' =>
      String.prefix sub (front +:+ rest) || starts_within sub front' rest
  end.

(** [s.replace(old, new)] for a non-empty [old]: occurrences are found
    left to right and do not overlap.  [skip] counts the characters of a
    matched occurrence that are still to be dropped. *)
Fixpoint replace_go (old new : string) (skip : nat) (s : string) : string :=
  match s with
  | "" => ""
  | String c s' =>
      match skip with
      | S k => replace_go old new k s'
      | O =>
          if String.prefix old s
          then new +:+ replace_go old new (String.length old - 1) s'
          else String c (replace_go old new 0 s')
      end
  end.

Definition replace (old new s : string) : string := replace_go old new 0 s.

(** [s.split(sep)] for a non-empty [sep]; the result is never empty. *)
Fixpoint split_go (sep : string) (skip : nat) (s : string) : list string :=
  match s with
  | "" => [""]
  | String c s' =>
      match skip with
      | S k => split_go sep k s'
      | O =>
          if String.prefix sep s
          then "" :: split_go sep (String.length sep - 1) s'
          else match split_go sep 0 s' with
               | p :: ps => String c p :: ps
               | [] => [String c ""]
               end
      end
  end.

Definition split (sep s : string) : list string := split_go sep 0 s.

(** [l[-1]] on the result of [split]. *)
Definition last_piece (l : list string) : string := List.last l "".

(** [l[i]]. *)
Definition index {A} (l : list A) (i : nat) : result A :=
  match l !! i with
  | Some a => ret a
  | None => raise IndexError
  end.

(** ASCII white space, as removed by [str.strip()]. *)
Definition is_space (c : ascii) : bool :=
  let n := nat_of_ascii c in
  ((9 <=? n)%nat && (n <=? 13)%nat) || ((28 <=? n)%nat && (n <=? 32)%nat).

Fixpoint lstrip (s : string) : string :=
  match s with
  | "" => ""
  | String c s' => if is_space c then lstrip s' else s
  end.

Fixpoint rstrip (s : string) : string :=
  match s with
  | "" => ""
  | String c s' =>
      match rstrip s' with
      | "" => if is_space c then "" else String c ""
      | r => String c r
      end
  end.

Definition strip (s : string) : string := rstrip (lstrip s).

(** [sorted(l)] for a list of strings: ascending in the order of
    [String.leb], which compares byte by byte. *)
Definition sorted (l : list string) : list string := merge_sort String.le l.

(** ** [datetime] *)

Record datetime := {
  year : Z; month : Z; day : Z;
  hour : Z; minute : Z; second : Z;
  microsecond : Z;
  utcoffset : option Z  (* offset in seconds; [None] for a naive value *)
}.

(** Zero-padded decimal rendering of a field. *)
Definition pad (width : nat) (z : Z) : string :=
  let d := pretty z in
  repeat_str "0" (width - String.length d) +:+ d.

(** [dt.strftime('%Y-%m-%d %H:%M:%S')].  [%m], [%d], [%H], [%M] and [%S]
    are two digits with a leading zero.  [%Y] is the year in decimal as the
    C library prints it, without leading zeros: the year 999 reads [999]. *)
Definition strftime_ymd_hms (dt : datetime) : string :=
  pretty (year dt) +:+ "-" +:+ pad 2 (month dt) +:+ "-" +:+ pad 2 (day dt) +:+ " " +:+
  pad 2 (hour dt) +:+ ":" +:+ pad 2 (minute dt) +:+ ":" +:+ pad 2 (second dt).

(** The ranges of the attributes of a [datetime] object. *)
Definition valid_fields (dt : datetime) : Prop :=
  1 <= year dt <= 9999 /\ 1 <= month dt <= 12 /\ 1 <= day dt <= 31 /\
  0 <= hour dt <= 23 /\ 0 <= minute dt <= 59 /\ 0 <= second dt <= 59.

(** ** [float] *)

(** Python floats are IEEE binary64 values. *)
Definition prec : Z := 53.
Definition emax : Z := 1024.

Definition float_of_Z (z : Z) : spec_float := binary_normalize prec emax z 0 false.

(** [float(z)] for an [int]: too large a magnitude is an error. *)
Definition float_of_int (z : Z) : result spec_float :=
  match float_of_Z z with
  | S754_infinity _ => raise OverflowError
  | x => ret x
  end.

(** [x >= k] for a float [x] and an integer literal [k] that binary64
    represents exactly. *)
Definition float_ge_int (x : spec_float) (k : Z) : bool := SFleb (float_of_Z k) x.

(** The number a finite float stands for, [m * 2 ^ e] with its sign, as a
    fraction; infinities and NaN stand for no number. *)
Definition float_value (x : spec_float) : option Q :=
  match x with
  | S754_zero _ => Some 0%Q
  | S754_finite s m e =>
      let magnitude := if 0 <=? e
                       then inject_Z (Z.pos m * 2 ^ e)
                       else (Z.pos m # 2 ^ Z.to_pos (- e))%Q in
      Some (if s then Qopp magnitude else magnitude)
  | _ => None
  end.

(** Nearest integer to [num / den], ties to even ([den > 0]). *)
Definition round_half_even (num den : Z) : Z :=
  let q := num / den in
  let r := num mod den in
  match 2 * r ?= den with
  | Lt => q
  | Gt => q + 1
  | Eq => if Z.even q then q else q + 1
  end.

(** [f"{x:.1f}"]: one digit after the point, correctly rounded. *)
Definition format_1f (x : spec_float) : string :=
  match x with
  | S754_nan => "nan"
  | S754_infinity s => if s then "-inf" else "inf"
  | S754_zero s => if s then "-0.0" else "0.0"
  | S754_finite s m e =>
      let t := if 0 <=? e
               then Z.pos m * 2 ^ e * 10
               else round_half_even (Z.pos m * 10) (2 ^ (- e)) in
      (if s then "-" else "") +:+ pretty (t / 10) +:+ "." +:+ pretty (t mod 10)
  end.

(** The CPython built-ins the tools call and whose full definition
    (Unicode case mapping, decimal-to-binary conversion, ISO-8601
    parsing) lies outside the repository. *)
Class Runtime := {
  (** [float(s)] for a string; [None] is [ValueError]. *)
  float_of_str : string -> option spec_float;
  (** [s.upper()]. *)
  upper : string -> string;
  (** [datetime.fromisoformat(s)]; [None] is [ValueError]. *)
  fromisoformat : string -> option datetime
}.

(** [float(v)]. *)
Definition float `{Runtime} (v : pyval) : result spec_float :=
  match v with
  | PStr s =>
      match float_of_str s with
      | Some x => ret x
      | None => raise (ValueError "could not convert string to float")
      end
  | PInt z => float_of_int z
  | PBool b => float_of_int (if b then 1 else 0)
  | PNone => raise TypeError
  end.

(** ** Programs with output

    What a tool does besides computing: lines printed on the two
    streams and child processes started, in program order. *)
Inductive event :=
| Stdout (line : string)
| Stderr (line : string)
| StderrExn (before : string) (e : exn)   (* [print(f"...{e}", file=sys.stderr)] *)
| Traceback (e : exn)                     (* [traceback.print_exc()] *)
| Spawn (argv : list string).             (* [subprocess.run(argv, ...)] *)

(** A program yields the events it produced and either a value or the
    exception that ended it. *)
Definition io (A : Type) : Type := list event * result A.

#[export] Instance io_ret : MRet io := fun A a => ([], inr a).
#[export] Instance io_bind : MBind io := fun A B k m =>
  match m with
  | (l, inl e) => (l, inl e)
  | (l, inr a) => let '(l', r) := k a in (l ++ l', r)
  end.

Definition lift {A} (r : result A) : io A := ([], r).
Definition emit (ev : event) : io unit := ([ev], inr tt).
Definition print (s : string) : io unit := emit (Stdout s).
Definition eprint (s : string) : io unit := emit (Stderr s).

(** [try: m  except <classes>: h], where [catches e] tells whether [e]
    belongs to one of the listed classes. *)
Definition try_catch {A} (m : io A) (catches : exn -> bool) (h : exn -> io A) : io A :=
  match m with
  | (l, inl e) => if catches e then let '(l', r) := h e in (l ++ l', r) else (l, inl e)
  | (l, inr a) => (l, inr a)
  end.

(** [except Exception]: every exception of the model but [SystemExit]. *)
Definition is_Exception (e : exn) : bool :=
  match e with
  | SystemExit _ => false
  | _ => true
  end.

(** [sys.exit(code)]. *)
Definition sys_exit {A} (code : Z) : io A := lift (raise (SystemExit code)).

(** Exit status of [sys.exit(main())]: the value returned by [main], or
    the code of a [SystemExit]; any other exception that escapes ends the
    interpreter with status 1. *)
Definition exit_status (m : io Z) : Z :=
  match m.2 with
  | inr code => code
  | inl (SystemExit code) => code
  | inl _ => 1
  end.

Definition events {A} (m : io A) : list event := m.1.

(** The text a program returned, empty when it raised. *)
Definition returned_text (m : io string) : string :=
  match m.2 with
  | inr s => s
  | inl _ => ""
  end.

(** The lines a program printed on standard output. *)
Definition stdout_of (l : list event) : list string :=
  omap (fun ev => match ev with Stdout s => Some s | _ => None end) l.

(** The child processes a program started. *)
Definition spawned (l : list event) : list (list string) :=
  omap (fun ev => match ev with Spawn a => Some a | _ => None end) l.

(** A program that prints nothing on standard output. *)
Definition silent {A} (m : io A) : Prop := stdout_of m.1 = [].

(** A program that, when it ends in [SystemExit], ends with code 1. *)
Definition exits_with_1 {A} (m : io A) : Prop :=
  match m.2 with
  | inl (SystemExit code) => code = 1
  | _ => True
  end.

(** A [main] whose value, when it returns, is 0 or 1, and which otherwise
    ends as [exits_with_1] says. *)
Definition returns_0_or_1 (m : io Z) : Prop :=
  match m.2 with
  | inr code => code = 0 \/ code = 1
  | inl (SystemExit code) => code = 1
  | inl _ => True
  end.

(** An answer of the world that is not a [SystemExit]. *)
Definition no_SystemExit {A} (answer : result A) : Prop :=
  match answer with
  | inl (SystemExit _) => False
  | _ => True
  end.

End Py.


(** ** tools/ci_check.py *)

Module CiCheck.
Import Py.

(** Answers of the processes [ci_check.py] starts with [check=True]:
    the captured standard output, or the exception [subprocess.run]
    raises ([CalledProcessError] on a non-zero status,
    [FileNotFoundError] when the program is missing).  For [gh run list]
    the answer is the output once decoded by [json.loads], a list of
    objects, or [JSONDecodeError]. *)
Record World := {
  run_checked : list string -> result string;
  run_json : list string -> result (list (gmap string pyval))
}.

(** [subprocess.run(argv, capture_output=True, text=True, check=True)]. *)
Definition subprocess_run (w : World) (argv : list string) : io string :=
  _ ← emit (Spawn argv); lift (run_checked w argv).

Record CIChecker := {
  repo_owner : string;
  repo_name : string
}.

Definition catches_detect (e : exn) : bool :=
  match e with
  | CalledProcessError | ValueError _ => true
  | _ => false
  end.

(** The segments [parts] of a remote URL that names GitHub. *)
Definition url_parts (remote_url : string) : result (list string) :=
  if String.prefix "git@github.com:" remote_url then
    mret (split "/" (replace ".git" "" (replace "git@github.com:" "" remote_url)))
  else if contains "github.com/" remote_url then
    mret (split "/" (replace ".git" "" (last_piece (split "github.com/" remote_url))))
  else raise (ValueError "Cannot parse GitHub URL").

(** The body of the [try] in [_detect_repo], from the stripped remote
    URL on. *)
Definition parse_remote_url (remote_url : string) : result CIChecker :=
  if contains "github.com" remote_url then
    parts ← url_parts remote_url;
    owner ← index parts 0;
    name ← index parts 1;
    mret {| repo_owner := owner; repo_name := name |}
  else raise (ValueError "Not a GitHub repository").

Definition git_remote_cmd : list string := ["git"; "remote"; "get-url"; "origin"].

(** What the handler of [_detect_repo] writes before [sys.exit(1)]. *)
Definition config_error (e : exn) : list event :=
  [StderrExn "Error: Unable to detect GitHub repository: " e;
   Stderr "Make sure you're in a git repository with a GitHub remote."].

Definition _detect_repo (w : World) : io CIChecker :=
  try_catch
    (out ← subprocess_run w git_remote_cmd;
     lift (parse_remote_url (strip out)))
    catches_detect
    (fun e =>
       _ ← emit (StderrExn "Error: Unable to detect GitHub repository: " e);
       _ ← eprint "Make sure you're in a git repository with a GitHub remote.";
       sys_exit 1).

(** [CIChecker()]. *)
Definition new_CIChecker (w : World) : io CIChecker := _detect_repo w.

Definition catches_gh_cli (e : exn) : bool :=
  match e with
  | CalledProcessError | FileNotFoundError => true
  | _ => false
  end.

Definition check_gh_cli (w : World) : io bool :=
  try_catch
    (_ ← subprocess_run w ["gh"; "--version"]; mret true)
    catches_gh_cli
    (fun _ => mret false).

Definition catches_called (e : exn) : bool :=
  match e with
  | CalledProcessError => true
  | _ => false
  end.

(** The command line built by [get_workflow_runs_gh]. *)
Definition gh_run_list_cmd (limit : Z) (workflow : option string) : list string :=
  let cmd := ["gh"; "run"; "list"; "--json";
              "databaseId,name,status,conclusion,createdAt,updatedAt,headBranch,event";
              "--limit"; pretty limit] in
  if truthy_opt workflow
  then cmd ++ ["--workflow"; default "" workflow]
  else cmd.

Definition get_workflow_runs_gh (w : World) (limit : Z) (workflow : option string)
  : io (list (gmap string pyval)) :=
  let cmd := gh_run_list_cmd limit workflow in
  try_catch
    (_ ← emit (Spawn cmd); lift (run_json w cmd))
    catches_called
    (fun e =>
       _ ← emit (StderrExn "Error running gh CLI: " e);
       _ ← eprint "Make sure gh CLI is installed and authenticated.";
       sys_exit 1).

(** The timestamp of a run: reformatted when it parses, otherwise the
    value as fetched. *)
Definition format_time `{Runtime} (created_at : pyval) : string :=
  str (try_except
         (s ← as_str created_at;
          match fromisoformat (replace "Z" "+00:00" s) with
          | Some dt => mret (PStr (strftime_ymd_hms dt))
          | None => raise (ValueError "Invalid isoformat string")
          end)
         created_at).

(** Icon and status text of a run. *)
Definition icon_and_text `{Runtime} (run : gmap string pyval) : result (string * string) :=
  let status := get run "status" (PStr "unknown") in
  let conclusion := get run "conclusion" (PStr "unknown") in
  if eq_str status "completed" then
    if eq_str conclusion "success" then mret ("✅", "SUCCESS")
    else if eq_str conclusion "failure" then mret ("❌", "FAILED")
    else if eq_str conclusion "cancelled" then mret ("⚠️", "CANCELLED")
    else if eq_str conclusion "skipped" then mret ("⚠️", "SKIPPED")
    else (c ← as_str conclusion; mret ("❓", upper c))
  else if eq_str status "in_progress" then mret ("🔄", "IN PROGRESS")
  else if eq_str status "queued" then mret ("⏳", "QUEUED")
  else (s ← as_str status; mret ("❓", upper s)).

Definition format_run_status `{Runtime} (run : gmap string pyval) : result string :=
  '(icon, status_text) ← icon_and_text run;
  let time_str := format_time (get run "createdAt" (PStr "")) in
  let name := get run "name" (PStr "Unknown") in
  let branch := get run "headBranch" (PStr "unknown") in
  let event := get run "event" (PStr "unknown") in
  let run_id := get run "databaseId" (PStr "?") in
  mret (icon +:+ " " +:+ status_text +:+ " - " +:+ str name +:+ " (#" +:+ str run_id +:+ ")" +:+ nl +:+
        "   Branch: " +:+ str branch +:+ " | Event: " +:+ str event +:+ " | Time: " +:+ time_str).

(** State of the loop over the runs in [format_status_report]. *)
Record loop_state := {
  lines : list string;
  success_count : nat;
  failure_count : nat;
  other_count : nat
}.

(** A run whose [status] and [conclusion], when present, are strings. *)
Definition string_valued (run : gmap string pyval) : Prop :=
  (exists s, get run "status" (PStr "unknown") = PStr s) /\
  (exists c, get run "conclusion" (PStr "unknown") = PStr c).

(** How many runs the three counters have recorded. *)
Definition counted (st : loop_state) : nat :=
  (success_count st + failure_count st + other_count st)%nat.

Definition loop_body `{Runtime} (st : loop_state) (run : gmap string pyval) : result loop_state :=
  line ← format_run_status run;
  let lines := lines st ++ [line] in
  let conclusion := get run "conclusion" (PStr "") in
  if eq_str conclusion "success" then
    mret {| lines := lines; success_count := S (success_count st);
            failure_count := failure_count st; other_count := other_count st |}
  else if eq_str conclusion "failure" then
    mret {| lines := lines; success_count := success_count st;
            failure_count := S (failure_count st); other_count := other_count st |}
  else
    mret {| lines := lines; success_count := success_count st;
            failure_count := failure_count st; other_count := S (other_count st) |}.

Fixpoint loop `{Runtime} (st : loop_state) (runs : list (gmap string pyval)) : result loop_state :=
  match runs with
  | [] => mret st
  | run :: rest => st' ← loop_body st run; loop st' rest
  end.

Definition report_header (self : CIChecker) (workflow : option string) : list string :=
  [repeat_str "=" 70; "GitHub Actions CI Status"; repeat_str "=" 70;
   "Repository: " +:+ repo_owner self +:+ "/" +:+ repo_name self] ++
  (if truthy_opt workflow then ["Workflow: " +:+ default "" workflow] else []) ++
  [""].

(** The lines of the report for the fetched [runs]. *)
Definition report_lines `{Runtime} (self : CIChecker) (workflow : option string)
    (runs : list (gmap string pyval)) : result (list string) :=
  let lines := report_header self workflow in
  match runs with
  | [] => mret (lines ++ ["No workflow runs found."; ""; repeat_str "=" 70])
  | _ =>
      let lines := lines ++ ["Recent Runs (showing " +:+ pretty (length runs) +:+ "):";
                             repeat_str "-" 70] in
      st ← loop {| lines := lines; success_count := 0; failure_count := 0; other_count := 0 |} runs;
      mret (CiCheck.lines st ++
            [""; "Summary:"; repeat_str "-" 70;
             "  Successful: " +:+ pretty (success_count st);
             "  Failed: " +:+ pretty (failure_count st);
             "  Other: " +:+ pretty (other_count st);
             ""; repeat_str "=" 70])
  end.

Definition format_status_report `{Runtime} (w : World) (self : CIChecker)
    (limit : Z) (workflow : option string) : io string :=
  runs ← get_workflow_runs_gh w limit workflow;
  ls ← lift (report_lines self workflow runs);
  mret (join_lines ls).

Record Args := {
  limit : Z;                 (* [--limit], default 5 *)
  workflow : option string   (* [--workflow] *)
}.

Definition most_recent_failed (runs : list (gmap string pyval)) : bool :=
  match runs with
  | [] => false
  | run :: _ =>
      match run !! "conclusion" with
      | Some v => eq_str v "failure"
      | None => false
      end
  end.

Definition main `{Runtime} (w : World) (args : Args) : io Z :=
  try_catch
    (checker ← new_CIChecker w;
     ok ← check_gh_cli w;
     if negb ok then
       _ ← eprint "Error: gh CLI not found";
       _ ← eprint "Install with: https://cli.github.com/";
       mret 1
     else
       report ← format_status_report w checker (limit args) (workflow args);
       _ ← print report;
       runs ← get_workflow_runs_gh w 1 (workflow args);
       if most_recent_failed runs then mret 1 else mret 0)
    is_Exception
    (fun e =>
       _ ← emit (StderrExn "Error: " e);
       _ ← emit (Traceback e);
       mret 1).

(** The number of runs whose [conclusion] is the given text. *)
Definition concluded (c : string) (runs : list (gmap string pyval)) : nat :=
  length (filter (fun run => eq_str (get run "conclusion" (PStr "")) c = true) runs).

(** A world whose processes end in ordinary exceptions only. *)
Definition ordinary (w : World) : Prop :=
  (forall argv, no_SystemExit (run_checked w argv)) /\
  (forall argv, no_SystemExit (run_json w argv)).

End CiCheck.

(** ** tools/sonarcloud_check.py *)

Module SonarCheck.
Import Py.

(** One element of a [measures] array: [m['metric']] and, when the key
    is there, [m['value']]. *)
Record measure := {
  metric : string;
  value : option pyval
}.

(** One element of [components] in a [measures/component_tree] answer. *)
Record file_info := {
  path : option pyval;
  file_measures : option (list measure)
}.

(** The decoded answers of the four endpoints, or the
    [RequestException] raised by [requests.get], [raise_for_status] or
    [response.json].  A member that the answer lacks is [None].  A run of
    the tool asks [qualitygates/project_status] twice, for the report and
    again after the report is printed: [project_status n] is the answer to
    the request that [n] requests to this endpoint went before.  The other
    endpoints are asked once. *)
Record World := {
  project_status : nat -> result (option (gmap string pyval));  (* ['projectStatus'] *)
  component_measures : result (option (option (list measure)));  (* ['component']['measures'] *)
  analyses : result (option (list (gmap string pyval)));  (* ['analyses'] *)
  components : result (option (list file_info))  (* ['components'] *)
}.

Record SonarCloudChecker := {
  organization : string;
  project_key : string
}.

Definition catches_request (e : exn) : bool :=
  match e with
  | RequestException => true
  | _ => false
  end.

(** [_get]: the answer of the endpoint, or the message and [sys.exit(1)]. *)
Definition _get {A} (answer : result A) : io A :=
  try_catch (lift answer) catches_request
    (fun e =>
       _ ← emit (StderrExn "Error: Failed to communicate with SonarCloud API: " e);
       sys_exit 1).

(** [asked] counts the earlier calls of the method in this run. *)
Definition get_quality_gate_status (w : World) (asked : nat) : io (gmap string pyval) :=
  data ← _get (project_status w asked);
  mret (default ∅ data).

(** The dict comprehension [{m['metric']: m.get('value', d) for m in ms}];
    a later entry for the same metric replaces an earlier one. *)
Definition measures_dict (d : pyval) (ms : list measure) : gmap string pyval :=
  foldl (fun acc m => <[metric m := default d (value m)]> acc) ∅ ms.

Definition get_project_measures (w : World) : io (gmap string pyval) :=
  data ← _get (component_measures w);
  let component := default None data in
  mret (measures_dict (PStr "0") (default [] component)).

Definition get_recent_analysis (w : World) : io (option (gmap string pyval)) :=
  data ← _get (analyses w);
  mret (head (default [] data)).

Definition path_startswith (component_filter : string) (c : file_info) : result bool :=
  p ← as_str (default (PStr "") (path c));
  mret (String.prefix component_filter p).

Fixpoint filter_components (component_filter : string) (cs : list file_info)
  : result (list file_info) :=
  match cs with
  | [] => mret []
  | c :: rest =>
      keep ← path_startswith component_filter c;
      rest' ← filter_components component_filter rest;
      mret (if keep : bool then c :: rest' else rest')
  end.

Definition get_coverage_detail (w : World) (component_filter : option string)
  : io (list file_info) :=
  data ← _get (components w);
  let components := default [] data in
  if truthy_opt component_filter
  then lift (filter_components (default "" component_filter) components)
  else mret components.

(** The three-tier icon of a coverage value. *)
Definition cov_icon (cov_val : spec_float) : string :=
  if float_ge_int cov_val 80 then "✅"
  else if float_ge_int cov_val 60 then "⚠️"
  else "❌".

(** The "Last Analysis" lines. *)
Definition analysis_lines `{Runtime} (analysis : option (gmap string pyval)) : list string :=
  match analysis with
  | Some a =>
      if decide (a = ∅) then []
      else
        let date_str := get a "date" (PStr "Unknown") in
        let date_str :=
          try_except
            (s ← as_str date_str;
             match fromisoformat (replace "Z" "+00:00" s) with
             | Some dt => mret (PStr (strftime_ymd_hms dt +:+ " UTC"))
             | None => raise (ValueError "Invalid isoformat string")
             end)
            date_str in
        ["Last Analysis: " +:+ str date_str; ""]
  | None => []
  end.

(** The "Quality Gate" lines. *)
Definition gate_lines (qg_status : gmap string pyval) : list string :=
  let status := get qg_status "status" (PStr "UNKNOWN") in
  let status_icon :=
    if eq_str status "OK" then "✅"
    else if eq_str status "ERROR" then "❌"
    else "⚠️" in
  ["Quality Gate: " +:+ status_icon +:+ " " +:+ str status; ""].

(** The coverage line of the project metrics. *)
Definition coverage_line `{Runtime} (measures : gmap string pyval) : result string :=
  let coverage := get measures "coverage" (PStr "N/A") in
  if negb (eq_str coverage "N/A") then
    cov_val ← float coverage;
    mret ("  Coverage: " +:+ cov_icon cov_val +:+ " " +:+ str coverage +:+ "%")
  else mret "  Coverage: ❌ No data".

(** The issue counts of the project metrics. *)
Definition issue_lines (measures : gmap string pyval) : list string :=
  let bugs := get measures "bugs" (PStr "0") in
  let vulnerabilities := get measures "vulnerabilities" (PStr "0") in
  let code_smells := get measures "code_smells" (PStr "0") in
  let hotspots := get measures "security_hotspots" (PStr "0") in
  let bugs_icon := if eq_str bugs "0" then "✅" else "❌" in
  let vuln_icon := if eq_str vulnerabilities "0" then "✅" else "❌" in
  ["  Bugs: " +:+ bugs_icon +:+ " " +:+ str bugs;
   "  Vulnerabilities: " +:+ vuln_icon +:+ " " +:+ str vulnerabilities;
   "  Code Smells: " +:+ str code_smells;
   "  Security Hotspots: " +:+ str hotspots;
   "  Lines of Code: " +:+ str (get measures "lines" (PStr "0"));
   ""].

(** The two lists filled by the loop over [coverage_detail]. *)
Record file_lists := {
  files_with_coverage : list string;
  files_without_coverage : list string
}.

Definition file_loop_body `{Runtime} (st : file_lists) (info : file_info)
  : result file_lists :=
  let fm := measures_dict PNone (default [] (file_measures info)) in
  let path := default (PStr "Unknown") (path info) in
  match fm !! "coverage" with
  | Some c =>
      cov ← float c;
      let lines_to_cover := get fm "lines_to_cover" (PStr "?") in
      let uncovered := get fm "uncovered_lines" (PStr "?") in
      mret {| files_with_coverage :=
                files_with_coverage st ++
                ["  " +:+ cov_icon cov +:+ " " +:+ str path +:+ ": " +:+ format_1f cov +:+ "% (" +:+
                 str lines_to_cover +:+ " lines, " +:+ str uncovered +:+ " uncovered)"];
              files_without_coverage := files_without_coverage st |}
  | None =>
      mret {| files_with_coverage := files_with_coverage st;
              files_without_coverage :=
                files_without_coverage st ++
                ["  ❌ " +:+ str path +:+ ": No coverage data"] |}
  end.

Fixpoint file_loop `{Runtime} (st : file_lists) (detail : list file_info) : result file_lists :=
  match detail with
  | [] => mret st
  | info :: rest => st' ← file_loop_body st info; file_loop st' rest
  end.

(** The state before the first file. *)
Definition no_files : file_lists :=
  {| files_with_coverage := []; files_without_coverage := [] |}.

(** Whether the measures of a file have a [coverage] entry. *)
Definition has_coverage (info : file_info) : Prop :=
  is_Some (measures_dict PNone (default [] (file_measures info)) !! "coverage").

#[export] Instance has_coverage_dec (info : file_info) : Decision (has_coverage info).
Proof. unfold has_coverage. apply _. Defined.

(** The path shown for a file. *)
Definition path_text (info : file_info) : string :=
  str (default (PStr "Unknown") (path info)).

(** The line the loop body makes for one file. *)
Definition entry_line `{Runtime} (info : file_info) : result string :=
  let fm := measures_dict PNone (default [] (file_measures info)) in
  match fm !! "coverage" with
  | Some c =>
      cov ← float c;
      mret ("  " +:+ cov_icon cov +:+ " " +:+ path_text info +:+ ": " +:+ format_1f cov +:+ "% (" +:+
            str (get fm "lines_to_cover" (PStr "?")) +:+ " lines, " +:+
            str (get fm "uncovered_lines" (PStr "?")) +:+ " uncovered)")
  | None => mret ("  ❌ " +:+ path_text info +:+ ": No coverage data")
  end.

Fixpoint entry_lines `{Runtime} (infos : list file_info) : result (list string) :=
  match infos with
  | [] => mret []
  | info :: rest =>
      line ← entry_line info;
      lines ← entry_lines rest;
      mret (line :: lines)
  end.

(** The specification's reading of the section: each group ordered by
    file path. *)
Definition path_le (a b : file_info) : Prop := String.le (path_text a) (path_text b).

#[export] Instance path_le_dec : RelDecision path_le :=
  fun a b => String.le_dec (path_text a) (path_text b).

Definition section_sorted_by_path `{Runtime} (detail : list file_info) : result (list string) :=
  covered ← entry_lines (merge_sort path_le (filter has_coverage detail));
  uncovered ← entry_lines (merge_sort path_le (filter (fun info => ~ has_coverage info) detail));
  mret (covered ++
        (if bool_decide (covered = []) || bool_decide (uncovered = []) then [] else [""]) ++
        uncovered).

(** The lines between the "File Coverage:" heading and the totals. *)
Definition file_section (st : file_lists) : list string :=
  (if bool_decide (files_with_coverage st = []) then []
   else sorted (files_with_coverage st)) ++
  (if bool_decide (files_without_coverage st = []) then []
   else (if bool_decide (files_with_coverage st = []) then [] else [""]) ++
        sorted (files_without_coverage st)).

(** The "File Coverage" part of the report. *)
Definition coverage_detail_lines `{Runtime} (coverage_detail : list file_info)
  : result (list string) :=
  match coverage_detail with
  | [] => mret ["No files found in analysis"]
  | _ =>
      st ← file_loop no_files coverage_detail;
      mret (["File Coverage:"; repeat_str "-" 70] ++
            file_section st ++
            [""; "Total Files: " +:+ pretty (length coverage_detail);
             "With Coverage: " +:+ pretty (length (files_with_coverage st));
             "Without Coverage: " +:+ pretty (length (files_without_coverage st))])
  end.

Definition report_header (self : SonarCloudChecker) (component : option string) : list string :=
  [repeat_str "=" 70; "SonarCloud Status Check"; repeat_str "=" 70;
   "Project: " +:+ project_key self] ++
  (if truthy_opt component then ["Component: " +:+ default "" component] else []) ++
  [""].

Definition format_status_report `{Runtime} (w : World) (self : SonarCloudChecker)
    (component : option string) : io string :=
  let lines := report_header self component in
  analysis ← get_recent_analysis w;
  let lines := lines ++ analysis_lines analysis in
  qg_status ← get_quality_gate_status w 0;
  let lines := lines ++ gate_lines qg_status in
  measures ← get_project_measures w;
  let lines := lines ++ ["Project Metrics:"; repeat_str "-" 70] in
  cov ← lift (coverage_line measures);
  let lines := lines ++ [cov] ++ issue_lines measures in
  coverage_detail ← get_coverage_detail w component;
  detail ← lift (coverage_detail_lines coverage_detail);
  let lines := lines ++ detail ++ [""; repeat_str "=" 70] in
  mret (join_lines lines).

Record Args := {
  project : string;            (* [--project], required *)
  arg_organization : string;   (* [--organization], default griswaldbrooks *)
  component : option string    (* [--component] *)
}.

Definition gate_failed (qg_status : gmap string pyval) : bool :=
  match qg_status !! "status" with
  | Some v => eq_str v "ERROR"
  | None => false
  end.

Definition main `{Runtime} (w : World) (args : Args) : io Z :=
  try_catch
    (let checker := {| organization := arg_organization args; project_key := project args |} in
     report ← format_status_report w checker (component args);
     _ ← print report;
     qg_status ← get_quality_gate_status w 1;
     if gate_failed qg_status then mret 1 else mret 0)
    is_Exception
    (fun e =>
       _ ← emit (StderrExn "Error: " e);
       _ ← emit (Traceback e);
       mret 1).

(** An answer of the API: decoded, or the [RequestException] of the
    transport. *)
Definition transport_only {A} (answer : result A) : Prop :=
  match answer with
  | inl e => e = RequestException
  | inr _ => True
  end.

Definition reachable (w : World) : Prop :=
  (forall n, transport_only (project_status w n)) /\ transport_only (component_measures w) /\
  transport_only (analyses w) /\ transport_only (components w).

(** Whether one of the four requests made for the report fails. *)
Definition some_request_fails (w : World) : Prop :=
  project_status w 0 = inl RequestException \/ component_measures w = inl RequestException \/
  analyses w = inl RequestException \/ components w = inl RequestException.

End SonarCheck.

(** ** tools/status.py *)

Module Status.
Import Py.

(** The two scripts next to [status.py] and what running each command
    line gives: the exit status of the child, or the exception raised by
    [subprocess.run] itself. *)
Record World := {
  ci_tool : string;       (* [str(tools_dir / 'ci_check.py')] *)
  sonar_tool : string;    (* [str(tools_dir / 'sonarcloud_check.py')] *)
  returncode : list string -> result Z
}.

Definition print_section_header (title : string) : io unit :=
  _ ← print nl;
  _ ← print (repeat_str "=" 70);
  _ ← print ("  " +:+ title);
  print (repeat_str "=" 70).

Definition run_tool (w : World) (tool_path : string) (args : list string) : io Z :=
  try_catch
    (_ ← emit (Spawn ("python3" :: tool_path :: args));
     lift (returncode w ("python3" :: tool_path :: args)))
    is_Exception
    (fun e =>
       _ ← emit (StderrExn ("Error running " +:+ tool_path +:+ ": ") e);
       mret 1).

Record Args := {
  project : string;
  organization : string;
  ci_limit : Z;
  skip_ci : bool;
  skip_sonarcloud : bool
}.

(** [all(code == 0 for code in exit_codes)]. *)
Definition all_zero (exit_codes : list Z) : bool := forallb (Z.eqb 0) exit_codes.

Definition passed_or_failed (code : result Z) : result string :=
  c ← code; mret (if c =? 0 then "✅ PASSED" else "❌ FAILED").

(** The command lines of the two sub-checks. *)
Definition ci_argv (w : World) (args : Args) : list string :=
  "python3" :: ci_tool w :: ["--limit"; pretty (ci_limit args)].

Definition sonar_argv (w : World) (args : Args) : list string :=
  "python3" :: sonar_tool w ::
  ["--project"; project args; "--organization"; organization args].

(** What [run_tool] returns for an answer of the world. *)
Definition collected (answer : result Z) : Z :=
  match answer with
  | inr code => code
  | inl _ => 1
  end.

(** [subprocess.run] raises subclasses of [Exception] only. *)
Definition raises_Exception_only (answer : result Z) : Prop :=
  match answer with
  | inl e => is_Exception e = true
  | inr _ => True
  end.

Definition main (w : World) (args : Args) : io Z :=
  let exit_codes : list Z := [] in
  _ ← print (repeat_str "=" 70);
  _ ← print "PROJECT STATUS CHECK";
  _ ← print (repeat_str "=" 70);
  _ ← print ("Project: " +:+ project args);
  _ ← print (repeat_str "=" 70);
  exit_codes ←
    (if negb (skip_ci args) then
       _ ← print_section_header "GITHUB ACTIONS CI";
       ci_exit ← run_tool w (ci_tool w) ["--limit"; pretty (ci_limit args)];
       mret (exit_codes ++ [ci_exit])
     else mret exit_codes);
  exit_codes ←
    (if negb (skip_sonarcloud args) then
       _ ← print_section_header "SONARCLOUD ANALYSIS";
       sonar_exit ← run_tool w (sonar_tool w)
                      ["--project"; project args; "--organization"; organization args];
       mret (exit_codes ++ [sonar_exit])
     else mret exit_codes);
  _ ← print nl;
  _ ← print (repeat_str "=" 70);
  _ ← print "OVERALL STATUS";
  _ ← print (repeat_str "=" 70);
  let all_passed := all_zero exit_codes in
  if all_passed then
    _ ← print "✅ All checks passed!";
    _ ← print "";
    _ ← print (repeat_str "=" 70);
    mret 0
  else
    _ ← print "❌ Some checks failed!";
    _ ← print "";
    _ ← (if negb (skip_ci args) then
           ci_status ← lift (passed_or_failed (index exit_codes 0));
           print ("  CI: " +:+ ci_status)
         else mret tt);
    _ ← (if negb (skip_sonarcloud args) then
           let sonar_idx := if skip_ci args then 0%nat else 1%nat in
           sonar_status ← lift (passed_or_failed (index exit_codes sonar_idx));
           print ("  SonarCloud: " +:+ sonar_status)
         else mret tt);
    _ ← print "";
    _ ← print (repeat_str "=" 70);
    mret 1.

(** The sub-checks that the flags leave, as command lines and as the codes
    collected from them. *)
Definition planned (w : World) (args : Args) : list (list string) :=
  (if skip_ci args then [] else [ci_argv w args]) ++
  (if skip_sonarcloud args then [] else [sonar_argv w args]).

Definition considered (w : World) (args : Args) : list Z :=
  map (fun argv => collected (returncode w argv)) (planned w args).

End Status.

(** ** A runtime to run the tools on examples

  An instance of [Py.Runtime] on the inputs the providers send: decimal
  literals for [float], ASCII letters for [upper], and the
  [YYYY-MM-DD], [YYYY-MM-DDTHH:MM:SS] and [YYYY-MM-DDTHH:MM:SS+HH:MM]
  layouts for [fromisoformat]. *)

Module Cpython.
Import Py.

Definition digit_of (c : ascii) : option Z :=
  let n := Z.of_nat (nat_of_ascii c) in
  if (48 <=? n) && (n <=? 57) then Some (n - 48) else None.

(** Reads the decimal digits at the front of [s]: their value after
    [acc], how many there are, and what follows. *)
Fixpoint read_digits (s : string) (acc : Z) (count : nat) : Z * nat * string :=
  match s with
  | "" => (acc, count, "")
  | String c s' =>
      match digit_of c with
      | Some d => read_digits s' (10 * acc + d) (S count)
      | None => (acc, count, s)
      end
  end.

Definition read_sign (s : string) : bool * string :=
  match s with
  | String "-" s' => (true, s')
  | String "+" s' => (false, s')
  | _ => (false, s)
  end.

(** The binary64 value nearest to [n * 10 ^ e10], ties to even. *)
Definition float_of_decimal (neg : bool) (n e10 : Z) : spec_float :=
  if n =? 0 then S754_zero neg
  else
    let num := n * 10 ^ Z.max e10 0 in
    let den := 10 ^ Z.max (- e10) 0 in
    let sh := Z.max 0 (64 + Zdigits2 den - Zdigits2 num) in
    let q := (num * 2 ^ sh) / den in
    let r := (num * 2 ^ sh) mod den in
    let loc := if r =? 0 then loc_Exact else loc_Inexact (2 * r ?= den) in
    binary_round_aux prec emax neg q (- sh) loc.

Definition read_exponent (s : string) : option Z :=
  match s with
  | "" => Some 0
  | String c s' =>
      if Ascii.eqb c "e" || Ascii.eqb c "E" then
        let '(neg, s1) := read_sign s' in
        match read_digits s1 0 0 with
        | (e, S _, "") => Some (if neg then - e else e)
        | _ => None
        end
      else None
  end.

Definition float_of_str (s : string) : option spec_float :=
  let '(neg, s0) := read_sign (strip s) in
  let '(ip, ni, s1) := read_digits s0 0 0 in
  let '(m, nf, s2) :=
    match s1 with
    | String "." s1' => let '(m, nf, s2) := read_digits s1' ip 0 in (m, nf, s2)
    | _ => (ip, 0%nat, s1)
    end in
  match (ni + nf)%nat with
  | O => None
  | _ =>
      match read_exponent s2 with
      | Some e => Some (float_of_decimal neg m (e - Z.of_nat nf))
      | None => None
      end
  end.

Definition upper_ascii (c : ascii) : ascii :=
  let n := nat_of_ascii c in
  if ((97 <=? n) && (n <=? 122))%nat then ascii_of_nat (n - 32) else c.

Fixpoint upper (s : string) : string :=
  match s with
  | "" => ""
  | String c s' => String (upper_ascii c) (upper s')
  end.

(** Exactly [n] digits at the front of [s]. *)
Fixpoint fixed_digits (n : nat) (s : string) (acc : Z) : option (Z * string) :=
  match n with
  | O => Some (acc, s)
  | S k =>
      match s with
      | String c s' =>
          match digit_of c with
          | Some d => fixed_digits k s' (10 * acc + d)
          | None => None
          end
      | "" => None
      end
  end.

Definition expect (c : ascii) (s : string) : option string :=
  match s with
  | String c' s' => if Ascii.eqb c c' then Some s' else None
  | "" => None
  end.

Definition is_leap (y : Z) : bool :=
  ((y mod 4 =? 0) && negb (y mod 100 =? 0)) || (y mod 400 =? 0).

Definition days_in_month (y m : Z) : Z :=
  if m =? 2 then (if is_leap y then 29 else 28)
  else if (m =? 4) || (m =? 6) || (m =? 9) || (m =? 11) then 30
  else 31.

Definition read_date (s : string) : option (Z * Z * Z * string) :=
  '(y, s) ← fixed_digits 4 s 0;
  s ← expect "-" s;
  '(m, s) ← fixed_digits 2 s 0;
  s ← expect "-" s;
  '(d, s) ← fixed_digits 2 s 0;
  if (1 <=? y) && (1 <=? m) && (m <=? 12) && (1 <=? d) && (d <=? days_in_month y m)
  then Some (y, m, d, s) else None.

Definition read_hms (s : string) : option (Z * Z * Z * string) :=
  '(h, s) ← fixed_digits 2 s 0;
  s ← expect ":" s;
  '(m, s) ← fixed_digits 2 s 0;
  s ← expect ":" s;
  '(sec, s) ← fixed_digits 2 s 0;
  if (h <? 24) && (m <? 60) && (sec <? 60) then Some (h, m, sec, s) else None.

Definition read_offset (s : string) : option (option Z) :=
  match s with
  | "" => Some None
  | _ =>
      let '(neg, s1) := read_sign s in
      if bool_decide (s1 = s) then None
      else
        '(h, s2) ← fixed_digits 2 s1 0;
        s3 ← expect ":" s2;
        '(m, s4) ← fixed_digits 2 s3 0;
        if bool_decide (s4 = "") && (h <? 24) && (m <? 60)
        then Some (Some ((if neg then -1 else 1) * (h * 3600 + m * 60)))
        else None
  end.

Definition fromisoformat (s : string) : option datetime :=
  '(y, mo, d, s1) ← read_date s;
  match s1 with
  | "" => Some {| year := y; month := mo; day := d; hour := 0; minute := 0; second := 0;
                  microsecond := 0; utcoffset := None |}
  | String _ s2 =>
      '(h, mi, sec, s3) ← read_hms s2;
      off ← read_offset s3;
      Some {| year := y; month := mo; day := d; hour := h; minute := mi; second := sec;
              microsecond := 0; utcoffset := off |}
  end.

Definition runtime : Runtime :=
  {| Py.float_of_str := float_of_str; Py.upper := upper; Py.fromisoformat := fromisoformat |}.

End Cpython.


(** * Properties *)

Import Py.

(** ** The output monad *)

Lemma stdout_of_app (l1 l2 : list event) :
  stdout_of (l1 ++ l2) = stdout_of l1 ++ stdout_of l2.
Proof. unfold stdout_of. apply omap_app. Qed.

Lemma spawned_app (l1 l2 : list event) :
  spawned (l1 ++ l2) = spawned l1 ++ spawned l2.
Proof. unfold spawned. apply omap_app. Qed.

(** ** The combined tool *)

(** [run_tool] always comes back with a code: the child's, or 1 when the
    child could not be started.  It starts exactly one process and prints
    nothing on standard output. *)
Lemma run_tool_returns (w : Status.World) (tool_path : string) (args : list string) :
  Status.raises_Exception_only (Status.returncode w ("python3" :: tool_path :: args)) ->
  exists l,
    Status.run_tool w tool_path args =
      (l, inr (Status.collected (Status.returncode w ("python3" :: tool_path :: args)))) /\
    spawned l = ["python3" :: tool_path :: args] /\
    stdout_of l = [].
Proof.
  unfold Status.run_tool, Status.raises_Exception_only, Status.collected.
  destruct (Status.returncode w ("python3" :: tool_path :: args)) as [e|code]; intros He.
  - cbn. rewrite He. cbn. eexists; split; [reflexivity|]. split; reflexivity.
  - cbn. eexists; split; [reflexivity|]. split; reflexivity.
Qed.

(** C3.  With neither skip flag the combined tool starts both sub-checks,
    in order and whatever the first one returned; it exits 0, printing
    "All checks passed!", exactly when both collected codes are 0, and
    otherwise exits 1 after a PASSED/FAILED line for each sub-check. *)
Theorem combined_runs_both_and_merges (w : Status.World) (args : Status.Args) :
  Status.skip_ci args = false ->
  Status.skip_sonarcloud args = false ->
  Status.raises_Exception_only (Status.returncode w (Status.ci_argv w args)) ->
  Status.raises_Exception_only (Status.returncode w (Status.sonar_argv w args)) ->
  let ci := Status.collected (Status.returncode w (Status.ci_argv w args)) in
  let so := Status.collected (Status.returncode w (Status.sonar_argv w args)) in
  let r := Status.main w args in
  let out := stdout_of (events r) in
  spawned (events r) = [Status.ci_argv w args; Status.sonar_argv w args] /\
  (exit_status r = 0 <-> ci = 0 /\ so = 0) /\
  (exit_status r = 1 <-> ~ (ci = 0 /\ so = 0)) /\
  (In "✅ All checks passed!" out <-> ci = 0 /\ so = 0) /\
  (~ (ci = 0 /\ so = 0) ->
   In ("  CI: " +:+ (if ci =? 0 then "✅ PASSED" else "❌ FAILED")) out /\
   In ("  SonarCloud: " +:+ (if so =? 0 then "✅ PASSED" else "❌ FAILED")) out).
Proof.
  intros Hci Hso Hex1 Hex2 ci so. subst ci so.
  unfold Status.main, Status.run_tool, Status.print_section_header, Status.all_zero.
  unfold Status.ci_argv, Status.sonar_argv, Status.raises_Exception_only,
    Status.collected in *.
  rewrite Hci, Hso.
  destruct (Status.returncode w ("python3" :: Status.ci_tool w :: _)) as [e1|c1];
    destruct (Status.returncode w ("python3" :: Status.sonar_tool w :: _)) as [e2|c2];
    cbn; rewrite ?Hex1, ?Hex2; cbn;
    try destruct c1; try destruct c2; cbn.
  all: split; [reflexivity|].
  all: cbv; intuition (try congruence; try discriminate).
Qed.

(** A world in which the CI check succeeds and the SonarCloud check fails. *)
Example combined_runs_both_and_merges_witness :
  let w := {| Status.ci_tool := "tools/ci_check.py";
              Status.sonar_tool := "tools/sonarcloud_check.py";
              Status.returncode := fun argv =>
                if bool_decide (argv !! 1%nat = Some "tools/ci_check.py") then inr 0 else inr 1 |} in
  let args := {| Status.project := "griswaldbrooks_sonarcloud-cpp-minimal";
                 Status.organization := "griswaldbrooks";
                 Status.ci_limit := 5;
                 Status.skip_ci := false; Status.skip_sonarcloud := false |} in
  spawned (events (Status.main w args)) =
    [["python3"; "tools/ci_check.py"; "--limit"; "5"];
     ["python3"; "tools/sonarcloud_check.py"; "--project";
      "griswaldbrooks_sonarcloud-cpp-minimal"; "--organization"; "griswaldbrooks"]] /\
  exit_status (Status.main w args) = 1 /\
  In "  CI: ✅ PASSED" (stdout_of (events (Status.main w args))) /\
  In "  SonarCloud: ❌ FAILED" (stdout_of (events (Status.main w args))).
Proof.
  intros w args.
  pose proof (combined_runs_both_and_merges w args eq_refl eq_refl I I) as H.
  cbv zeta in H. destruct H as (Hs & _ & H1 & _ & Hl).
  assert (Hne : ~ (Status.collected (Status.returncode w (Status.ci_argv w args)) = 0 /\
                   Status.collected (Status.returncode w (Status.sonar_argv w args)) = 0))
    by (intros [_ Hc]; vm_compute in Hc; discriminate).
  split; [exact Hs|]. split; [apply H1, Hne|]. exact (Hl Hne).
Defined.

(** C10.  With both skip flags no process is started and the tool prints
    the summary with "All checks passed!" and returns 0. *)
Theorem combined_both_skipped (w : Status.World) (p o : string) (l : Z) :
  let args := {| Status.project := p; Status.organization := o; Status.ci_limit := l;
                 Status.skip_ci := true; Status.skip_sonarcloud := true |} in
  Status.main w args =
    (map Stdout
       [repeat_str "=" 70; "PROJECT STATUS CHECK"; repeat_str "=" 70;
        "Project: " +:+ p; repeat_str "=" 70;
        nl; repeat_str "=" 70; "OVERALL STATUS"; repeat_str "=" 70;
        "✅ All checks passed!"; ""; repeat_str "=" 70],
     inr 0) /\
  spawned (events (Status.main w args)) = [] /\
  exit_status (Status.main w args) = 0.
Proof.
  intros args. split; [reflexivity|]. split; reflexivity.
Qed.

(** ** The CI report *)

Section CiReport.
Context {rt : Runtime}.

(** A run with string-valued status and conclusion always has an icon and
    a status text. *)
Lemma icon_and_text_total (run : gmap string pyval) :
  CiCheck.string_valued run -> exists icon text, CiCheck.icon_and_text run = inr (icon, text).
Proof.
  intros [[s Hs] [c Hc]]. unfold CiCheck.icon_and_text. rewrite Hs, Hc. cbn.
  repeat (match goal with |- context [if ?b then _ else _] => destruct b end);
    eauto.
Qed.

(** The line of a run is its icon and status text followed by the fields
    of the run. *)
Lemma format_run_status_line (run : gmap string pyval) (icon text : string) :
  CiCheck.icon_and_text run = inr (icon, text) ->
  CiCheck.format_run_status run =
    inr (icon +:+ " " +:+ text +:+ " - " +:+ str (get run "name" (PStr "Unknown")) +:+
         " (#" +:+ str (get run "databaseId" (PStr "?")) +:+ ")" +:+ nl +:+
         "   Branch: " +:+ str (get run "headBranch" (PStr "unknown")) +:+
         " | Event: " +:+ str (get run "event" (PStr "unknown")) +:+
         " | Time: " +:+ CiCheck.format_time (get run "createdAt" (PStr ""))).
Proof. intros H. unfold CiCheck.format_run_status. rewrite H. reflexivity. Qed.

Lemma format_run_status_total (run : gmap string pyval) :
  CiCheck.string_valued run -> exists line, CiCheck.format_run_status run = inr line.
Proof.
  intros H. destruct (icon_and_text_total run H) as (icon & text & E).
  rewrite (format_run_status_line run icon text E). eauto.
Qed.

(** C5.  For a completed run with a string conclusion the formatter never
    raises; the line starts with the icon and label of the conclusion, and
    a conclusion outside the four known ones gets the question-mark icon. *)
Theorem completed_run_icon_and_label (run : gmap string pyval) (c : string) :
  run !! "status" = Some (PStr "completed") ->
  run !! "conclusion" = Some (PStr c) ->
  exists icon text tail,
    CiCheck.format_run_status run = inr (icon +:+ " " +:+ text +:+ tail) /\
    (c = "success" -> icon = "✅" /\ text = "SUCCESS") /\
    (c = "failure" -> icon = "❌" /\ text = "FAILED") /\
    (c = "cancelled" -> icon = "⚠️" /\ text = "CANCELLED") /\
    (c = "skipped" -> icon = "⚠️" /\ text = "SKIPPED") /\
    (c <> "success" -> c <> "failure" -> c <> "cancelled" -> c <> "skipped" ->
     icon = "❓" /\ text = upper c).
Proof.
  intros Hs Hc.
  assert (E : exists icon text,
             CiCheck.icon_and_text run = inr (icon, text) /\
             (c = "success" -> icon = "✅" /\ text = "SUCCESS") /\
             (c = "failure" -> icon = "❌" /\ text = "FAILED") /\
             (c = "cancelled" -> icon = "⚠️" /\ text = "CANCELLED") /\
             (c = "skipped" -> icon = "⚠️" /\ text = "SKIPPED") /\
             (c <> "success" -> c <> "failure" -> c <> "cancelled" -> c <> "skipped" ->
              icon = "❓" /\ text = upper c)).
  { unfold CiCheck.icon_and_text, get. rewrite Hs, Hc. cbn [eq_str].
    change ("completed" =? "completed")%string with true. cbv iota.
    destruct (String.eqb_spec c "success") as [->|N1].
    { do 2 eexists. split; [reflexivity|]. repeat split; congruence. }
    destruct (String.eqb_spec c "failure") as [->|N2].
    { do 2 eexists. split; [reflexivity|]. repeat split; congruence. }
    destruct (String.eqb_spec c "cancelled") as [->|N3].
    { do 2 eexists. split; [reflexivity|]. repeat split; congruence. }
    destruct (String.eqb_spec c "skipped") as [->|N4].
    { do 2 eexists. split; [reflexivity|]. repeat split; congruence. }
    do 2 eexists. split; [reflexivity|]. repeat split; congruence. }
  destruct E as (icon & text & E & Hcases).
  exists icon, text. eexists. split; [|exact Hcases].
  rewrite (format_run_status_line run icon text E). reflexivity.
Qed.

End CiReport.

Example completed_run_icon_and_label_witness :
  let run : gmap string pyval :=
    {[ "status" := PStr "completed"; "conclusion" := PStr "timed_out";
       "name" := PStr "coverage"; "databaseId" := PInt 42 ]} in
  exists tail,
    CiCheck.format_run_status (H := Cpython.runtime) run = inr ("❓ TIMED_OUT" +:+ tail).
Proof.
  intros run.
  destruct (completed_run_icon_and_label (rt := Cpython.runtime) run "timed_out")
    as (icon & text & tail & E & _ & _ & _ & _ & H);
    [vm_compute; reflexivity | vm_compute; reflexivity |].
  destruct H as [-> ->]; try discriminate.
  exists tail. exact E.
Defined.

Section CiSummary.
Context {rt : Runtime}.

(** One turn of the loop appends one line and increments one counter. *)
Lemma loop_body_step (st st' : CiCheck.loop_state) (run : gmap string pyval) :
  CiCheck.loop_body st run = inr st' ->
  CiCheck.counted st' = S (CiCheck.counted st) /\
  exists line, CiCheck.format_run_status run = inr line /\
               CiCheck.lines st' = CiCheck.lines st ++ [line].
Proof.
  unfold CiCheck.loop_body, CiCheck.counted.
  destruct (CiCheck.format_run_status run) as [e|line]; cbn; [discriminate|].
  destruct (eq_str _ "success"); [|destruct (eq_str _ "failure")];
    intros [= <-]; cbn; (split; [lia|eauto]).
Qed.

Lemma loop_body_total (st : CiCheck.loop_state) (run : gmap string pyval) :
  CiCheck.string_valued run -> exists st', CiCheck.loop_body st run = inr st'.
Proof.
  intros H. destruct (format_run_status_total run H) as [line E].
  unfold CiCheck.loop_body. rewrite E. cbn.
  destruct (eq_str _ "success"); [|destruct (eq_str _ "failure")]; eauto.
Qed.

(** The loop invariant: the counters grow by the number of runs seen, and
    so does the list of lines. *)
Lemma loop_counts (runs : list (gmap string pyval)) :
  forall st st', CiCheck.loop st runs = inr st' ->
    CiCheck.counted st' = (CiCheck.counted st + length runs)%nat /\
    exists new_lines, CiCheck.lines st' = CiCheck.lines st ++ new_lines /\
                      length new_lines = length runs.
Proof.
  induction runs as [|run rest IH]; intros st st'; cbn.
  - intros [= <-]. split; [lia|]. exists []. by rewrite app_nil_r.
  - destruct (CiCheck.loop_body st run) as [e|st1] eqn:E1; cbn; [discriminate|].
    intros E2. apply loop_body_step in E1 as (C1 & line & _ & L1).
    apply IH in E2 as (C2 & ls & L2 & Len).
    split; [lia|]. exists (line :: ls). rewrite L2, L1, <- app_assoc. cbn. auto.
Qed.

Lemma loop_total (runs : list (gmap string pyval)) :
  Forall CiCheck.string_valued runs ->
  forall st, exists st', CiCheck.loop st runs = inr st'.
Proof.
  induction 1 as [|run rest Hrun _ IH]; intros st; cbn; [eauto|].
  destruct (loop_body_total st run Hrun) as [st1 ->]. cbn. apply IH.
Qed.

(** C6.  For runs with string-valued status and conclusion the report is
    produced, and for a non-empty list it ends with the summary, whose
    three counts add up to the number of runs; the runs are listed on as
    many entries. *)
Theorem summary_counts_sum_to_length (self : CiCheck.CIChecker)
    (workflow : option string) (runs : list (gmap string pyval)) :
  Forall CiCheck.string_valued runs ->
  runs <> [] ->
  exists (entries : list string) (s f o : nat),
    CiCheck.report_lines self workflow runs =
      inr (CiCheck.report_header self workflow ++
           ["Recent Runs (showing " +:+ pretty (length runs) +:+ "):"; repeat_str "-" 70] ++
           entries ++
           [""; "Summary:"; repeat_str "-" 70;
            "  Successful: " +:+ pretty s;
            "  Failed: " +:+ pretty f;
            "  Other: " +:+ pretty o;
            ""; repeat_str "=" 70]) /\
    length entries = length runs /\
    (s + f + o)%nat = length runs.
Proof.
  intros Hty Hne.
  set (st0 := {| CiCheck.lines := CiCheck.report_header self workflow ++
                   ["Recent Runs (showing " +:+ pretty (length runs) +:+ "):"; repeat_str "-" 70];
                 CiCheck.success_count := 0; CiCheck.failure_count := 0;
                 CiCheck.other_count := 0 |}).
  destruct (loop_total runs Hty st0) as [st E].
  destruct (loop_counts runs st0 st E) as (C & entries & L & Len).
  exists entries, (CiCheck.success_count st), (CiCheck.failure_count st), (CiCheck.other_count st).
  split; [|split; [exact Len | exact C]].
  unfold CiCheck.report_lines. destruct runs as [|r rs]; [congruence|].
  fold st0. rewrite E. cbn [mbind result_bind bind mret result_ret ret].
  rewrite L. subst st0. cbn [CiCheck.lines]. rewrite <- !app_assoc. reflexivity.
Qed.

End CiSummary.

Example summary_counts_sum_to_length_witness :
  let self := {| CiCheck.repo_owner := "griswaldbrooks";
                 CiCheck.repo_name := "sonarcloud-cpp-minimal" |} in
  let runs : list (gmap string pyval) :=
    [ {[ "status" := PStr "completed"; "conclusion" := PStr "success" ]};
      {[ "status" := PStr "completed"; "conclusion" := PStr "failure" ]};
      {[ "status" := PStr "in_progress"; "conclusion" := PStr "" ]} ] in
  exists (entries : list string) (s f o : nat),
    CiCheck.report_lines (H := Cpython.runtime) self None runs =
      inr (CiCheck.report_header self None ++
           ["Recent Runs (showing 3):"; repeat_str "-" 70] ++
           entries ++
           [""; "Summary:"; repeat_str "-" 70;
            "  Successful: " +:+ pretty s;
            "  Failed: " +:+ pretty f;
            "  Other: " +:+ pretty o;
            ""; repeat_str "=" 70]) /\
    length entries = 3%nat /\
    (s + f + o)%nat = 3%nat.
Proof.
  intros self runs.
  apply (summary_counts_sum_to_length (rt := Cpython.runtime) self None runs).
  - repeat constructor; (eexists; vm_compute; reflexivity).
  - discriminate.
Defined.

(** ** Zero runs *)

Section CiEmpty.
Context {rt : Runtime}.

(** C7.  When the repository is detected, [gh] is there and both fetches
    return the empty list, the tool prints the report with the line
    "No workflow runs found." and returns 0. *)
Theorem no_runs_is_not_an_error (w : CiCheck.World) (args : CiCheck.Args)
    (url version : string) (self : CiCheck.CIChecker) :
  CiCheck.run_checked w CiCheck.git_remote_cmd = inr url ->
  CiCheck.parse_remote_url (strip url) = inr self ->
  CiCheck.run_checked w ["gh"; "--version"] = inr version ->
  CiCheck.run_json w (CiCheck.gh_run_list_cmd (CiCheck.limit args) (CiCheck.workflow args)) = inr [] ->
  CiCheck.run_json w (CiCheck.gh_run_list_cmd 1 (CiCheck.workflow args)) = inr [] ->
  stdout_of (events (CiCheck.main w args)) =
    [join_lines (CiCheck.report_header self (CiCheck.workflow args) ++
                 ["No workflow runs found."; ""; repeat_str "=" 70])] /\
  (CiCheck.main w args).2 = inr 0 /\
  exit_status (CiCheck.main w args) = 0.
Proof.
  intros Hgit Hparse Hgh Hfetch Hlast.
  assert (E : CiCheck.main w args =
    ([Spawn CiCheck.git_remote_cmd; Spawn ["gh"; "--version"];
      Spawn (CiCheck.gh_run_list_cmd (CiCheck.limit args) (CiCheck.workflow args));
      Stdout (join_lines (CiCheck.report_header self (CiCheck.workflow args) ++
                          ["No workflow runs found."; ""; repeat_str "=" 70]));
      Spawn (CiCheck.gh_run_list_cmd 1 (CiCheck.workflow args))], inr 0)).
  { unfold CiCheck.main, CiCheck.new_CIChecker, CiCheck._detect_repo, CiCheck.check_gh_cli,
      CiCheck.format_status_report, CiCheck.get_workflow_runs_gh, CiCheck.subprocess_run,
      CiCheck.report_lines.
    rewrite Hgit, Hgh, Hfetch, Hlast.
    cbn -[CiCheck.gh_run_list_cmd CiCheck.report_header repeat_str join_lines strip
          CiCheck.parse_remote_url CiCheck.git_remote_cmd].
    rewrite Hparse.
    cbn -[CiCheck.gh_run_list_cmd CiCheck.report_header repeat_str join_lines
          CiCheck.git_remote_cmd].
    reflexivity. }
  rewrite E. repeat split.
Qed.

End CiEmpty.

Example no_runs_is_not_an_error_witness :
  let w := {| CiCheck.run_checked := fun argv =>
                if bool_decide (argv = ["git"; "remote"; "get-url"; "origin"])
                then inr ("https://github.com/griswaldbrooks/sonarcloud-cpp-minimal.git" +:+ nl)
                else inr "gh version 2.40.1";
              CiCheck.run_json := fun _ => inr [] |} in
  let args := {| CiCheck.limit := 5; CiCheck.workflow := None |} in
  let self := {| CiCheck.repo_owner := "griswaldbrooks";
                 CiCheck.repo_name := "sonarcloud-cpp-minimal" |} in
  stdout_of (events (CiCheck.main (H := Cpython.runtime) w args)) =
    [join_lines (CiCheck.report_header self None ++
                 ["No workflow runs found."; ""; repeat_str "=" 70])] /\
  (CiCheck.main (H := Cpython.runtime) w args).2 = inr 0 /\
  exit_status (CiCheck.main (H := Cpython.runtime) w args) = 0.
Proof.
  intros w args self.
  apply (no_runs_is_not_an_error (rt := Cpython.runtime) w args
           ("https://github.com/griswaldbrooks/sonarcloud-cpp-minimal.git" +:+ nl)
           "gh version 2.40.1" self).
  all: vm_compute; reflexivity.
Defined.

(** ** Timestamps *)

(** A text without the old string is left as it is by [replace]. *)
Lemma replace_go_absent (old new s : string) :
  contains old s = false -> replace_go old new 0 s = s.
Proof.
  induction s as [|c s IH]; [reflexivity|].
  cbn [contains replace_go]. intros H. apply orb_false_iff in H as [Hp Hc].
  rewrite Hp. f_equal. apply IH, Hc.
Qed.

Lemma replace_absent (old new s : string) :
  contains old s = false -> replace old new s = s.
Proof. apply replace_go_absent. Qed.

Lemma append_assoc (a b c : string) : (a +:+ b) +:+ c = a +:+ (b +:+ c).
Proof.
  induction a as [|x a IH]; [reflexivity|].
  change (String x ((a +:+ b) +:+ c) = String x (a +:+ (b +:+ c))). by rewrite IH.
Qed.

Lemma append_nil_r (a : string) : a +:+ "" = a.
Proof.
  induction a as [|x a IH]; [reflexivity|].
  change (String x (a +:+ "") = String x a). by rewrite IH.
Qed.

(** [replace] and [split] work through a front part in which no occurrence
    starts. *)
Lemma replace_go_front (old new front rest : string) :
  starts_within old front rest = false ->
  replace_go old new 0 (front +:+ rest) = front +:+ replace_go old new 0 rest.
Proof.
  induction front as [|c front IH]; [reflexivity|].
  cbn [starts_within]. intros H. apply orb_false_iff in H as [Hp Hw].
  change (String c front +:+ rest) with (String c (front +:+ rest)) in *.
  cbn [replace_go]. rewrite Hp.
  change (String c front +:+ replace_go old new 0 rest)
    with (String c (front +:+ replace_go old new 0 rest)).
  f_equal. apply IH, Hw.
Qed.

Lemma prefix_single (c d : ascii) (s : string) :
  String.prefix (String c "") (String d s) = Ascii.eqb c d.
Proof.
  cbn. destruct (ascii_dec c d) as [->|N].
  - rewrite Ascii.eqb_refl. by destruct s.
  - symmetry. by apply Ascii.eqb_neq.
Qed.

Lemma starts_within_single (c : ascii) (front rest : string) :
  contains (String c "") front = false -> starts_within (String c "") front rest = false.
Proof.
  induction front as [|d front IH]; [reflexivity|].
  cbn [contains starts_within]. intros H. apply orb_false_iff in H as [Hp Hc].
  change (String d front +:+ rest) with (String d (front +:+ rest)).
  rewrite prefix_single in *. rewrite Hp. cbn. apply IH, Hc.
Qed.

(** Replacing the designator in a text whose only [Z] is the last
    character rewrites that character. *)
Lemma replace_trailing_Z (t : string) :
  contains "Z" t = false -> replace "Z" "+00:00" (t +:+ "Z") = t +:+ "+00:00".
Proof.
  intros H. unfold replace. rewrite replace_go_front by by apply starts_within_single.
  reflexivity.
Qed.

Section Timestamps.
Context {rt : Runtime}.

Lemma format_time_str (s : string) :
  CiCheck.format_time (PStr s) =
    match fromisoformat (replace "Z" "+00:00" s) with
    | Some dt => strftime_ymd_hms dt
    | None => s
    end.
Proof.
  unfold CiCheck.format_time. cbn.
  by destruct (fromisoformat (replace "Z" "+00:00" s)).
Qed.

(** A timestamp never makes the formatting of a run fail. *)
Lemma format_time_never_fatal (run : gmap string pyval) (icon text : string) :
  CiCheck.icon_and_text run = inr (icon, text) ->
  exists line, CiCheck.format_run_status run = inr line.
Proof. intros H. rewrite (format_run_status_line run icon text H). eauto. Qed.

(** Two digits with a leading zero, as [%m], [%d], [%H], [%M] and [%S]
    print them. *)
Lemma pad_two_digits (z : Z) :
  0 <= z <= 99 ->
  pad 2 z = String (ascii_of_N (Z.to_N (48 + z / 10)))
              (String (ascii_of_N (Z.to_N (48 + z mod 10))) "").
Proof.
  intros Hz.
  assert (Hn : exists n : nat, (n < 100)%nat /\ z = Z.of_nat n).
  { exists (Z.to_nat z). split; lia. }
  destruct Hn as (n & Hn & ->). clear Hz.
  do 100 (destruct n as [|n]; [vm_compute; reflexivity|]).
  lia.
Qed.

Lemma strftime_pattern (dt : datetime) :
  valid_fields dt ->
  let two := fun z : Z =>
    String (ascii_of_N (Z.to_N (48 + z / 10)))
      (String (ascii_of_N (Z.to_N (48 + z mod 10))) "") in
  strftime_ymd_hms dt =
    pretty (year dt) +:+ "-" +:+ two (month dt) +:+ "-" +:+ two (day dt) +:+ " " +:+
    two (hour dt) +:+ ":" +:+ two (minute dt) +:+ ":" +:+ two (second dt).
Proof.
  intros (_ & Hm & Hd & Hh & Hmi & Hs) two. unfold strftime_ymd_hms.
  rewrite !pad_two_digits by lia. reflexivity.
Qed.

(** C8.  Both formatters send the timestamp, with [Z] replaced by
    [+00:00], to the ISO-8601 parser.  When it parses, the report shows
    the year, a dash, month and day in two digits with a dash between, a
    space, and hour, minute and second in two digits with colons between
    (followed by [ UTC] in the SonarCloud report).  When it does not parse,
    the report shows the fetched text unchanged.  In neither case is an
    exception raised.  For a text whose only [Z] is a trailing one the
    replacement rewrites exactly that designator, and a text without [Z]
    is parsed as it is. *)
Theorem timestamp_reformatted_or_verbatim (s : string)
    (run analysis : gmap string pyval) (icon text : string) :
  run !! "createdAt" = Some (PStr s) ->
  CiCheck.icon_and_text run = inr (icon, text) ->
  analysis !! "date" = Some (PStr s) ->
  let parsed := fromisoformat (replace "Z" "+00:00" s) in
  let two := fun z : Z =>
    String (ascii_of_N (Z.to_N (48 + z / 10)))
      (String (ascii_of_N (Z.to_N (48 + z mod 10))) "") in
  (forall dt, parsed = Some dt -> valid_fields dt ->
     let stamp :=
       pretty (year dt) +:+ "-" +:+ two (month dt) +:+ "-" +:+ two (day dt) +:+ " " +:+
       two (hour dt) +:+ ":" +:+ two (minute dt) +:+ ":" +:+ two (second dt) in
     (exists head, CiCheck.format_run_status run = inr (head +:+ " | Time: " +:+ stamp)) /\
     SonarCheck.analysis_lines (Some analysis) = ["Last Analysis: " +:+ stamp +:+ " UTC"; ""]) /\
  (parsed = None ->
     (exists head, CiCheck.format_run_status run = inr (head +:+ " | Time: " +:+ s)) /\
     SonarCheck.analysis_lines (Some analysis) = ["Last Analysis: " +:+ s; ""]) /\
  (exists line, CiCheck.format_run_status run = inr line) /\
  (forall t, s = t +:+ "Z" -> contains "Z" t = false ->
             replace "Z" "+00:00" s = t +:+ "+00:00") /\
  (contains "Z" s = false -> replace "Z" "+00:00" s = s).
Proof.
  intros Hc Hi Hd parsed two.
  assert (Hrun : exists head,
             CiCheck.format_run_status run =
               inr (head +:+ " | Time: " +:+
                    match parsed with Some dt => strftime_ymd_hms dt | None => s end)).
  { rewrite (format_run_status_line run icon text Hi).
    unfold get at 5. rewrite Hc, format_time_str. fold parsed.
    eexists (icon +:+ " " +:+ text +:+ " - " +:+ str (get run "name" (PStr "Unknown")) +:+
             " (#" +:+ str (get run "databaseId" (PStr "?")) +:+ ")" +:+ nl +:+
             "   Branch: " +:+ str (get run "headBranch" (PStr "unknown")) +:+
             " | Event: " +:+ str (get run "event" (PStr "unknown"))).
    rewrite !append_assoc. reflexivity. }
  assert (Hana : SonarCheck.analysis_lines (Some analysis) =
             ["Last Analysis: " +:+
                match parsed with Some dt => strftime_ymd_hms dt +:+ " UTC" | None => s end;
              ""]).
  { unfold SonarCheck.analysis_lines.
    destruct (decide (analysis = ∅)) as [->|_]; [by rewrite lookup_empty in Hd|].
    unfold get. rewrite Hd. cbn. fold parsed. by destruct parsed. }
  split; [|split; [|split; [|split]]].
  - intros dt Hp Hv stamp. rewrite Hp in Hrun, Hana.
    pose proof (strftime_pattern dt Hv) as Hs. cbn zeta in Hs. fold two in Hs.
    fold stamp in Hs. rewrite Hs in Hrun, Hana. by split.
  - intros Hp. rewrite Hp in Hrun, Hana. by split.
  - by eapply format_time_never_fatal.
  - intros t -> Ht. by apply replace_trailing_Z.
  - apply replace_absent.
Qed.

End Timestamps.

Example timestamp_reformatted_or_verbatim_witness :
  let s := "2024-01-15T10:30:00Z" in
  let run : gmap string pyval :=
    {[ "status" := PStr "completed"; "conclusion" := PStr "success"; "createdAt" := PStr s ]} in
  let analysis : gmap string pyval := {[ "date" := PStr s ]} in
  (exists head,
     CiCheck.format_run_status (H := Cpython.runtime) run =
       inr (head +:+ " | Time: " +:+ "2024-01-15 10:30:00")) /\
  SonarCheck.analysis_lines (H := Cpython.runtime) (Some analysis) =
    ["Last Analysis: 2024-01-15 10:30:00 UTC"; ""].
Proof.
  intros s run analysis.
  destruct (timestamp_reformatted_or_verbatim (rt := Cpython.runtime) s run analysis
              "✅" "SUCCESS") as (H & _);
    [vm_compute; reflexivity..|].
  apply (H {| year := 2024; month := 1; day := 15; hour := 10; minute := 30; second := 0;
              microsecond := 0; utcoffset := Some 0 |}).
  - vm_compute. reflexivity.
  - unfold valid_fields. cbn. lia.
Defined.

(** A year below 1000 is shown with the digits it has. *)
Example timestamp_of_year_999 :
  CiCheck.format_time (H := Cpython.runtime) (PStr "0999-01-15T10:30:00Z") =
    "999-01-15 10:30:00".
Proof. vm_compute. reflexivity. Qed.

(** A text that is no timestamp is shown as it came. *)
Example timestamp_verbatim_example :
  CiCheck.format_time (H := Cpython.runtime) (PStr "yesterday at noon") = "yesterday at noon" /\
  CiCheck.format_time (H := Cpython.runtime) PNone = "None" /\
  SonarCheck.analysis_lines (H := Cpython.runtime) (Some {[ "date" := PStr "2024-13-45" ]}) =
    ["Last Analysis: 2024-13-45"; ""].
Proof. repeat split; vm_compute; reflexivity. Qed.

(** ** The SonarCloud report *)

Section SonarReport.
Context {rt : Runtime}.

(** [_get] hands over the answer or ends in an exception. *)
Lemma get_answer {A} (answer : result A) (l : list event) (a : A) :
  SonarCheck._get answer = (l, inr a) -> answer = inr a /\ l = [].
Proof.
  unfold SonarCheck._get. destruct answer as [e|a']; cbn.
  - destruct (SonarCheck.catches_request e); cbn; discriminate.
  - by intros [= <- <-].
Qed.

Lemma get_failure {A} (e : exn) :
  exists l e', SonarCheck._get (A := A) (inl e) = (l, inl e').
Proof.
  unfold SonarCheck._get. cbn. destruct (SonarCheck.catches_request e); cbn; eauto.
Qed.

(** What a produced report is made of. *)
Lemma report_produced (w : SonarCheck.World) (self : SonarCheck.SonarCloudChecker)
    (component : option string) (l : list event) (report : string) :
  SonarCheck.format_status_report w self component = (l, inr report) ->
  exists an oqg ms detail cov dl,
    SonarCheck.analyses w = inr an /\
    SonarCheck.project_status w 0 = inr oqg /\
    SonarCheck.component_measures w = inr ms /\
    SonarCheck.get_coverage_detail w component = ([], inr detail) /\
    let measures := SonarCheck.measures_dict (PStr "0") (default [] (default None ms)) in
    SonarCheck.coverage_line measures = inr cov /\
    SonarCheck.coverage_detail_lines detail = inr dl /\
    l = [] /\
    report = join_lines
      (SonarCheck.report_header self component ++
       SonarCheck.analysis_lines (head (default [] an)) ++
       SonarCheck.gate_lines (default ∅ oqg) ++
       ["Project Metrics:"; repeat_str "-" 70] ++
       [cov] ++ SonarCheck.issue_lines measures ++ dl ++ [""; repeat_str "=" 70]).
Proof.
  unfold SonarCheck.format_status_report, SonarCheck.get_recent_analysis,
    SonarCheck.get_quality_gate_status, SonarCheck.get_project_measures.
  destruct (SonarCheck.analyses w) as [e|an].
  { destruct (get_failure (A := option (list (gmap string pyval))) e) as (l' & e' & ->).
    cbn. discriminate. }
  destruct (SonarCheck.project_status w 0) as [e|oqg].
  { destruct (get_failure (A := option (gmap string pyval)) e) as (l' & e' & ->).
    cbn. discriminate. }
  destruct (SonarCheck.component_measures w) as [e|ms].
  { destruct (get_failure (A := option (option (list SonarCheck.measure))) e) as (l' & e' & ->).
    cbn. discriminate. }
  cbn -[SonarCheck.report_header SonarCheck.analysis_lines SonarCheck.gate_lines
        SonarCheck.coverage_line SonarCheck.issue_lines SonarCheck.get_coverage_detail
        SonarCheck.coverage_detail_lines join_lines repeat_str SonarCheck.measures_dict].
  destruct (SonarCheck.coverage_line _) as [e|cov] eqn:Ecov;
    cbn -[SonarCheck.report_header SonarCheck.analysis_lines SonarCheck.gate_lines
          SonarCheck.issue_lines SonarCheck.get_coverage_detail
          SonarCheck.coverage_detail_lines join_lines repeat_str SonarCheck.measures_dict];
    [discriminate|].
  destruct (SonarCheck.get_coverage_detail w component) as [ld [e|detail]] eqn:Edet;
    cbn -[SonarCheck.report_header SonarCheck.analysis_lines SonarCheck.gate_lines
          SonarCheck.issue_lines SonarCheck.coverage_detail_lines join_lines repeat_str
          SonarCheck.measures_dict];
    [discriminate|].
  destruct (SonarCheck.coverage_detail_lines detail) as [e|dl] eqn:Edl;
    cbn -[SonarCheck.report_header SonarCheck.analysis_lines SonarCheck.gate_lines
          SonarCheck.issue_lines join_lines repeat_str SonarCheck.measures_dict];
    [discriminate|].
  intros [= <- <-].
  assert (ld = []) as ->.
  { revert Edet. unfold SonarCheck.get_coverage_detail.
    destruct (SonarCheck.components w) as [e|cs].
    { destruct (get_failure (A := option (list SonarCheck.file_info)) e) as (l' & e' & ->).
      cbn. discriminate. }
    cbn. destruct (truthy_opt component); cbn.
    - destruct (SonarCheck.filter_components _ _); cbn; congruence.
    - congruence. }
  exists an, oqg, ms, detail, cov, dl. cbn zeta. rewrite Ecov.
  repeat split; try reflexivity; try assumption.
  unfold SonarCheck.report_header. rewrite <- !app_assoc. reflexivity.
Qed.

End SonarReport.

(** ** The quality gate *)

Lemma eq_str_true (v : pyval) (lit : string) : eq_str v lit = true <-> v = PStr lit.
Proof.
  destruct v; cbn; try (split; [discriminate|congruence]).
  rewrite String.eqb_eq. split; congruence.
Qed.

Lemma eq_str_false (v : pyval) (lit : string) : eq_str v lit = false <-> v <> PStr lit.
Proof.
  rewrite <- eq_str_true. destruct (eq_str v lit); split; congruence.
Qed.

(** The test of the aggregator and the status shown by the formatter agree
    on what an error is. *)
Lemma gate_failed_status (qg : gmap string pyval) :
  SonarCheck.gate_failed qg = eq_str (get qg "status" (PStr "UNKNOWN")) "ERROR".
Proof. unfold SonarCheck.gate_failed, get. by destruct (qg !! "status"). Qed.

Lemma gate_lines_cases (qg : gmap string pyval) :
  let status := get qg "status" (PStr "UNKNOWN") in
  (status = PStr "OK" -> SonarCheck.gate_lines qg = ["Quality Gate: ✅ OK"; ""]) /\
  (status = PStr "ERROR" -> SonarCheck.gate_lines qg = ["Quality Gate: ❌ ERROR"; ""]) /\
  (status <> PStr "OK" -> status <> PStr "ERROR" ->
   SonarCheck.gate_lines qg = ["Quality Gate: ⚠️ " +:+ str status; ""]).
Proof.
  intros status. unfold SonarCheck.gate_lines. fold status. repeat split.
  - intros ->. reflexivity.
  - intros ->. reflexivity.
  - intros H1 H2. apply eq_str_false in H1, H2. rewrite H1, H2. reflexivity.
Qed.

Section SonarGate.
Context {rt : Runtime}.

(** Once the report is produced it is printed, and the quality gate is
    asked again. *)
Lemma main_after_report (w : SonarCheck.World) (args : SonarCheck.Args)
    (l : list event) (report : string) :
  SonarCheck.format_status_report w
    {| SonarCheck.organization := SonarCheck.arg_organization args;
       SonarCheck.project_key := SonarCheck.project args |}
    (SonarCheck.component args) = (l, inr report) ->
  match SonarCheck.project_status w 1 with
  | inr oqg =>
      SonarCheck.main w args =
        ([Stdout report], inr (if SonarCheck.gate_failed (default ∅ oqg) then 1 else 0))
  | inl e =>
      stdout_of (events (SonarCheck.main w args)) = [report] /\
      (e = RequestException -> exit_status (SonarCheck.main w args) = 1)
  end.
Proof.
  intros E. destruct (report_produced _ _ _ _ _ E) as (an & oqg & ms & detail & cov & dl & H).
  destruct H as (_ & _ & _ & _ & _ & _ & -> & _).
  unfold SonarCheck.main. rewrite E. unfold SonarCheck.get_quality_gate_status.
  destruct (SonarCheck.project_status w 1) as [e|oqg'].
  - split; [by destruct e|]. by intros ->.
  - cbn. by destruct (SonarCheck.gate_failed (default ∅ oqg')).
Qed.

(** C2.  In a produced report the gate line carries the check mark for OK,
    the cross for ERROR and the warning sign for any other status of the
    snapshot the formatter fetched.  The aggregator fetches the gate again
    once the report is printed and returns 1 when the status it finds is
    ERROR and 0 for every other status.  So when both requests find the
    same status, OK gives the check mark and 0, ERROR the cross and 1, and
    any other status the warning sign and 0. *)
Theorem gate_status_icon_and_exit_code (w : SonarCheck.World) (args : SonarCheck.Args)
    (l : list event) (report : string) :
  SonarCheck.format_status_report w
    {| SonarCheck.organization := SonarCheck.arg_organization args;
       SonarCheck.project_key := SonarCheck.project args |}
    (SonarCheck.component args) = (l, inr report) ->
  exists qg,
    SonarCheck.get_quality_gate_status w 0 = ([], inr qg) /\
    (exists before after,
       report = join_lines (before ++ SonarCheck.gate_lines qg ++ after)) /\
    let status := get qg "status" (PStr "UNKNOWN") in
    (status = PStr "OK" -> SonarCheck.gate_lines qg = ["Quality Gate: ✅ OK"; ""]) /\
    (status = PStr "ERROR" -> SonarCheck.gate_lines qg = ["Quality Gate: ❌ ERROR"; ""]) /\
    (status <> PStr "OK" -> status <> PStr "ERROR" ->
     SonarCheck.gate_lines qg = ["Quality Gate: ⚠️ " +:+ str status; ""]) /\
    (forall qg',
       SonarCheck.get_quality_gate_status w 1 = ([], inr qg') ->
       let status' := get qg' "status" (PStr "UNKNOWN") in
       stdout_of (events (SonarCheck.main w args)) = [report] /\
       (status' = PStr "ERROR" -> exit_status (SonarCheck.main w args) = 1) /\
       (status' <> PStr "ERROR" -> exit_status (SonarCheck.main w args) = 0)) /\
    (SonarCheck.project_status w 1 = SonarCheck.project_status w 0 ->
     (status = PStr "OK" -> exit_status (SonarCheck.main w args) = 0) /\
     (status = PStr "ERROR" -> exit_status (SonarCheck.main w args) = 1) /\
     (status <> PStr "OK" -> status <> PStr "ERROR" ->
      exit_status (SonarCheck.main w args) = 0)).
Proof.
  intros E.
  pose proof (main_after_report w args l report E) as Hmain.
  destruct (report_produced _ _ _ _ _ E) as (an & oqg & ms & detail & cov & dl & H).
  destruct H as (_ & Hq & _ & _ & _ & _ & _ & Hrep).
  exists (default ∅ oqg). split.
  { unfold SonarCheck.get_quality_gate_status. rewrite Hq. reflexivity. }
  split.
  { eexists _, _. rewrite Hrep. rewrite (app_assoc (SonarCheck.report_header _ _)).
    reflexivity. }
  intros status. destruct (gate_lines_cases (default ∅ oqg)) as (L1 & L2 & L3).
  fold status in L1, L2, L3.
  split; [exact L1|]. split; [exact L2|]. split; [exact L3|].
  assert (Hagg : forall oqg', SonarCheck.project_status w 1 = inr oqg' ->
            let status' := get (default ∅ oqg') "status" (PStr "UNKNOWN") in
            stdout_of (events (SonarCheck.main w args)) = [report] /\
            (status' = PStr "ERROR" -> exit_status (SonarCheck.main w args) = 1) /\
            (status' <> PStr "ERROR" -> exit_status (SonarCheck.main w args) = 0)).
  { intros oqg' Hq' status'. rewrite Hq' in Hmain.
    unfold exit_status, events. rewrite Hmain, gate_failed_status. fold status'. cbn [fst snd].
    split; [reflexivity|]. split.
    - intros Hs. by rewrite Hs.
    - intros Hs. apply eq_str_false in Hs. by rewrite Hs. }
  split.
  - intros qg' Hq'. unfold SonarCheck.get_quality_gate_status in Hq'.
    destruct (SonarCheck.project_status w 1) as [e|oqg'] eqn:E1.
    { destruct (get_failure (A := option (gmap string pyval)) e) as (l' & e' & He).
      rewrite He in Hq'. cbn in Hq'. discriminate. }
    cbn in Hq'. injection Hq' as <-. by apply Hagg.
  - intros Hsame. rewrite Hq in Hsame.
    destruct (Hagg oqg Hsame) as (_ & H1 & H0). cbn zeta in H1, H0. fold status in H1, H0.
    split; [|split].
    + intros Hs. apply H0. rewrite Hs. discriminate.
    + exact H1.
    + intros _ Hs. by apply H0.
Qed.

End SonarGate.

(** ** Comparing a float with an integer threshold *)

Lemma digits2_pos_bounds (m : positive) :
  2 ^ (Z.pos (digits2_pos m) - 1) <= Z.pos m < 2 ^ Z.pos (digits2_pos m).
Proof.
  induction m as [m IH|m IH|]; cbn [digits2_pos].
  - rewrite Pos2Z.inj_succ, Z.pow_succ_r by lia.
    replace (Z.succ (Z.pos (digits2_pos m)) - 1) with (Z.succ (Z.pos (digits2_pos m) - 1)) by lia.
    rewrite Z.pow_succ_r by lia. lia.
  - rewrite Pos2Z.inj_succ, Z.pow_succ_r by lia.
    replace (Z.succ (Z.pos (digits2_pos m)) - 1) with (Z.succ (Z.pos (digits2_pos m) - 1)) by lia.
    rewrite Z.pow_succ_r by lia. lia.
  - cbn. lia.
Qed.

(** The mantissa and exponent of a binary64 value: at most 53 bits, and
    exactly 53 above the smallest exponent. *)
Lemma bounded_binary64 (m : positive) (e : Z) :
  bounded prec emax m e = true ->
  -1074 <= e <= 971 /\ Z.pos m < 2 ^ 53 /\ (-1074 < e -> 2 ^ 52 <= Z.pos m).
Proof.
  unfold bounded, canonical_mantissa, fexp, emin, prec, emax.
  intros H. apply andb_true_iff in H as [H1 H2].
  apply Z.eqb_eq in H1. apply Z.leb_le in H2.
  pose proof (digits2_pos_bounds m) as [Hlo Hhi].
  set (d := Z.pos (digits2_pos m)) in *.
  assert (Hd : 0 < d) by (subst d; lia).
  destruct (Z.max_spec (d + e - 53) (3 - 1024 - 53)) as [[Hlt Hmax]|[Hge Hmax]];
    rewrite Hmax in H1.
  - assert (d <= 53) by lia.
    assert (2 ^ d <= 2 ^ 53) by (apply Z.pow_le_mono_r; lia).
    repeat split; try lia.
  - assert (d = 53) as Hd53 by lia. rewrite Hd53 in *.
    change (53 - 1) with 52 in Hlo. repeat split; lia.
Qed.

(** Comparison of a threshold [K = mt * 2 ^ (- k)], given with a 53-bit
    mantissa, with a positive binary64 value. *)
Lemma SFleb_threshold (mt : positive) (k K : Z) (m : positive) (e : Z) :
  0 < k <= 1073 ->
  Z.pos mt = K * 2 ^ k ->
  2 ^ 52 <= Z.pos mt < 2 ^ 53 ->
  bounded prec emax m e = true ->
  SFleb (S754_finite false mt (- k)) (S754_finite false m e) = true <->
  (if 0 <=? e then K <= Z.pos m * 2 ^ e else K * 2 ^ (- e) <= Z.pos m).
Proof.
  intros Hk HK Hmt Hb. apply bounded_binary64 in Hb as (He & Hhi & Hlo).
  assert (HKpos : 0 < K).
  { assert (0 < 2 ^ k) by (apply Z.pow_pos_nonneg; lia). nia. }
  assert (Hhalf : 2 * (K * 2 ^ (k - 1)) = Z.pos mt).
  { rewrite HK. replace k with (Z.succ (k - 1)) at 2 by lia.
    rewrite Z.pow_succ_r by lia. lia. }
  unfold SFleb, SFcompare.
  destruct (Z.compare_spec (- k) e) as [Heq|Hlt|Hgt].
  - subst e. destruct (Z.leb_spec 0 (- k)) as [?|_]; [lia|].
    rewrite Z.opp_involutive, <- HK.
    change (Pos.compare_cont Eq mt m) with (Pos.compare mt m).
    destruct (Pos.compare_spec mt m) as [->|?|?]; split; intros; try lia; try discriminate.
  - split; [intros _|reflexivity].
    specialize (Hlo ltac:(lia)).
    destruct (Z.leb_spec 0 e) as [Hpos|Hneg].
    + assert (0 < 2 ^ e) by (apply Z.pow_pos_nonneg; lia).
      assert (0 <= K * 2 ^ (k - 1) - K).
      { assert (0 < 2 ^ (k - 1)) by (apply Z.pow_pos_nonneg; lia). nia. }
      nia.
    + assert (2 ^ (- e) <= 2 ^ (k - 1)) by (apply Z.pow_le_mono_r; lia).
      nia.
  - split; [discriminate|].
    destruct (Z.leb_spec 0 e) as [?|_]; [lia|].
    intros Hle. exfalso.
    assert (2 ^ (k + 1) <= 2 ^ (- e)) by (apply Z.pow_le_mono_r; lia).
    assert (2 ^ (k + 1) = 2 * 2 ^ k).
    { replace (k + 1) with (Z.succ k) by lia. rewrite Z.pow_succ_r; lia. }
    nia.
Qed.

(** [x >= K] on floats is the comparison of the number [x] stands for. *)
Lemma float_ge_int_value (K : Z) (mt : positive) (k : Z) (x : spec_float) (q : Q) :
  float_of_Z K = S754_finite false mt (- k) ->
  0 < k <= 1073 ->
  Z.pos mt = K * 2 ^ k ->
  2 ^ 52 <= Z.pos mt < 2 ^ 53 ->
  valid_binary prec emax x = true ->
  float_value x = Some q ->
  float_ge_int x K = true <-> (inject_Z K <= q)%Q.
Proof.
  intros HfK Hk HK Hmt Hv Hq.
  assert (HKpos : 0 < K).
  { assert (0 < 2 ^ k) by (apply Z.pow_pos_nonneg; lia). nia. }
  unfold float_ge_int. rewrite HfK.
  destruct x as [s|s| |s m e]; cbn in Hq; try discriminate.
  - injection Hq as <-. cbn. split; [discriminate|].
    change 0%Q with (inject_Z 0). rewrite <- (Zle_Qle K 0). lia.
  - cbn in Hv. injection Hq as <-.
    assert (Hmag : forall z : Q,
              z = (if 0 <=? e then inject_Z (Z.pos m * 2 ^ e)
                   else (Z.pos m # 2 ^ Z.to_pos (- e))%Q) ->
              ((inject_Z K <= z)%Q <->
               (if 0 <=? e then K <= Z.pos m * 2 ^ e else K * 2 ^ (- e) <= Z.pos m)) /\
              (0 < z)%Q).
    { intros z ->. destruct (Z.leb_spec 0 e) as [Hpos|Hneg].
      - split; [by rewrite <- Zle_Qle|].
        assert (0 < 2 ^ e) by (apply Z.pow_pos_nonneg; lia).
        change 0%Q with (inject_Z 0). rewrite <- Zlt_Qlt. nia.
      - split; [|reflexivity].
        unfold Qle. cbn [Qnum Qden inject_Z].
        rewrite Pos2Z.inj_pow, Z2Pos.id by lia. lia. }
    destruct (Hmag _ eq_refl) as [Hiff Hpos].
    destruct s.
    + cbn. split; [discriminate|]. intros Hle. exfalso.
      assert (0 < inject_Z K)%Q by (change 0%Q with (inject_Z 0); by rewrite <- Zlt_Qlt).
      set (z := if 0 <=? e then _ else _) in *.
      assert (inject_Z K <= 0)%Q.
      { eapply Qle_trans; [exact Hle|].
        apply (Qopp_le_compat 0 z), Qlt_le_weak, Hpos. }
      eapply Qlt_irrefl, Qlt_le_trans; eassumption.
    + rewrite Hiff. by apply SFleb_threshold.
Qed.

(** The icon of a finite coverage value follows the number it stands for. *)
Lemma cov_icon_tiers (x : spec_float) (q : Q) :
  valid_binary prec emax x = true ->
  float_value x = Some q ->
  ((80 <= q)%Q -> SonarCheck.cov_icon x = "✅") /\
  ((60 <= q)%Q /\ (q < 80)%Q -> SonarCheck.cov_icon x = "⚠️") /\
  ((q < 60)%Q -> SonarCheck.cov_icon x = "❌").
Proof.
  intros Hv Hq.
  assert (H80 : float_ge_int x 80 = true <-> (inject_Z 80 <= q)%Q).
  { apply (float_ge_int_value 80 5629499534213120 46);
      [vm_compute; reflexivity | lia | vm_compute; reflexivity
      | split; [vm_compute; discriminate | vm_compute; reflexivity]
      | exact Hv | exact Hq]. }
  assert (H60 : float_ge_int x 60 = true <-> (inject_Z 60 <= q)%Q).
  { apply (float_ge_int_value 60 8444249301319680 47);
      [vm_compute; reflexivity | lia | vm_compute; reflexivity
      | split; [vm_compute; discriminate | vm_compute; reflexivity]
      | exact Hv | exact Hq]. }
  change (inject_Z 80) with 80%Q in H80. change (inject_Z 60) with 60%Q in H60.
  unfold SonarCheck.cov_icon.
  destruct (float_ge_int x 80) eqn:E80; destruct (float_ge_int x 60) eqn:E60.
  all: repeat split; try reflexivity.
  all: intros; exfalso.
  all: repeat match goal with
       | H : _ /\ _ |- _ => destruct H
       | H : true = true <-> _ |- _ => apply proj1 in H; specialize (H eq_refl)
       | H : false = true <-> _ |- _ => apply proj2 in H
       end.
  all: try (eapply Qlt_irrefl, Qlt_le_trans; eassumption).
  all: try (discriminate (H80 ltac:(assumption))).
  all: try (discriminate (H60 ltac:(assumption))).
  all: try (assert (60 <= q)%Q by (eapply Qle_trans; [|eassumption]; discriminate);
            discriminate (H60 ltac:(assumption))).
Qed.

(** ** The coverage line *)

Lemma measures_dict_acc (d : pyval) (ms : list SonarCheck.measure) (k : string) :
  forall acc : gmap string pyval,
    foldl (fun acc m => <[SonarCheck.metric m := default d (SonarCheck.value m)]> acc) acc ms !! k = None <->
    acc !! k = None /\ Forall (fun m => SonarCheck.metric m <> k) ms.
Proof.
  induction ms as [|m ms IH]; intros acc; cbn [foldl].
  - split; [intros H; split; [exact H|constructor] | tauto].
  - rewrite IH, Forall_cons, lookup_insert_None. tauto.
Qed.

(** The dictionary has no entry for a metric that no measure names. *)
Lemma measures_dict_absent (d : pyval) (ms : list SonarCheck.measure) (k : string) :
  SonarCheck.measures_dict d ms !! k = None <-> Forall (fun m => SonarCheck.metric m <> k) ms.
Proof.
  unfold SonarCheck.measures_dict. rewrite measures_dict_acc, lookup_empty. tauto.
Qed.

Lemma append_last_char (a b : string) (c d : ascii) :
  a +:+ String c "" = b +:+ String d "" -> c = d.
Proof.
  revert b. induction a as [|x a IH]; intros [|y b] H;
    cbv [String.append] in H; fold String.append in H.
  - congruence.
  - injection H as _ H. by destruct b.
  - injection H as _ H. by destruct a.
  - injection H as _ H. by apply (IH b).
Qed.

Section SonarCoverage.
Context {rt : Runtime}.

(** Without a coverage entry the line says that there is no data. *)
Lemma coverage_line_absent (measures : gmap string pyval) :
  measures !! "coverage" = None ->
  SonarCheck.coverage_line measures = inr "  Coverage: ❌ No data".
Proof. intros H. unfold SonarCheck.coverage_line, get. rewrite H. reflexivity. Qed.

(** C1.  A coverage value that is present and stands for the number [q]
    is shown with the check mark when [q >= 80], the warning sign when
    [60 <= q < 80] and the cross when [q < 60].  Without the coverage
    entries the line reads "No data", which no line of a present value
    does, a value of zero included. *)
Theorem coverage_icon_tiers_and_no_data (ms : list SonarCheck.measure)
    (s : string) (x : spec_float) (q : Q) :
  SonarCheck.measures_dict (PStr "0") ms !! "coverage" = Some (PStr s) ->
  s <> "N/A" ->
  float_of_str s = Some x ->
  valid_binary prec emax x = true ->
  float_value x = Some q ->
  exists icon,
    SonarCheck.coverage_line (SonarCheck.measures_dict (PStr "0") ms) =
      inr ("  Coverage: " +:+ icon +:+ " " +:+ s +:+ "%") /\
    ((80 <= q)%Q -> icon = "✅") /\
    ((60 <= q)%Q /\ (q < 80)%Q -> icon = "⚠️") /\
    ((q < 60)%Q -> icon = "❌") /\
    SonarCheck.coverage_line
      (SonarCheck.measures_dict (PStr "0")
         (filter (fun m => SonarCheck.metric m <> "coverage") ms)) =
      inr "  Coverage: ❌ No data" /\
    "  Coverage: " +:+ icon +:+ " " +:+ s +:+ "%" <> "  Coverage: ❌ No data".
Proof.
  intros Hlook Hna Hfloat Hv Hq.
  destruct (cov_icon_tiers x q Hv Hq) as (T1 & T2 & T3).
  exists (SonarCheck.cov_icon x). repeat split; auto.
  - unfold SonarCheck.coverage_line, get. rewrite Hlook. cbn [eq_str].
    apply String.eqb_neq in Hna. rewrite Hna. cbn. rewrite Hfloat. reflexivity.
  - apply coverage_line_absent, measures_dict_absent.
    apply Forall_forall. intros m Hm. by apply list_elem_of_filter in Hm as [Hm _].
  - change "  Coverage: ❌ No data" with ("  Coverage: ❌ No dat" +:+ "a").
    rewrite <- !append_assoc. intros H%append_last_char. discriminate.
Qed.

End SonarCoverage.

Example coverage_icon_tiers_and_no_data_witness :
  let ms := [ {| SonarCheck.metric := "coverage"; SonarCheck.value := Some (PStr "79.9") |};
              {| SonarCheck.metric := "bugs"; SonarCheck.value := Some (PStr "0") |} ] in
  SonarCheck.coverage_line (H := Cpython.runtime) (SonarCheck.measures_dict (PStr "0") ms) =
    inr "  Coverage: ⚠️ 79.9%".
Proof.
  intros ms.
  destruct (coverage_icon_tiers_and_no_data (rt := Cpython.runtime) ms "79.9"
              (S754_finite false 5622462659795354 (-46))
              (5622462659795354 # 70368744177664)%Q)
    as (icon & Hline & _ & Hwarn & _);
    [vm_compute; reflexivity | discriminate | vm_compute; reflexivity
    | vm_compute; reflexivity | vm_compute; reflexivity |].
  rewrite Hline, Hwarn; [reflexivity|].
  split; [vm_compute; discriminate | vm_compute; reflexivity].
Defined.

(** The boundary values of the tiers, and a coverage of zero next to no
    coverage at all. *)
Example coverage_line_examples :
  let line (v : string) :=
    SonarCheck.coverage_line (H := Cpython.runtime)
      (SonarCheck.measures_dict (PStr "0")
         [ {| SonarCheck.metric := "coverage"; SonarCheck.value := Some (PStr v) |} ]) in
  line "80.0" = inr "  Coverage: ✅ 80.0%" /\
  line "79.9" = inr "  Coverage: ⚠️ 79.9%" /\
  line "60" = inr "  Coverage: ⚠️ 60%" /\
  line "59.9" = inr "  Coverage: ❌ 59.9%" /\
  line "0" = inr "  Coverage: ❌ 0%" /\
  SonarCheck.coverage_line (H := Cpython.runtime) (SonarCheck.measures_dict (PStr "0") []) =
    inr "  Coverage: ❌ No data".
Proof. repeat split; vm_compute; reflexivity. Qed.

(** ** The file coverage section *)

(** Sorting gives the one ascending arrangement of the lines. *)
Lemma sorted_Sorted (l : list string) : Sorted String.le (sorted l).
Proof. apply (Sorted_merge_sort String.le). Qed.

Lemma sorted_Permutation (l : list string) : sorted l ≡ₚ l.
Proof. apply (merge_sort_Permutation String.le). Qed.

Lemma sorted_order_independent (l1 l2 : list string) : l1 ≡ₚ l2 -> sorted l1 = sorted l2.
Proof.
  intros H. apply (Sorted_unique String.le); try apply sorted_Sorted.
  by rewrite !sorted_Permutation.
Qed.

Section FileCoverage.
Context {rt : Runtime}.

(** One turn of the loop renders the file and appends the line to the
    list of its group. *)
Lemma file_loop_body_entry (st : SonarCheck.file_lists) (info : SonarCheck.file_info) :
  SonarCheck.file_loop_body st info =
    line ← SonarCheck.entry_line info;
    mret (if decide (SonarCheck.has_coverage info)
          then {| SonarCheck.files_with_coverage := SonarCheck.files_with_coverage st ++ [line];
                  SonarCheck.files_without_coverage := SonarCheck.files_without_coverage st |}
          else {| SonarCheck.files_with_coverage := SonarCheck.files_with_coverage st;
                  SonarCheck.files_without_coverage :=
                    SonarCheck.files_without_coverage st ++ [line] |}).
Proof.
  unfold SonarCheck.file_loop_body, SonarCheck.entry_line, SonarCheck.has_coverage,
    SonarCheck.path_text.
  destruct (SonarCheck.measures_dict PNone _ !! "coverage") as [c|] eqn:E.
  - destruct (float c) as [e|cov]; [reflexivity|]. cbn.
    destruct (decide (is_Some (Some c))) as [_|N]; [reflexivity|].
    exfalso. apply N. eauto.
  - cbn. destruct (decide (is_Some (@None pyval))) as [[? ?]|_]; [discriminate|reflexivity].
Qed.

(** The loop splits the rendered lines into the two groups, each in fetch
    order. *)
Lemma file_loop_groups (detail : list SonarCheck.file_info) :
  forall st st', SonarCheck.file_loop st detail = inr st' ->
    exists W N,
      SonarCheck.entry_lines (filter SonarCheck.has_coverage detail) = inr W /\
      SonarCheck.entry_lines
        (filter (fun info => ~ SonarCheck.has_coverage info) detail) = inr N /\
      SonarCheck.files_with_coverage st' = SonarCheck.files_with_coverage st ++ W /\
      SonarCheck.files_without_coverage st' = SonarCheck.files_without_coverage st ++ N.
Proof.
  induction detail as [|info rest IH]; intros st st'; cbn [SonarCheck.file_loop].
  - intros [= <-]. exists [], []. by rewrite !app_nil_r.
  - rewrite file_loop_body_entry.
    destruct (SonarCheck.entry_line info) as [e|line] eqn:El; [discriminate|].
    cbn [mbind result_bind bind mret result_ret ret].
    rewrite !filter_cons.
    destruct (decide (SonarCheck.has_coverage info)) as [Hc|Hc]; intros Hloop;
      apply IH in Hloop as (W & N & HW & HN & EW & EN); cbn in EW, EN.
    + destruct (decide (~ SonarCheck.has_coverage info)) as [?|_]; [tauto|].
      exists (line :: W), N. cbn [SonarCheck.entry_lines]. rewrite El, HW. cbn.
      repeat split; auto. by rewrite EW, <- app_assoc.
    + destruct (decide (~ SonarCheck.has_coverage info)) as [_|?]; [|tauto].
      exists W, (line :: N). cbn [SonarCheck.entry_lines]. rewrite El, HN. cbn.
      repeat split; auto. by rewrite EN, <- app_assoc.
Qed.

(** The loop comes to its end when every file can be rendered. *)
Lemma file_loop_total (detail : list SonarCheck.file_info) (all_lines : list string) :
  SonarCheck.entry_lines detail = inr all_lines ->
  forall st, exists st', SonarCheck.file_loop st detail = inr st'.
Proof.
  revert all_lines. induction detail as [|info rest IH]; intros all_lines; cbn.
  - eauto.
  - intros H st. rewrite file_loop_body_entry.
    destruct (SonarCheck.entry_line info) as [e|line]; [discriminate|]. cbn in *.
    destruct (SonarCheck.entry_lines rest) as [e|ls]; [discriminate|].
    apply (IH ls eq_refl).
Qed.

(** Rendering the files in another order gives the same lines in another
    order. *)
Lemma entry_lines_Permutation (l1 l2 : list SonarCheck.file_info) :
  l1 ≡ₚ l2 ->
  forall W1, SonarCheck.entry_lines l1 = inr W1 ->
    exists W2, SonarCheck.entry_lines l2 = inr W2 /\ W1 ≡ₚ W2.
Proof.
  induction 1 as [|x l1 l2 _ IH|x y l|l1 l2 l3 _ IH1 _ IH2]; intros W1; cbn.
  - intros [= <-]. eauto.
  - destruct (SonarCheck.entry_line x) as [e|a]; [discriminate|]. cbn.
    destruct (SonarCheck.entry_lines l1) as [e|V1]; [discriminate|]. cbn.
    intros [= <-]. destruct (IH V1 eq_refl) as (V2 & -> & HP). cbn.
    eexists. split; [reflexivity|]. by constructor.
  - destruct (SonarCheck.entry_line y) as [e|a]; [discriminate|]. cbn.
    destruct (SonarCheck.entry_line x) as [e|b]; [discriminate|]. cbn.
    destruct (SonarCheck.entry_lines l) as [e|V]; [discriminate|]. cbn.
    intros [= <-]. eexists. split; [reflexivity|]. apply perm_swap.
  - intros H1. destruct (IH1 W1 H1) as (W2 & H2 & P12).
    destruct (IH2 W2 H2) as (W3 & H3 & P23). exists W3. split; [exact H3|]. by etrans.
Qed.

End FileCoverage.

Section FileSection.
Context {rt : Runtime}.

(** C4, as the code has it.  When every file can be rendered, the section
    is the lines of the files with a coverage value, then the lines of the
    files without, with one empty line between two non-empty groups; each
    group is in ascending order of its whole lines, icon first, and is
    the same whatever the order in which the files were fetched. *)
Theorem file_section_groups_sorted_by_line (detail : list SonarCheck.file_info)
    (all_lines : list string) :
  SonarCheck.entry_lines detail = inr all_lines ->
  exists st W N,
    SonarCheck.file_loop SonarCheck.no_files detail = inr st /\
    SonarCheck.entry_lines (filter SonarCheck.has_coverage detail) = inr W /\
    SonarCheck.entry_lines (filter (fun info => ~ SonarCheck.has_coverage info) detail) = inr N /\
    SonarCheck.file_section st =
      sorted W ++
      (if bool_decide (W = []) || bool_decide (N = []) then [] else [""]) ++
      sorted N /\
    Sorted String.le (sorted W) /\ sorted W ≡ₚ W /\
    Sorted String.le (sorted N) /\ sorted N ≡ₚ N /\
    forall detail' st',
      detail' ≡ₚ detail ->
      SonarCheck.file_loop SonarCheck.no_files detail' = inr st' ->
      SonarCheck.file_section st' = SonarCheck.file_section st.
Proof.
  intros Hall.
  destruct (file_loop_total detail all_lines Hall SonarCheck.no_files) as [st Hst].
  destruct (file_loop_groups detail _ _ Hst) as (W & N & HW & HN & EW & EN).
  cbn in EW, EN.
  assert (Hsec : forall st0 W0 N0,
            SonarCheck.files_with_coverage st0 = W0 ->
            SonarCheck.files_without_coverage st0 = N0 ->
            SonarCheck.file_section st0 =
              sorted W0 ++
              (if bool_decide (W0 = []) || bool_decide (N0 = []) then [] else [""]) ++
              sorted N0).
  { intros st0 W0 N0 <- <-. unfold SonarCheck.file_section.
    destruct (SonarCheck.files_with_coverage st0) as [|a W0];
      destruct (SonarCheck.files_without_coverage st0) as [|b N0]; try reflexivity.
    all: cbn -[sorted]; by rewrite ?app_nil_r. }
  exists st, W, N. split; [exact Hst|]. split; [exact HW|]. split; [exact HN|].
  split; [by apply Hsec|].
  split; [apply sorted_Sorted|]. split; [apply sorted_Permutation|].
  split; [apply sorted_Sorted|]. split; [apply sorted_Permutation|].
  intros detail' st' Hperm Hst'.
  destruct (file_loop_groups detail' _ _ Hst') as (W' & N' & HW' & HN' & EW' & EN').
  cbn in EW', EN'.
  assert (PW : W' ≡ₚ W).
  { destruct (entry_lines_Permutation (filter SonarCheck.has_coverage detail')
                (filter SonarCheck.has_coverage detail)) with (W1 := W') as (W2 & H2 & P);
      [by rewrite Hperm | exact HW' |]. congruence. }
  assert (PN : N' ≡ₚ N).
  { destruct (entry_lines_Permutation
                (filter (fun info => ~ SonarCheck.has_coverage info) detail')
                (filter (fun info => ~ SonarCheck.has_coverage info) detail))
      with (W1 := N') as (N2 & H2 & P);
      [by rewrite Hperm | exact HN' |]. congruence. }
  rewrite (Hsec st' W' N' EW' EN'), (Hsec st W N EW EN).
  rewrite (sorted_order_independent W' W PW), (sorted_order_independent N' N PN).
  assert (bool_decide (W' = []) = bool_decide (W = [])) as ->.
  { apply bool_decide_ext. split; intros ->.
    - by apply Permutation_nil_l in PW.
    - by apply Permutation_nil_r in PW. }
  assert (bool_decide (N' = []) = bool_decide (N = [])) as ->.
  { apply bool_decide_ext. split; intros ->.
    - by apply Permutation_nil_l in PN.
    - by apply Permutation_nil_r in PN. }
  reflexivity.
Qed.

End FileSection.

Example file_section_groups_sorted_by_line_witness :
  let file (p : string) (cov : option string) : SonarCheck.file_info :=
    {| SonarCheck.path := Some (PStr p);
       SonarCheck.file_measures :=
         Some (match cov with
               | Some c => [ {| SonarCheck.metric := "coverage"; SonarCheck.value := Some (PStr c) |};
                             {| SonarCheck.metric := "lines_to_cover";
                                SonarCheck.value := Some (PStr "10") |} ]
               | None => []
               end) |} in
  let detail := [file "src/b.cpp" (Some "95.0"); file "src/c.cpp" None;
                 file "src/a.cpp" (Some "100.0")] in
  exists st,
    SonarCheck.file_loop (H := Cpython.runtime) SonarCheck.no_files detail = inr st /\
    SonarCheck.file_section st =
      ["  ✅ src/a.cpp: 100.0% (10 lines, ? uncovered)";
       "  ✅ src/b.cpp: 95.0% (10 lines, ? uncovered)";
       "";
       "  ❌ src/c.cpp: No coverage data"].
Proof.
  intros file detail.
  destruct (file_section_groups_sorted_by_line (rt := Cpython.runtime) detail
              ["  ✅ src/b.cpp: 95.0% (10 lines, ? uncovered)";
               "  ❌ src/c.cpp: No coverage data";
               "  ✅ src/a.cpp: 100.0% (10 lines, ? uncovered)"])
    as (st & W & N & Hst & HW & HN & Hsec & _);
    [vm_compute; reflexivity|].
  exists st. split; [exact Hst|]. rewrite Hsec.
  vm_compute in HW. injection HW as <-. vm_compute in HN. injection HN as <-.
  vm_compute. reflexivity.
Defined.

(** C4, as the specification words it, fails: two files in different
    tiers are shown by icon rather than by path, and in the group without
    data a path that is the beginning of another one comes after it. *)
Lemma file_section_not_sorted_by_path :
  let file (p : string) (cov : option string) : SonarCheck.file_info :=
    {| SonarCheck.path := Some (PStr p);
       SonarCheck.file_measures :=
         Some (match cov with
               | Some c => [ {| SonarCheck.metric := "coverage"; SonarCheck.value := Some (PStr c) |} ]
               | None => []
               end) |} in
  let tiers := [file "a.cpp" (Some "90.0"); file "b.cpp" (Some "70.0")] in
  let stems := [file "README" None; file "README.md" None] in
  SonarCheck.coverage_detail_lines (H := Cpython.runtime) tiers =
    inr ["File Coverage:"; repeat_str "-" 70;
         "  ⚠️ b.cpp: 70.0% (? lines, ? uncovered)";
         "  ✅ a.cpp: 90.0% (? lines, ? uncovered)";
         ""; "Total Files: 2"; "With Coverage: 2"; "Without Coverage: 0"] /\
  SonarCheck.section_sorted_by_path (H := Cpython.runtime) tiers =
    inr ["  ✅ a.cpp: 90.0% (? lines, ? uncovered)";
         "  ⚠️ b.cpp: 70.0% (? lines, ? uncovered)"] /\
  SonarCheck.coverage_detail_lines (H := Cpython.runtime) stems =
    inr ["File Coverage:"; repeat_str "-" 70;
         "  ❌ README.md: No coverage data";
         "  ❌ README: No coverage data";
         ""; "Total Files: 2"; "With Coverage: 0"; "Without Coverage: 2"] /\
  SonarCheck.section_sorted_by_path (H := Cpython.runtime) stems =
    inr ["  ❌ README: No coverage data";
         "  ❌ README.md: No coverage data"] /\
  (forall st, SonarCheck.file_loop (H := Cpython.runtime) SonarCheck.no_files tiers = inr st ->
              SonarCheck.section_sorted_by_path (H := Cpython.runtime) tiers <>
                inr (SonarCheck.file_section st)) /\
  (forall st, SonarCheck.file_loop (H := Cpython.runtime) SonarCheck.no_files stems = inr st ->
              SonarCheck.section_sorted_by_path (H := Cpython.runtime) stems <>
                inr (SonarCheck.file_section st)).
Proof.
  repeat split; try (vm_compute; reflexivity).
  all: intros st H; vm_compute in H; injection H as <-; vm_compute; discriminate.
Qed.

(** ** The repository resolver *)

Lemma split_go_absent (sep s : string) :
  contains sep s = false -> split_go sep 0 s = [s].
Proof.
  induction s as [|c s IH]; [reflexivity|].
  cbn [contains split_go]. intros H. apply orb_false_iff in H as [Hp Hc].
  rewrite Hp, (IH Hc). reflexivity.
Qed.

Lemma split_go_front (sep front rest : string) :
  starts_within sep front rest = false ->
  split_go sep 0 (front +:+ rest) =
    match split_go sep 0 rest with
    | p :: ps => (front +:+ p) :: ps
    | [] => [front]
    end.
Proof.
  induction front as [|c front IH].
  - intros _. change ("" +:+ rest) with rest.
    destruct (split_go sep 0 rest) as [|p ps] eqn:E; [|reflexivity].
    exfalso. destruct rest as [|d rest]; [discriminate|].
    cbn [split_go] in E.
    destruct (String.prefix sep (String d rest)); [discriminate|].
    destruct (split_go sep 0 rest); discriminate.
  - cbn [starts_within]. intros H. apply orb_false_iff in H as [Hp Hw].
    change (String c front +:+ rest) with (String c (front +:+ rest)) in *.
    cbn [split_go]. rewrite Hp, (IH Hw).
    destruct (split_go sep 0 rest) as [|p ps]; reflexivity.
Qed.

(** A text of the form [owner/repo], neither part holding a slash, splits
    into the two parts. *)
Lemma split_owner_repo (owner repo : string) :
  contains "/" owner = false ->
  contains "/" repo = false ->
  split "/" (owner +:+ "/" +:+ repo) = [owner; repo].
Proof.
  intros Ho Hr. unfold split.
  rewrite split_go_front by by apply starts_within_single.
  change ("/" +:+ repo) with (String "/" repo). cbn [split_go].
  assert (String.prefix "/" (String "/" repo) = true) as ->.
  { rewrite prefix_single. reflexivity. }
  cbn [String.length Nat.sub]. rewrite (split_go_absent "/" repo Hr).
  by rewrite append_nil_r.
Qed.

(** Dropping [.git] from [body] followed by an optional [.git]. *)
Lemma replace_dot_git (body : string) (dot_git : bool) :
  starts_within ".git" body (if dot_git then ".git" else "") = false ->
  replace ".git" "" (body +:+ (if dot_git then ".git" else "")) = body.
Proof.
  intros H. unfold replace. rewrite (replace_go_front _ _ _ _ H).
  destruct dot_git; cbn; apply append_nil_r.
Qed.

Lemma prefix_append (p s : string) : String.prefix p (p +:+ s) = true.
Proof.
  induction p as [|c p IH]; [by destruct s|].
  change (String c p +:+ s) with (String c (p +:+ s)). cbn [String.prefix].
  destruct (ascii_dec c c) as [_|N]; [exact IH|congruence].
Qed.

Lemma contains_prefix (p s : string) : String.prefix p s = true -> contains p s = true.
Proof. intros H. destruct s; cbn [contains]; by rewrite H. Qed.

Lemma contains_cons (p s : string) (c : ascii) :
  contains p s = true -> contains p (String c s) = true.
Proof. intros H. cbn [contains]. rewrite H. apply orb_true_r. Qed.

(** Of the segments of the URL the resolver reads the first two. *)
Lemma parse_first_two_segments (url : string) (parts : list string) :
  contains "github.com" url = true ->
  CiCheck.url_parts url = inr parts ->
  CiCheck.parse_remote_url url =
    match parts with
    | owner :: name :: _ => inr {| CiCheck.repo_owner := owner; CiCheck.repo_name := name |}
    | _ => inl IndexError
    end.
Proof.
  intros Hc Hp. unfold CiCheck.parse_remote_url. rewrite Hc, Hp.
  destruct parts as [|o [|r rest]]; reflexivity.
Qed.

(** What the two forms of URL leave for the segments. *)
Lemma url_parts_ssh (rest : string) :
  contains "git@github.com:" rest = false ->
  contains "github.com" ("git@github.com:" +:+ rest) = true /\
  CiCheck.url_parts ("git@github.com:" +:+ rest) = inr (split "/" (replace ".git" "" rest)).
Proof.
  intros Hssh. split.
  - do 4 apply contains_cons. apply contains_prefix. vm_compute. reflexivity.
  - unfold CiCheck.url_parts. rewrite (prefix_append "git@github.com:" rest).
    assert (replace "git@github.com:" "" ("git@github.com:" +:+ rest) = rest) as ->;
      [|reflexivity].
    unfold replace.
    pose proof (prefix_append "git@github.com:" rest) as E.
    change ("git@github.com:" +:+ rest) with (String "g" ("it@github.com:" +:+ rest)) in *.
    cbn [replace_go]. rewrite E.
    change ("" +:+ replace_go "git@github.com:" "" (String.length "git@github.com:" - 1)
                     ("it@github.com:" +:+ rest))
      with (replace_go "git@github.com:" "" 0 rest).
    by apply replace_go_absent.
Qed.

Lemma url_parts_https (rest : string) :
  contains "github.com/" rest = false ->
  contains "github.com" ("https://github.com/" +:+ rest) = true /\
  CiCheck.url_parts ("https://github.com/" +:+ rest) = inr (split "/" (replace ".git" "" rest)).
Proof.
  intros Hhost.
  pose proof (prefix_append "github.com/" rest) as E.
  split.
  - do 8 apply contains_cons. apply contains_prefix. vm_compute. reflexivity.
  - unfold CiCheck.url_parts.
    assert (String.prefix "git@github.com:" ("https://github.com/" +:+ rest) = false) as ->
      by (vm_compute; reflexivity).
    assert (contains "github.com/" ("https://github.com/" +:+ rest) = true) as ->
      by (do 8 apply contains_cons; by apply contains_prefix).
    assert (split "github.com/" ("https://github.com/" +:+ rest) = ["https://"; rest]) as ->;
      [|reflexivity].
    unfold split.
    assert (Hs : split_go "github.com/" 0 ("github.com/" +:+ rest) = [""; rest]).
    { change ("github.com/" +:+ rest) with (String "g" ("ithub.com/" +:+ rest)) in *.
      cbn [split_go]. rewrite E. f_equal.
      change (split_go "github.com/" (String.length "github.com/" - 1) ("ithub.com/" +:+ rest))
        with (split_go "github.com/" 0 rest).
      by apply split_go_absent. }
    assert (Hc : forall (c : ascii) (s p : string) (ps : list string),
              String.prefix "github.com/" (String c s) = false ->
              split_go "github.com/" 0 s = p :: ps ->
              split_go "github.com/" 0 (String c s) = String c p :: ps).
    { intros c s p ps Hp Hs'. cbn [split_go]. by rewrite Hp, Hs'. }
    change ("https://github.com/" +:+ rest)
      with (String "h" (String "t" (String "t" (String "p" (String "s" (String ":"
             (String "/" (String "/" ("github.com/" +:+ rest))))))))).
    do 8 (apply Hc; [vm_compute; reflexivity|]).
    exact Hs.
Qed.

Lemma parse_ssh_url (owner repo : string) (dot_git : bool) :
  contains "/" owner = false ->
  contains "/" repo = false ->
  starts_within ".git" (owner +:+ "/" +:+ repo) (if dot_git then ".git" else "") = false ->
  contains "git@github.com:" ((owner +:+ "/" +:+ repo) +:+ (if dot_git then ".git" else "")) = false ->
  CiCheck.parse_remote_url
    ("git@github.com:" +:+ (owner +:+ "/" +:+ repo) +:+ (if dot_git then ".git" else "")) =
    inr {| CiCheck.repo_owner := owner; CiCheck.repo_name := repo |}.
Proof.
  intros Ho Hr Hgit Hssh. destruct (url_parts_ssh _ Hssh) as [Hc Hp].
  rewrite (parse_first_two_segments _ _ Hc Hp).
  by rewrite (replace_dot_git _ _ Hgit), (split_owner_repo _ _ Ho Hr).
Qed.

Lemma parse_https_url (owner repo : string) (dot_git : bool) :
  contains "/" owner = false ->
  contains "/" repo = false ->
  starts_within ".git" (owner +:+ "/" +:+ repo) (if dot_git then ".git" else "") = false ->
  contains "github.com/" ((owner +:+ "/" +:+ repo) +:+ (if dot_git then ".git" else "")) = false ->
  CiCheck.parse_remote_url
    ("https://github.com/" +:+ (owner +:+ "/" +:+ repo) +:+ (if dot_git then ".git" else "")) =
    inr {| CiCheck.repo_owner := owner; CiCheck.repo_name := repo |}.
Proof.
  intros Ho Hr Hgit Hhost. destruct (url_parts_https _ Hhost) as [Hc Hp].
  rewrite (parse_first_two_segments _ _ Hc Hp).
  by rewrite (replace_dot_git _ _ Hgit), (split_owner_repo _ _ Ho Hr).
Qed.

Lemma parse_other_host (url : string) :
  contains "github.com" url = false ->
  CiCheck.parse_remote_url url = inl (ValueError "Not a GitHub repository").
Proof. intros H. unfold CiCheck.parse_remote_url. by rewrite H. Qed.

Lemma parse_neither_form (url : string) :
  contains "github.com" url = true ->
  String.prefix "git@github.com:" url = false ->
  contains "github.com/" url = false ->
  CiCheck.parse_remote_url url = inl (ValueError "Cannot parse GitHub URL").
Proof.
  intros H1 H2 H3. unfold CiCheck.parse_remote_url, CiCheck.url_parts.
  by rewrite H1, H2, H3.
Qed.

(** What [_detect_repo] does with the answer of git. *)
Lemma detect_repo_outcome (w : CiCheck.World) :
  CiCheck._detect_repo w =
    match out ← CiCheck.run_checked w CiCheck.git_remote_cmd;
          CiCheck.parse_remote_url (strip out) with
    | inr self => ([Spawn CiCheck.git_remote_cmd], inr self)
    | inl e =>
        if CiCheck.catches_detect e
        then (Spawn CiCheck.git_remote_cmd :: CiCheck.config_error e, inl (SystemExit 1))
        else ([Spawn CiCheck.git_remote_cmd], inl e)
    end.
Proof.
  unfold CiCheck._detect_repo, CiCheck.subprocess_run.
  destruct (CiCheck.run_checked w CiCheck.git_remote_cmd) as [e|out]; cbn.
  - by destruct (CiCheck.catches_detect e).
  - destruct (CiCheck.parse_remote_url (strip out)) as [e|self]; cbn; [|reflexivity].
    by destruct (CiCheck.catches_detect e).
Qed.

Section Resolver.
Context {rt : Runtime}.

(** A resolver that ends in an exception ends the tool with status 1. *)
Lemma main_without_repository (w : CiCheck.World) (args : CiCheck.Args)
    (ev : list event) (e : exn) :
  (forall code, CiCheck.run_checked w CiCheck.git_remote_cmd <> inl (SystemExit code)) ->
  CiCheck._detect_repo w = (ev, inl e) ->
  exit_status (CiCheck.main w args) = 1.
Proof.
  intros Hw H. unfold CiCheck.main, CiCheck.new_CIChecker. rewrite H.
  rewrite detect_repo_outcome in H.
  destruct (CiCheck.run_checked w CiCheck.git_remote_cmd) as [e0|out] eqn:Eo; cbn in H.
  - destruct e0; cbn in H; injection H as <- <-; try reflexivity.
    exfalso. by eapply Hw.
  - destruct (CiCheck.parse_remote_url (strip out)) as [e0|self] eqn:Ep; [|discriminate].
    assert (He0 : forall code, e0 <> SystemExit code).
    { intros code ->. revert Ep. unfold CiCheck.parse_remote_url, CiCheck.url_parts, index.
      repeat (match goal with
              | |- context [if ?b then _ else _] => destruct b
              | |- context [match ?l !! ?i with _ => _ end] => destruct (l !! i)
              end; cbn); discriminate. }
    destruct e0; cbn in H; injection H as <- <-; try reflexivity.
    exfalso. by eapply He0.
Qed.

End Resolver.

Section ResolverClaim.
Context {rt : Runtime}.

(** Segments and failures of the resolver.  For an owner and a repository
    name without a slash, in which [.git] occurs only as the optional final
    suffix and that hold no host text, the SSH and the HTTPS form of the
    URL both give the pair.  In general the resolver takes the first two
    segments and ignores any further one.  It reports the configuration
    error and leaves with status 1 when git fails or the URL names GitHub
    in neither form; with fewer than two segments there is no pair, and
    the tool ends with status 1 as well. *)
Theorem resolver_takes_first_two_segments (w : CiCheck.World) (args : CiCheck.Args)
    (owner repo : string) (dot_git : bool) :
  contains "/" owner = false ->
  contains "/" repo = false ->
  starts_within ".git" (owner +:+ "/" +:+ repo) (if dot_git then ".git" else "") = false ->
  contains "git@github.com:" ((owner +:+ "/" +:+ repo) +:+ (if dot_git then ".git" else "")) = false ->
  contains "github.com/" ((owner +:+ "/" +:+ repo) +:+ (if dot_git then ".git" else "")) = false ->
  let pair := {| CiCheck.repo_owner := owner; CiCheck.repo_name := repo |} in
  CiCheck.parse_remote_url
    ("git@github.com:" +:+ (owner +:+ "/" +:+ repo) +:+ (if dot_git then ".git" else "")) =
    inr pair /\
  CiCheck.parse_remote_url
    ("https://github.com/" +:+ (owner +:+ "/" +:+ repo) +:+ (if dot_git then ".git" else "")) =
    inr pair /\
  (forall url parts,
     contains "github.com" url = true ->
     CiCheck.url_parts url = inr parts ->
     CiCheck.parse_remote_url url =
       match parts with
       | o :: r :: _ => inr {| CiCheck.repo_owner := o; CiCheck.repo_name := r |}
       | _ => inl IndexError
       end) /\
  (forall url,
     contains "github.com" url = false \/
     (String.prefix "git@github.com:" url = false /\ contains "github.com/" url = false) ->
     exists msg, CiCheck.parse_remote_url url = inl (ValueError msg)) /\
  (CiCheck.run_checked w CiCheck.git_remote_cmd = inl CalledProcessError ->
   CiCheck._detect_repo w =
     (Spawn CiCheck.git_remote_cmd :: CiCheck.config_error CalledProcessError,
      inl (SystemExit 1))) /\
  (forall out msg,
     CiCheck.run_checked w CiCheck.git_remote_cmd = inr out ->
     CiCheck.parse_remote_url (strip out) = inl (ValueError msg) ->
     CiCheck._detect_repo w =
       (Spawn CiCheck.git_remote_cmd :: CiCheck.config_error (ValueError msg),
        inl (SystemExit 1))) /\
  (forall out self,
     CiCheck.run_checked w CiCheck.git_remote_cmd = inr out ->
     CiCheck.parse_remote_url (strip out) = inr self ->
     CiCheck._detect_repo w = ([Spawn CiCheck.git_remote_cmd], inr self)) /\
  (forall ev e,
     (forall code, CiCheck.run_checked w CiCheck.git_remote_cmd <> inl (SystemExit code)) ->
     CiCheck._detect_repo w = (ev, inl e) ->
     exit_status (CiCheck.main w args) = 1).
Proof.
  intros Ho Hr Hgit Hssh Hhost pair.
  split; [by apply parse_ssh_url|]. split; [by apply parse_https_url|].
  split; [apply parse_first_two_segments|].
  split.
  { intros url [H|[H1 H2]].
    - eexists. by apply parse_other_host.
    - destruct (contains "github.com" url) eqn:E.
      + eexists. by apply parse_neither_form.
      + eexists. by apply parse_other_host. }
  split; [intros H; rewrite detect_repo_outcome, H; reflexivity|].
  split; [intros out msg H1 H2; rewrite detect_repo_outcome, H1; cbn; rewrite H2; reflexivity|].
  split; [intros out self H1 H2; rewrite detect_repo_outcome, H1; cbn; rewrite H2; reflexivity|].
  intros ev e Hw H. by eapply main_without_repository.
Qed.

End ResolverClaim.

Example resolver_takes_first_two_segments_witness :
  let w := {| CiCheck.run_checked := fun _ => inr "git@github.com:octocat";
              CiCheck.run_json := fun _ => inr [] |} in
  let args := {| CiCheck.limit := 5; CiCheck.workflow := None |} in
  let pair := {| CiCheck.repo_owner := "griswaldbrooks";
                 CiCheck.repo_name := "sonarcloud-cpp-minimal" |} in
  CiCheck.parse_remote_url "git@github.com:griswaldbrooks/sonarcloud-cpp-minimal.git" = inr pair /\
  CiCheck.parse_remote_url "https://github.com/griswaldbrooks/sonarcloud-cpp-minimal.git" = inr pair /\
  exit_status (CiCheck.main (H := Cpython.runtime) w args) = 1.
Proof.
  intros w args pair.
  destruct (resolver_takes_first_two_segments (rt := Cpython.runtime) w args
              "griswaldbrooks" "sonarcloud-cpp-minimal" true)
    as (Hssh & Hhttps & _ & _ & _ & _ & _ & Hexit);
    [vm_compute; reflexivity..|].
  split; [exact Hssh|]. split; [exact Hhttps|].
  apply (Hexit [Spawn CiCheck.git_remote_cmd] IndexError).
  - intros code. discriminate.
  - vm_compute. reflexivity.
Defined.

(** The segments are never counted: a URL with four segments after the
    host is resolved from its first two. *)
Example resolver_accepts_more_than_two_segments :
  let w := {| CiCheck.run_checked := fun _ => inr ("https://github.com/owner/repo/tree/main" +:+ nl);
              CiCheck.run_json := fun _ => inr [] |} in
  length (split "/" "owner/repo/tree/main") = 4%nat /\
  CiCheck.url_parts "https://github.com/owner/repo/tree/main" =
    inr ["owner"; "repo"; "tree"; "main"] /\
  CiCheck._detect_repo w =
    ([Spawn CiCheck.git_remote_cmd],
     inr {| CiCheck.repo_owner := "owner"; CiCheck.repo_name := "repo" |}) /\
  CiCheck.parse_remote_url "git@github.com:a/b/c" =
    inr {| CiCheck.repo_owner := "a"; CiCheck.repo_name := "b" |}.
Proof. repeat split; vm_compute; reflexivity. Qed.

(** C9.  The resolver does not extract the repository of every HTTPS or
    SSH remote: [replace('.git', '')], meant to drop the suffix, removes
    [.git] wherever it stands.  For the remote of the repository
    [octocat/octocat.github.io], in either form and with or without the
    suffix, the resolver answers [octocat/octocathub.io], and that name
    heads the report. *)
Theorem resolver_drops_every_dot_git :
  let remote := fun url =>
    {| CiCheck.run_checked := fun _ => inr (url +:+ nl);
       CiCheck.run_json := fun _ => inr [] |} in
  let wrong := {| CiCheck.repo_owner := "octocat"; CiCheck.repo_name := "octocathub.io" |} in
  CiCheck._detect_repo (remote "https://github.com/octocat/octocat.github.io.git") =
    ([Spawn CiCheck.git_remote_cmd], inr wrong) /\
  CiCheck._detect_repo (remote "https://github.com/octocat/octocat.github.io") =
    ([Spawn CiCheck.git_remote_cmd], inr wrong) /\
  CiCheck._detect_repo (remote "git@github.com:octocat/octocat.github.io.git") =
    ([Spawn CiCheck.git_remote_cmd], inr wrong) /\
  CiCheck.repo_name wrong <> "octocat.github.io" /\
  nth_error (CiCheck.report_header wrong None) 3 = Some "Repository: octocat/octocathub.io".
Proof. repeat split; try (vm_compute; reflexivity). discriminate. Qed.

Example gate_status_icon_and_exit_code_witness :
  let w := {| SonarCheck.project_status := fun _ => inr (Some {[ "status" := PStr "ERROR" ]});
              SonarCheck.component_measures :=
                inr (Some (Some [ {| SonarCheck.metric := "coverage";
                                     SonarCheck.value := Some (PStr "85.3") |};
                                  {| SonarCheck.metric := "bugs";
                                     SonarCheck.value := Some (PStr "2") |} ]));
              SonarCheck.analyses := inr (Some [ {[ "date" := PStr "2024-01-15T10:30:00+0100" ]} ]);
              SonarCheck.components := inr (Some []) |} in
  let args := {| SonarCheck.project := "griswaldbrooks_sonarcloud-cpp-minimal";
                 SonarCheck.arg_organization := "griswaldbrooks";
                 SonarCheck.component := None |} in
  SonarCheck.gate_lines {[ "status" := PStr "ERROR" ]} = ["Quality Gate: ❌ ERROR"; ""] /\
  exit_status (SonarCheck.main (H := Cpython.runtime) w args) = 1.
Proof.
  intros w args.
  set (checker := {| SonarCheck.organization := SonarCheck.arg_organization args;
                     SonarCheck.project_key := SonarCheck.project args |}).
  set (m := SonarCheck.format_status_report (H := Cpython.runtime) w checker
              (SonarCheck.component args)).
  assert (E : m = ([], inr (returned_text m))) by (vm_compute; reflexivity).
  destruct (gate_status_icon_and_exit_code (rt := Cpython.runtime) w args [] (returned_text m) E)
    as (qg & Hq & _ & _ & Herr & _ & Hagg & _).
  vm_compute in Hq. injection Hq as <-.
  split; [apply Herr; vm_compute; reflexivity|].
  apply (Hagg {[ "status" := PStr "ERROR" ]}); vm_compute; reflexivity.
Defined.

(** The gate may change between the two requests: the report then shows
    the status of the first and the exit status follows the second. *)
Example gate_changes_after_the_report :
  let w := {| SonarCheck.project_status := fun n =>
                match n with
                | O => inr (Some {[ "status" := PStr "OK" ]})
                | _ => inr (Some {[ "status" := PStr "ERROR" ]})
                end;
              SonarCheck.component_measures := inr (Some (Some []));
              SonarCheck.analyses := inr (Some []);
              SonarCheck.components := inr (Some []) |} in
  let args := {| SonarCheck.project := "griswaldbrooks_sonarcloud-cpp-minimal";
                 SonarCheck.arg_organization := "griswaldbrooks";
                 SonarCheck.component := None |} in
  (exists report,
     stdout_of (events (SonarCheck.main (H := Cpython.runtime) w args)) = [report] /\
     contains "Quality Gate: ✅ OK" report = true) /\
  exit_status (SonarCheck.main (H := Cpython.runtime) w args) = 1.
Proof.
  intros w args. split; [|vm_compute; reflexivity].
  eexists. split; vm_compute; reflexivity.
Qed.


(** * Further properties *)


(** The combined tool with any flags: it starts the sub-checks the flags
    leave, never fails on its list of codes, and returns 0 when all the
    codes are 0 and 1 otherwise. *)
Theorem combined_exit_code_any_flags (w : Status.World) (args : Status.Args) :
  Status.raises_Exception_only (Status.returncode w (Status.ci_argv w args)) ->
  Status.raises_Exception_only (Status.returncode w (Status.sonar_argv w args)) ->
  spawned (events (Status.main w args)) = Status.planned w args /\
  exists code,
    (Status.main w args).2 = inr code /\
    (code = 0 \/ code = 1) /\
    (code = 0 <-> Forall (fun c => c = 0) (Status.considered w args)).
Proof.
  intros Hex1 Hex2.
  unfold Status.considered, Status.planned.
  unfold Status.main, Status.run_tool, Status.print_section_header, Status.all_zero.
  destruct (Status.skip_ci args), (Status.skip_sonarcloud args); cbn [negb app map].
  all: unfold Status.ci_argv, Status.sonar_argv, Status.raises_Exception_only,
         Status.collected in *.
  all: set (r1 := Status.returncode w ("python3" :: Status.ci_tool w :: _)) in *.
  all: set (r2 := Status.returncode w ("python3" :: Status.sonar_tool w :: _)) in *.
  all: clearbody r1 r2.
  all: destruct r1 as [e1|c1], r2 as [e2|c2].
  all: cbn; rewrite ?Hex1, ?Hex2; cbn.
  all: try destruct c1; try destruct c2; cbn.
  all: split; [reflexivity|].
  all: eexists; split; [reflexivity|]; split; [auto|].
  all: split; [try discriminate; intros _; repeat constructor|].
  all: intros HF; try reflexivity; exfalso.
  all: repeat match goal with H : Forall _ (_ :: _) |- _ => inversion H; clear H; subst end;
       discriminate.
Qed.

(** With exactly one sub-check skipped, the tool prints one section and,
    in the summary, one line, both for the sub-check that ran: the code
    read for the SonarCloud line is the SonarCloud code also when it is the
    only one collected. *)
Theorem combined_one_check_skipped (w : Status.World) (args : Status.Args) :
  Status.skip_ci args = negb (Status.skip_sonarcloud args) ->
  Status.raises_Exception_only (Status.returncode w (Status.ci_argv w args)) ->
  Status.raises_Exception_only (Status.returncode w (Status.sonar_argv w args)) ->
  let argv := if Status.skip_ci args then Status.sonar_argv w args else Status.ci_argv w args in
  let title := if Status.skip_ci args then "SONARCLOUD ANALYSIS" else "GITHUB ACTIONS CI" in
  let name := if Status.skip_ci args then "SonarCloud" else "CI" in
  let code := Status.collected (Status.returncode w argv) in
  spawned (events (Status.main w args)) = [argv] /\
  stdout_of (events (Status.main w args)) =
    [repeat_str "=" 70; "PROJECT STATUS CHECK"; repeat_str "=" 70;
     "Project: " +:+ Status.project args; repeat_str "=" 70;
     nl; repeat_str "=" 70; "  " +:+ title; repeat_str "=" 70;
     nl; repeat_str "=" 70; "OVERALL STATUS"; repeat_str "=" 70] ++
    (if code =? 0
     then ["✅ All checks passed!"; ""; repeat_str "=" 70]
     else ["❌ Some checks failed!"; ""; "  " +:+ name +:+ ": ❌ FAILED"; ""; repeat_str "=" 70]) /\
  exit_status (Status.main w args) = (if code =? 0 then 0 else 1).
Proof.
  intros Hflags Hex1 Hex2.
  unfold Status.main, Status.run_tool, Status.print_section_header, Status.all_zero.
  rewrite Hflags.
  destruct (Status.skip_sonarcloud args); cbn [negb].
  all: unfold Status.ci_argv, Status.sonar_argv, Status.raises_Exception_only,
         Status.collected in *.
  all: set (r1 := Status.returncode w ("python3" :: Status.ci_tool w :: _)) in *.
  all: set (r2 := Status.returncode w ("python3" :: Status.sonar_tool w :: _)) in *.
  all: clearbody r1 r2.
  all: destruct r1 as [e1|c1], r2 as [e2|c2].
  all: cbn; rewrite ?Hex1, ?Hex2; cbn.
  all: try destruct c1; try destruct c2; cbn.
  all: repeat split; reflexivity.
Qed.



(** ** Exit codes of the tools *)

Lemma exits_with_1_bind {A B} (m : io A) (k : A -> io B) :
  exits_with_1 m -> (forall a, exits_with_1 (k a)) -> exits_with_1 (m ≫= k).
Proof.
  unfold exits_with_1. destruct m as [l [e|a]]; cbn; [auto|].
  intros _ Hk. specialize (Hk a). by destruct (k a) as [l' r].
Qed.

Lemma returns_0_or_1_bind {A} (m : io A) (k : A -> io Z) :
  exits_with_1 m -> (forall a, returns_0_or_1 (k a)) -> returns_0_or_1 (m ≫= k).
Proof.
  unfold exits_with_1, returns_0_or_1. destruct m as [l [e|a]]; cbn.
  - destruct e; auto.
  - intros _ Hk. specialize (Hk a). by destruct (k a) as [l' r].
Qed.

Lemma exits_with_1_try {A} (m : io A) (catches : exn -> bool) (h : exn -> io A) :
  exits_with_1 m -> (forall e, exits_with_1 (h e)) -> exits_with_1 (try_catch m catches h).
Proof.
  unfold exits_with_1. destruct m as [l [e|a]]; cbn; [|auto].
  intros Hm Hh. destruct (catches e); [|exact Hm].
  specialize (Hh e). by destruct (h e) as [l' r].
Qed.

Lemma returns_0_or_1_try (m : io Z) (catches : exn -> bool) (h : exn -> io Z) :
  returns_0_or_1 m -> (forall e, returns_0_or_1 (h e)) ->
  returns_0_or_1 (try_catch m catches h).
Proof.
  unfold returns_0_or_1. destruct m as [l [e|a]]; cbn; [|auto].
  intros Hm Hh. destruct (catches e); [|exact Hm].
  specialize (Hh e). by destruct (h e) as [l' r].
Qed.

Lemma exits_with_1_lift {A} (r : result A) : no_SystemExit r -> exits_with_1 (lift r).
Proof. unfold exits_with_1, no_SystemExit, lift. cbn. by destruct r as [[]|]. Qed.

Lemma exits_with_1_emit (ev : event) : exits_with_1 (emit ev).
Proof. exact I. Qed.

Lemma exits_with_1_sys_exit {A} : exits_with_1 (sys_exit (A := A) 1).
Proof. reflexivity. Qed.

Lemma exit_status_0_or_1 (m : io Z) :
  returns_0_or_1 m -> exit_status m = 0 \/ exit_status m = 1.
Proof.
  unfold returns_0_or_1, exit_status. destruct m as [l [e|code]]; cbn; [|auto].
  destruct e; auto.
Qed.

(** The pure parts of the tools never produce a [SystemExit]. *)
Lemma parse_remote_url_ordinary (url : string) : no_SystemExit (CiCheck.parse_remote_url url).
Proof.
  unfold CiCheck.parse_remote_url, CiCheck.url_parts, index.
  repeat (match goal with
          | |- context [if ?b then _ else _] => destruct b
          | |- context [match ?l !! ?i with _ => _ end] => destruct (l !! i)
          end; cbn); exact I.
Qed.

Section CiExit.
Context {rt : Runtime}.

Lemma format_run_status_raises (run : gmap string pyval) (e : exn) :
  CiCheck.format_run_status run = inl e -> e = AttributeError.
Proof.
  unfold CiCheck.format_run_status.
  destruct (CiCheck.icon_and_text run) as [e'|[icon text]] eqn:E; cbn; [|discriminate].
  intros [= <-]. revert E. unfold CiCheck.icon_and_text.
  repeat (match goal with
          | |- context [if ?b then _ else _] => destruct b
          end; try discriminate).
  - destruct (get run "conclusion" (PStr "unknown")); cbn; intros H; by simplify_eq.
  - destruct (get run "status" (PStr "unknown")); cbn; intros H; by simplify_eq.
Qed.

Lemma loop_raises (runs : list (gmap string pyval)) :
  forall st e, CiCheck.loop st runs = inl e -> e = AttributeError.
Proof.
  induction runs as [|run rest IH]; intros st e; cbn; [discriminate|].
  unfold CiCheck.loop_body.
  destruct (CiCheck.format_run_status run) as [e'|line] eqn:E; cbn.
  - intros [= <-]. by eapply format_run_status_raises.
  - destruct (eq_str _ "success"); [|destruct (eq_str _ "failure")]; cbn; apply IH.
Qed.

Lemma report_lines_raises (self : CiCheck.CIChecker) (workflow : option string)
    (runs : list (gmap string pyval)) (e : exn) :
  CiCheck.report_lines self workflow runs = inl e -> e = AttributeError.
Proof.
  unfold CiCheck.report_lines. destruct runs as [|run rest]; [discriminate|].
  destruct (CiCheck.loop _ (run :: rest)) as [e'|st] eqn:E; cbn; [|discriminate].
  intros [= <-]. by eapply loop_raises.
Qed.

Lemma get_workflow_runs_gh_exits (w : CiCheck.World) (limit : Z) (workflow : option string) :
  CiCheck.ordinary w -> exits_with_1 (CiCheck.get_workflow_runs_gh w limit workflow).
Proof.
  intros [_ Hj]. unfold CiCheck.get_workflow_runs_gh.
  apply exits_with_1_try.
  - apply exits_with_1_bind; [apply exits_with_1_emit|]. intros _. apply exits_with_1_lift, Hj.
  - intros e. reflexivity.
Qed.

(** The CI tool ends with status 0 or 1, whatever git and gh answer. *)
Theorem ci_exit_status_0_or_1 (w : CiCheck.World) (args : CiCheck.Args) :
  CiCheck.ordinary w ->
  exit_status (CiCheck.main w args) = 0 \/ exit_status (CiCheck.main w args) = 1.
Proof.
  intros Hw. pose proof Hw as [Hc Hj]. apply exit_status_0_or_1.
  unfold CiCheck.main. apply returns_0_or_1_try; [|intros e; right; reflexivity].
  apply returns_0_or_1_bind.
  { unfold CiCheck.new_CIChecker, CiCheck._detect_repo, CiCheck.subprocess_run.
    apply exits_with_1_try; [|intros e; reflexivity].
    apply exits_with_1_bind.
    - apply exits_with_1_bind; [apply exits_with_1_emit|]. intros _. apply exits_with_1_lift, Hc.
    - intros out. apply exits_with_1_lift, parse_remote_url_ordinary. }
  intros checker. apply returns_0_or_1_bind.
  { unfold CiCheck.check_gh_cli, CiCheck.subprocess_run.
    apply exits_with_1_try; [|intros e; exact I].
    apply exits_with_1_bind; [|intros ?; exact I].
    apply exits_with_1_bind; [apply exits_with_1_emit|]. intros _. apply exits_with_1_lift, Hc. }
  intros [|]; cbn [negb]; [|right; reflexivity].
  apply returns_0_or_1_bind.
  { unfold CiCheck.format_status_report. apply exits_with_1_bind.
    - by apply get_workflow_runs_gh_exits.
    - intros runs. apply exits_with_1_bind; [|intros ?; exact I].
      apply exits_with_1_lift.
      destruct (CiCheck.report_lines _ _ runs) as [e|ls] eqn:E; [|exact I].
      by rewrite (report_lines_raises _ _ _ _ E). }
  intros report. apply returns_0_or_1_bind; [apply exits_with_1_emit|]. intros _.
  apply returns_0_or_1_bind; [by apply get_workflow_runs_gh_exits|].
  intros runs. destruct (CiCheck.most_recent_failed runs); [right|left]; reflexivity.
Qed.

End CiExit.

(** ** More on the CI tool *)

Section CiMore.
Context {rt : Runtime}.

(** What [main] does once the repository is known and [gh] answers. *)
Lemma ci_main_after_setup (w : CiCheck.World) (args : CiCheck.Args)
    (url version : string) (self : CiCheck.CIChecker) :
  CiCheck.run_checked w CiCheck.git_remote_cmd = inr url ->
  CiCheck.parse_remote_url (strip url) = inr self ->
  CiCheck.run_checked w ["gh"; "--version"] = inr version ->
  CiCheck.main w args =
    try_catch
      (_ ← emit (Spawn CiCheck.git_remote_cmd);
       _ ← emit (Spawn ["gh"; "--version"]);
       report ← CiCheck.format_status_report w self (CiCheck.limit args) (CiCheck.workflow args);
       _ ← print report;
       runs ← CiCheck.get_workflow_runs_gh w 1 (CiCheck.workflow args);
       if CiCheck.most_recent_failed runs then mret 1 else mret 0)
      is_Exception
      (fun e => _ ← emit (StderrExn "Error: " e); _ ← emit (Traceback e); mret 1).
Proof.
  intros Hgit Hparse Hgh.
  unfold CiCheck.main, CiCheck.new_CIChecker, CiCheck._detect_repo, CiCheck.check_gh_cli,
    CiCheck.subprocess_run.
  rewrite Hgit, Hgh.
  cbn -[CiCheck.format_status_report CiCheck.get_workflow_runs_gh strip
        CiCheck.parse_remote_url CiCheck.git_remote_cmd].
  rewrite Hparse.
  cbn -[CiCheck.format_status_report CiCheck.get_workflow_runs_gh CiCheck.git_remote_cmd].
  destruct (CiCheck.format_status_report w self _ _) as [l [e|report]];
    cbn -[CiCheck.get_workflow_runs_gh CiCheck.git_remote_cmd]; [reflexivity|].
  destruct (CiCheck.get_workflow_runs_gh w 1 _) as [l' [e|runs]];
    cbn -[CiCheck.git_remote_cmd]; [reflexivity|].
  destruct (CiCheck.most_recent_failed runs); reflexivity.
Qed.

Lemma get_workflow_runs_gh_ok (w : CiCheck.World) (limit : Z) (workflow : option string)
    (runs : list (gmap string pyval)) :
  CiCheck.run_json w (CiCheck.gh_run_list_cmd limit workflow) = inr runs ->
  CiCheck.get_workflow_runs_gh w limit workflow =
    ([Spawn (CiCheck.gh_run_list_cmd limit workflow)], inr runs).
Proof. intros H. unfold CiCheck.get_workflow_runs_gh. rewrite H. reflexivity. Qed.


(** The exit status follows the most recent run alone: it is 1 exactly
    when the run fetched with limit 1 has the conclusion "failure",
    whatever the runs listed in the report are. *)
Theorem ci_exit_status_follows_latest_run (w : CiCheck.World) (args : CiCheck.Args)
    (url version : string) (self : CiCheck.CIChecker)
    (runs latest : list (gmap string pyval)) (ls : list string) :
  CiCheck.run_checked w CiCheck.git_remote_cmd = inr url ->
  CiCheck.parse_remote_url (strip url) = inr self ->
  CiCheck.run_checked w ["gh"; "--version"] = inr version ->
  CiCheck.run_json w (CiCheck.gh_run_list_cmd (CiCheck.limit args) (CiCheck.workflow args)) =
    inr runs ->
  CiCheck.report_lines self (CiCheck.workflow args) runs = inr ls ->
  CiCheck.run_json w (CiCheck.gh_run_list_cmd 1 (CiCheck.workflow args)) = inr latest ->
  stdout_of (events (CiCheck.main w args)) = [join_lines ls] /\
  (exit_status (CiCheck.main w args) = 0 \/ exit_status (CiCheck.main w args) = 1) /\
  (exit_status (CiCheck.main w args) = 1 <->
   exists run rest, latest = run :: rest /\ run !! "conclusion" = Some (PStr "failure")).
Proof.
  intros Hgit Hparse Hgh Hruns Hls Hlatest.
  rewrite (ci_main_after_setup w args url version self Hgit Hparse Hgh).
  unfold CiCheck.format_status_report.
  rewrite (get_workflow_runs_gh_ok _ _ _ _ Hruns).
  cbn -[CiCheck.gh_run_list_cmd join_lines CiCheck.git_remote_cmd CiCheck.report_lines
        CiCheck.get_workflow_runs_gh].
  rewrite Hls.
  cbn -[CiCheck.gh_run_list_cmd join_lines CiCheck.git_remote_cmd CiCheck.get_workflow_runs_gh].
  rewrite (get_workflow_runs_gh_ok _ _ _ _ Hlatest).
  cbn -[CiCheck.gh_run_list_cmd join_lines CiCheck.git_remote_cmd].
  assert (Hiff : CiCheck.most_recent_failed latest = true <->
                 exists run rest, latest = run :: rest /\
                                  run !! "conclusion" = Some (PStr "failure")).
  { unfold CiCheck.most_recent_failed. destruct latest as [|run rest].
    - split; [discriminate|]. by intros (? & ? & ? & _).
    - destruct (run !! "conclusion") as [v|] eqn:E.
      + rewrite eq_str_true. split.
        * intros ->. eauto.
        * intros (run' & rest' & [= <- <-] & H). congruence.
      + split; [discriminate|]. intros (run' & rest' & [= <- <-] & H). congruence. }
  destruct (CiCheck.most_recent_failed latest); cbn -[join_lines].
  - split; [reflexivity|]. split; [by right|]. split; [intros _; by apply Hiff|reflexivity].
  - split; [reflexivity|]. split; [by left|]. split; [discriminate|].
    intros H. apply Hiff in H. discriminate.
Qed.

(** Without the [gh] program the tool says so on the error stream and
    returns 1; it lists no runs and prints no report. *)
Theorem ci_without_gh_cli (w : CiCheck.World) (args : CiCheck.Args)
    (url : string) (self : CiCheck.CIChecker) (e : exn) :
  CiCheck.run_checked w CiCheck.git_remote_cmd = inr url ->
  CiCheck.parse_remote_url (strip url) = inr self ->
  CiCheck.run_checked w ["gh"; "--version"] = inl e ->
  e = FileNotFoundError \/ e = CalledProcessError ->
  CiCheck.main w args =
    ([Spawn CiCheck.git_remote_cmd; Spawn ["gh"; "--version"];
      Stderr "Error: gh CLI not found";
      Stderr "Install with: https://cli.github.com/"],
     inr 1).
Proof.
  intros Hgit Hparse Hgh He.
  unfold CiCheck.main, CiCheck.new_CIChecker, CiCheck._detect_repo, CiCheck.check_gh_cli,
    CiCheck.subprocess_run.
  rewrite Hgit, Hgh.
  cbn -[strip CiCheck.parse_remote_url CiCheck.git_remote_cmd].
  rewrite Hparse. destruct He as [-> | ->]; reflexivity.
Qed.


End CiMore.

Section CiRuns.
Context {rt : Runtime}.

Lemma concluded_cons (c : string) (run : gmap string pyval) (rest : list (gmap string pyval)) :
  CiCheck.concluded c (run :: rest) =
    ((if eq_str (get run "conclusion" (PStr "")) c then 1 else 0) +
     CiCheck.concluded c rest)%nat.
Proof.
  unfold CiCheck.concluded. rewrite filter_cons.
  destruct (eq_str (get run "conclusion" (PStr "")) c) eqn:E.
  - by rewrite decide_True.
  - by rewrite decide_False by congruence.
Qed.

(** The counters count by conclusion: a run is successful or failed by its
    [conclusion] alone, whatever its [status]. *)
Lemma loop_counts_by_conclusion (runs : list (gmap string pyval)) :
  forall st st', CiCheck.loop st runs = inr st' ->
    CiCheck.success_count st' = (CiCheck.success_count st + CiCheck.concluded "success" runs)%nat /\
    CiCheck.failure_count st' = (CiCheck.failure_count st + CiCheck.concluded "failure" runs)%nat.
Proof.
  induction runs as [|run rest IH]; intros st st'; cbn [CiCheck.loop].
  - intros [= <-]. unfold CiCheck.concluded. cbn. lia.
  - unfold CiCheck.loop_body.
    destruct (CiCheck.format_run_status run) as [e|line]; [discriminate|].
    cbn [mbind result_bind bind]. rewrite !concluded_cons.
    destruct (eq_str (get run "conclusion" (PStr "")) "success") eqn:Es.
    + apply eq_str_true in Es. rewrite Es. cbn [eq_str String.eqb].
      intros H. apply IH in H as [H1 H2]. cbn in H1, H2. cbn. lia.
    + destruct (eq_str (get run "conclusion" (PStr "")) "failure") eqn:Ef;
        intros H; apply IH in H as [H1 H2]; cbn in H1, H2; cbn; lia.
Qed.

(** The summary of the report gives the number of runs concluded with
    "success", the number concluded with "failure", and the rest. *)
Theorem summary_counts_by_conclusion (self : CiCheck.CIChecker)
    (workflow : option string) (runs : list (gmap string pyval)) (ls : list string) :
  runs <> [] ->
  CiCheck.report_lines self workflow runs = inr ls ->
  exists body,
    ls = body ++
         ["  Successful: " +:+ pretty (CiCheck.concluded "success" runs);
          "  Failed: " +:+ pretty (CiCheck.concluded "failure" runs);
          "  Other: " +:+ pretty (length runs - CiCheck.concluded "success" runs
                                  - CiCheck.concluded "failure" runs)%nat;
          ""; repeat_str "=" 70] /\
    (CiCheck.concluded "success" runs + CiCheck.concluded "failure" runs <= length runs)%nat.
Proof.
  intros Hne. unfold CiCheck.report_lines. destruct runs as [|r rs]; [congruence|].
  destruct (CiCheck.loop _ (r :: rs)) as [e|st] eqn:E; [discriminate|].
  cbn [mbind result_bind bind mret result_ret ret]. intros [= <-].
  destruct (loop_counts_by_conclusion _ _ _ E) as [Hs Hf].
  destruct (loop_counts _ _ _ E) as [Hc _].
  unfold CiCheck.counted in Hc.
  cbn [CiCheck.success_count CiCheck.failure_count CiCheck.other_count] in Hs, Hf, Hc.
  assert (Ho : CiCheck.other_count st =
               (length (r :: rs) - CiCheck.concluded "success" (r :: rs)
                - CiCheck.concluded "failure" (r :: rs))%nat).
  { lia. }
  rewrite Hs, Hf, Ho.
  exists (CiCheck.lines st ++ [""; "Summary:"; repeat_str "-" 70]).
  split; [by rewrite <- app_assoc | lia].
Qed.

(** A completed run whose conclusion is not a string, such as a JSON
    null, cannot be formatted: the formatter raises [AttributeError]. *)
Lemma completed_run_without_text (run : gmap string pyval) (v : pyval) :
  run !! "status" = Some (PStr "completed") ->
  run !! "conclusion" = Some v ->
  (forall c, v <> PStr c) ->
  CiCheck.format_run_status run = inl AttributeError.
Proof.
  intros Hs Hc Hv. unfold CiCheck.format_run_status, CiCheck.icon_and_text, get.
  rewrite Hs, Hc. destruct v; try reflexivity. by destruct (Hv s).
Qed.

Lemma loop_stops_at_bad_run (runs : list (gmap string pyval)) (bad : gmap string pyval) :
  bad ∈ runs ->
  CiCheck.format_run_status bad = inl AttributeError ->
  forall st, CiCheck.loop st runs = inl AttributeError.
Proof.
  intros Hin Hbad. induction runs as [|run rest IH]; intros st.
  - by apply elem_of_nil in Hin.
  - cbn [CiCheck.loop].
    destruct (CiCheck.loop_body st run) as [e|st1] eqn:E1; cbn.
    + f_equal. revert E1. unfold CiCheck.loop_body.
      destruct (CiCheck.format_run_status run) as [e'|line] eqn:Ef; cbn.
      * intros [= <-]. by eapply format_run_status_raises.
      * destruct (eq_str _ "success"); [|destruct (eq_str _ "failure")]; discriminate.
    + apply elem_of_cons in Hin as [<-|Hin]; [|by apply IH].
      exfalso. revert E1. unfold CiCheck.loop_body. rewrite Hbad. discriminate.
Qed.

(** One such run among the fetched ones keeps the whole report from being
    printed; the tool reports the exception and returns 1. *)
Theorem ci_null_conclusion_is_fatal (w : CiCheck.World) (args : CiCheck.Args)
    (url version : string) (self : CiCheck.CIChecker)
    (runs : list (gmap string pyval)) (bad : gmap string pyval) (v : pyval) :
  CiCheck.run_checked w CiCheck.git_remote_cmd = inr url ->
  CiCheck.parse_remote_url (strip url) = inr self ->
  CiCheck.run_checked w ["gh"; "--version"] = inr version ->
  CiCheck.run_json w (CiCheck.gh_run_list_cmd (CiCheck.limit args) (CiCheck.workflow args)) =
    inr runs ->
  bad ∈ runs ->
  bad !! "status" = Some (PStr "completed") ->
  bad !! "conclusion" = Some v ->
  (forall c, v <> PStr c) ->
  CiCheck.main w args =
    ([Spawn CiCheck.git_remote_cmd; Spawn ["gh"; "--version"];
      Spawn (CiCheck.gh_run_list_cmd (CiCheck.limit args) (CiCheck.workflow args));
      StderrExn "Error: " AttributeError; Traceback AttributeError],
     inr 1).
Proof.
  intros Hgit Hparse Hgh Hruns Hin Hs Hc Hv.
  rewrite (ci_main_after_setup w args url version self Hgit Hparse Hgh).
  unfold CiCheck.format_status_report.
  rewrite (get_workflow_runs_gh_ok _ _ _ _ Hruns).
  assert (Hrep : CiCheck.report_lines self (CiCheck.workflow args) runs = inl AttributeError).
  { unfold CiCheck.report_lines. destruct runs as [|r rs]; [by apply elem_of_nil in Hin|].
    rewrite (loop_stops_at_bad_run (r :: rs) bad Hin); [reflexivity|].
    by eapply completed_run_without_text. }
  cbn -[CiCheck.gh_run_list_cmd CiCheck.git_remote_cmd CiCheck.report_lines
        CiCheck.get_workflow_runs_gh].
  rewrite Hrep. reflexivity.
Qed.

(** A run that is not completed shows its status, whatever its conclusion
    is: in progress, queued, or the status in upper case behind a question
    mark. *)
Theorem pending_run_icon_and_label (run : gmap string pyval) (s : string) :
  run !! "status" = Some (PStr s) ->
  s <> "completed" ->
  exists icon text tail,
    CiCheck.format_run_status run = inr (icon +:+ " " +:+ text +:+ tail) /\
    (s = "in_progress" -> icon = "🔄" /\ text = "IN PROGRESS") /\
    (s = "queued" -> icon = "⏳" /\ text = "QUEUED") /\
    (s <> "in_progress" -> s <> "queued" -> icon = "❓" /\ text = upper s).
Proof.
  intros Hs Hne.
  assert (E : exists icon text,
             CiCheck.icon_and_text run = inr (icon, text) /\
             (s = "in_progress" -> icon = "🔄" /\ text = "IN PROGRESS") /\
             (s = "queued" -> icon = "⏳" /\ text = "QUEUED") /\
             (s <> "in_progress" -> s <> "queued" -> icon = "❓" /\ text = upper s)).
  { unfold CiCheck.icon_and_text, get. rewrite Hs. cbn [eq_str].
    apply String.eqb_neq in Hne. rewrite Hne.
    destruct (String.eqb_spec s "in_progress") as [->|N1].
    { do 2 eexists. split; [reflexivity|]. repeat split; congruence. }
    destruct (String.eqb_spec s "queued") as [->|N2].
    { do 2 eexists. split; [reflexivity|]. repeat split; congruence. }
    do 2 eexists. split; [reflexivity|]. repeat split; congruence. }
  destruct E as (icon & text & E & Hcases).
  exists icon, text. eexists. split; [|exact Hcases].
  rewrite (format_run_status_line run icon text E). reflexivity.
Qed.

End CiRuns.

(** ** More on the SonarCloud tool *)

Lemma float_ordinary `{Runtime} (v : pyval) : no_SystemExit (float v).
Proof.
  destruct v as [|b|z|s]; cbn; try exact I.
  - unfold float_of_int. by destruct (float_of_Z _).
  - unfold float_of_int. by destruct (float_of_Z z).
  - by destruct (float_of_str s).
Qed.

Section SonarExit.
Context {rt : Runtime}.

Lemma coverage_line_ordinary (measures : gmap string pyval) :
  no_SystemExit (SonarCheck.coverage_line measures).
Proof.
  unfold SonarCheck.coverage_line. destruct (negb _); [|exact I].
  pose proof (float_ordinary (get measures "coverage" (PStr "N/A"))) as Hf.
  by destruct (float _) as [[]|x].
Qed.

Lemma entry_line_ordinary (info : SonarCheck.file_info) :
  no_SystemExit (SonarCheck.entry_line info).
Proof.
  unfold SonarCheck.entry_line. destruct (_ !! "coverage") as [c|]; [|exact I].
  pose proof (float_ordinary c) as Hf. by destruct (float c) as [[]|x].
Qed.

Lemma file_loop_ordinary (detail : list SonarCheck.file_info) :
  forall st, no_SystemExit (SonarCheck.file_loop st detail).
Proof.
  induction detail as [|info rest IH]; intros st; cbn [SonarCheck.file_loop]; [exact I|].
  rewrite file_loop_body_entry.
  pose proof (entry_line_ordinary info) as He.
  destruct (SonarCheck.entry_line info) as [e|line]; cbn.
  - by destruct e.
  - apply IH.
Qed.

Lemma coverage_detail_lines_ordinary (detail : list SonarCheck.file_info) :
  no_SystemExit (SonarCheck.coverage_detail_lines detail).
Proof.
  unfold SonarCheck.coverage_detail_lines. destruct detail as [|info rest]; [exact I|].
  pose proof (file_loop_ordinary (info :: rest) SonarCheck.no_files) as Hl.
  destruct (SonarCheck.file_loop _ _) as [e|st]; cbn; [by destruct e|exact I].
Qed.

Lemma filter_components_ordinary (f : string) (cs : list SonarCheck.file_info) :
  no_SystemExit (SonarCheck.filter_components f cs).
Proof.
  induction cs as [|c rest IH]; cbn; [exact I|].
  unfold SonarCheck.path_startswith.
  destruct (default (PStr "") (SonarCheck.path c)); cbn; try exact I.
  destruct (SonarCheck.filter_components f rest) as [e|rest']; cbn; [by destruct e|exact I].
Qed.

Lemma get_exits {A} (answer : result A) :
  SonarCheck.transport_only answer -> exits_with_1 (SonarCheck._get answer).
Proof.
  intros Ht. unfold SonarCheck._get. apply exits_with_1_try.
  - apply exits_with_1_lift. destruct answer as [e|a]; [|exact I]. cbn in Ht. by subst e.
  - intros e. reflexivity.
Qed.

Lemma format_status_report_exits (w : SonarCheck.World) (self : SonarCheck.SonarCloudChecker)
    (component : option string) :
  SonarCheck.reachable w ->
  exits_with_1 (SonarCheck.format_status_report w self component).
Proof.
  intros (Hq & Hm & Ha & Hc). unfold SonarCheck.format_status_report.
  apply exits_with_1_bind.
  { unfold SonarCheck.get_recent_analysis.
    apply exits_with_1_bind; [by apply get_exits | intros ?; exact I]. }
  intros analysis. apply exits_with_1_bind.
  { unfold SonarCheck.get_quality_gate_status.
    apply exits_with_1_bind; [apply get_exits, Hq | intros ?; exact I]. }
  intros qg. apply exits_with_1_bind.
  { unfold SonarCheck.get_project_measures.
    apply exits_with_1_bind; [by apply get_exits | intros ?; exact I]. }
  intros measures. apply exits_with_1_bind.
  { apply exits_with_1_lift, coverage_line_ordinary. }
  intros cov. apply exits_with_1_bind.
  { unfold SonarCheck.get_coverage_detail.
    apply exits_with_1_bind; [by apply get_exits|].
    intros data. destruct (truthy_opt component); [|exact I].
    apply exits_with_1_lift, filter_components_ordinary. }
  intros detail. apply exits_with_1_bind; [|intros ?; exact I].
  apply exits_with_1_lift, coverage_detail_lines_ordinary.
Qed.

(** The SonarCloud tool ends with status 0 or 1, whatever the API
    answers. *)
Theorem sonar_exit_status_0_or_1 (w : SonarCheck.World) (args : SonarCheck.Args) :
  SonarCheck.reachable w ->
  exit_status (SonarCheck.main w args) = 0 \/ exit_status (SonarCheck.main w args) = 1.
Proof.
  intros Hw. pose proof Hw as (Hq & _). apply exit_status_0_or_1.
  unfold SonarCheck.main. apply returns_0_or_1_try; [|intros e; right; reflexivity].
  apply returns_0_or_1_bind; [by apply format_status_report_exits|].
  intros report. apply returns_0_or_1_bind; [exact I|]. intros _.
  apply returns_0_or_1_bind.
  { unfold SonarCheck.get_quality_gate_status.
    apply exits_with_1_bind; [apply get_exits, Hq | intros ?; exact I]. }
  intros qg. destruct (SonarCheck.gate_failed qg); [right|left]; reflexivity.
Qed.

End SonarExit.

(** ** Failing requests *)

Lemma silent_bind {A B} (m : io A) (k : A -> io B) :
  silent m -> (forall a, silent (k a)) -> silent (m ≫= k).
Proof.
  unfold silent. destruct m as [l [e|a]]; [auto|].
  intros Hm Hk. specialize (Hk a). unfold mbind, io_bind.
  destruct (k a) as [l' r]. cbn [fst] in *.
  by rewrite stdout_of_app, Hm, Hk.
Qed.

Lemma silent_try {A} (m : io A) (catches : exn -> bool) (h : exn -> io A) :
  silent m -> (forall e, silent (h e)) -> silent (try_catch m catches h).
Proof.
  unfold silent, try_catch. destruct m as [l [e|a]]; [|auto].
  intros Hm Hh. destruct (catches e); [|exact Hm].
  specialize (Hh e). destruct (h e) as [l' r]. cbn [fst] in *.
  by rewrite stdout_of_app, Hm, Hh.
Qed.

Lemma silent_get {A} (answer : result A) : silent (SonarCheck._get answer).
Proof.
  unfold SonarCheck._get. apply silent_try; [reflexivity|]. intros e. reflexivity.
Qed.

Section SonarFailure.
Context {rt : Runtime}.

(** Building the report prints nothing: the report is printed by [main],
    in one piece, once it is complete. *)
Lemma format_status_report_silent (w : SonarCheck.World) (self : SonarCheck.SonarCloudChecker)
    (component : option string) :
  silent (SonarCheck.format_status_report w self component).
Proof.
  unfold SonarCheck.format_status_report.
  apply silent_bind.
  { unfold SonarCheck.get_recent_analysis.
    apply silent_bind; [apply silent_get | intros ?; reflexivity]. }
  intros analysis. apply silent_bind.
  { unfold SonarCheck.get_quality_gate_status.
    apply silent_bind; [apply silent_get | intros ?; reflexivity]. }
  intros qg. apply silent_bind.
  { unfold SonarCheck.get_project_measures.
    apply silent_bind; [apply silent_get | intros ?; reflexivity]. }
  intros measures. apply silent_bind; [reflexivity|].
  intros cov. apply silent_bind.
  { unfold SonarCheck.get_coverage_detail.
    apply silent_bind; [apply silent_get|].
    intros data. destruct (truthy_opt component); reflexivity. }
  intros detail. apply silent_bind; [reflexivity | intros ?; reflexivity].
Qed.

(** A request that fails is fatal.  When it is one of the four requests
    made for the report, the tool prints no report, not even the part
    already built, and ends with status 1.  When the report is produced
    and the request that follows it fails, the report is on standard
    output and the status is 1 all the same. *)
Theorem sonar_request_failure_is_fatal (w : SonarCheck.World) (args : SonarCheck.Args) :
  SonarCheck.reachable w ->
  (SonarCheck.some_request_fails w ->
   stdout_of (events (SonarCheck.main w args)) = [] /\
   exit_status (SonarCheck.main w args) = 1) /\
  (forall l report,
     SonarCheck.format_status_report w
       {| SonarCheck.organization := SonarCheck.arg_organization args;
          SonarCheck.project_key := SonarCheck.project args |}
       (SonarCheck.component args) = (l, inr report) ->
     SonarCheck.project_status w 1 = inl RequestException ->
     stdout_of (events (SonarCheck.main w args)) = [report] /\
     exit_status (SonarCheck.main w args) = 1).
Proof.
  intros Hw. split.
  - intros Hfail.
    set (self := {| SonarCheck.organization := SonarCheck.arg_organization args;
                    SonarCheck.project_key := SonarCheck.project args |}).
    pose proof (format_status_report_silent w self (SonarCheck.component args)) as Hsil.
    pose proof (format_status_report_exits w self (SonarCheck.component args) Hw) as Hex.
    unfold SonarCheck.main. fold self.
    destruct (SonarCheck.format_status_report w self (SonarCheck.component args))
      as [l [e|report]] eqn:E.
    + unfold silent in Hsil. unfold exits_with_1 in Hex. cbn [fst snd] in Hsil, Hex.
      destruct e; cbn -[stdout_of]; rewrite ?stdout_of_app, ?Hsil; try (split; reflexivity).
      rewrite Hex. split; reflexivity.
    + exfalso.
      destruct (report_produced _ _ _ _ _ E) as (an & oqg & ms & detail & cov & dl & H).
      destruct H as (Ha & Hq & Hm & Hd & _).
      assert (Hc : exists cs, SonarCheck.components w = inr cs).
      { revert Hd. unfold SonarCheck.get_coverage_detail.
        destruct (SonarCheck.components w) as [e|cs]; [|eauto].
        destruct (get_failure (A := option (list SonarCheck.file_info)) e) as (l' & e' & ->).
        cbn. discriminate. }
      destruct Hc as [cs Hc].
      destruct Hfail as [H|[H|[H|H]]]; congruence.
  - intros l report E Hlate.
    pose proof (main_after_report w args l report E) as Hmain.
    rewrite Hlate in Hmain. destruct Hmain as [Hout Hexit]. split; [exact Hout|].
    by apply Hexit.
Qed.

End SonarFailure.

(** ** Values that are no numbers, totals, and the component filter *)

Lemma entry_lines_length `{Runtime} (infos : list SonarCheck.file_info) :
  forall ls, SonarCheck.entry_lines infos = inr ls -> length ls = length infos.
Proof.
  induction infos as [|info rest IH]; intros ls; cbn.
  - by intros [= <-].
  - destruct (SonarCheck.entry_line info) as [e|line]; [discriminate|]. cbn.
    destruct (SonarCheck.entry_lines rest) as [e|ls']; [discriminate|]. cbn.
    intros [= <-]. cbn. f_equal. by apply IH.
Qed.

Lemma measures_dict_snoc (d : pyval) (ms : list SonarCheck.measure) (m : SonarCheck.measure) :
  SonarCheck.measures_dict d (ms ++ [m]) =
    <[SonarCheck.metric m := default d (SonarCheck.value m)]> (SonarCheck.measures_dict d ms).
Proof. unfold SonarCheck.measures_dict. by rewrite foldl_app. Qed.

Section SonarMore.
Context {rt : Runtime}.

(** A coverage value that is no number stops the tool before anything is
    printed, and the status is 1 whatever the quality gate says. *)
Theorem sonar_coverage_not_a_number (w : SonarCheck.World) (args : SonarCheck.Args)
    (an : option (list (gmap string pyval))) (oqg : option (gmap string pyval))
    (ms : option (option (list SonarCheck.measure))) (s : string) :
  SonarCheck.analyses w = inr an ->
  SonarCheck.project_status w 0 = inr oqg ->
  SonarCheck.component_measures w = inr ms ->
  SonarCheck.measures_dict (PStr "0") (default [] (default None ms)) !! "coverage" =
    Some (PStr s) ->
  s <> "N/A" ->
  float_of_str s = None ->
  stdout_of (events (SonarCheck.main w args)) = [] /\
  (SonarCheck.main w args).2 = inr 1 /\
  exists msg, In (Traceback (ValueError msg)) (events (SonarCheck.main w args)).
Proof.
  intros Ha Hq Hm Hcov Hna Hfloat.
  assert (Hline : exists msg,
            SonarCheck.coverage_line
              (SonarCheck.measures_dict (PStr "0") (default [] (default None ms))) =
              inl (ValueError msg)).
  { unfold SonarCheck.coverage_line, get. rewrite Hcov. cbn [eq_str].
    apply String.eqb_neq in Hna. rewrite Hna. cbn. rewrite Hfloat. eauto. }
  destruct Hline as [msg Hline].
  unfold SonarCheck.main, SonarCheck.format_status_report, SonarCheck.get_recent_analysis,
    SonarCheck.get_quality_gate_status, SonarCheck.get_project_measures.
  rewrite Ha, Hq, Hm.
  cbn -[SonarCheck.report_header SonarCheck.analysis_lines SonarCheck.gate_lines
        SonarCheck.coverage_line SonarCheck.issue_lines SonarCheck.get_coverage_detail
        SonarCheck.coverage_detail_lines join_lines repeat_str SonarCheck.measures_dict].
  rewrite Hline. cbn. split; [reflexivity|]. split; [reflexivity|]. exists msg. tauto.
Qed.

(** The three totals under the file list agree: the files with and the
    files without coverage are all the files. *)
Theorem file_totals_add_up (detail : list SonarCheck.file_info) (ls : list string) :
  detail <> [] ->
  SonarCheck.coverage_detail_lines detail = inr ls ->
  exists (section : list string) (covered uncovered : nat),
    ls = ["File Coverage:"; repeat_str "-" 70] ++ section ++
         [""; "Total Files: " +:+ pretty (length detail);
          "With Coverage: " +:+ pretty covered;
          "Without Coverage: " +:+ pretty uncovered] /\
    covered = length (filter SonarCheck.has_coverage detail) /\
    (covered + uncovered)%nat = length detail.
Proof.
  intros Hne. unfold SonarCheck.coverage_detail_lines.
  destruct detail as [|info rest]; [congruence|].
  destruct (SonarCheck.file_loop SonarCheck.no_files (info :: rest)) as [e|st] eqn:E;
    [discriminate|].
  cbn [mbind result_bind bind mret result_ret ret]. intros [= <-].
  destruct (file_loop_groups _ _ _ E) as (W & N & HW & HN & EW & EN). cbn in EW, EN.
  apply entry_lines_length in HW, HN.
  exists (SonarCheck.file_section st), (length W), (length N).
  rewrite EW, EN. split; [reflexivity|]. split; [exact HW|].
  rewrite HW, HN.
  pose proof (filter_app_complement SonarCheck.has_coverage (info :: rest)) as Hp.
  apply Permutation_length in Hp. by rewrite length_app in Hp.
Qed.

(** With a component filter the file list keeps, in the order fetched, the
    files whose path starts with the filter; a file without a path is
    dropped. *)
Theorem component_filter_keeps_prefix (w : SonarCheck.World) (f : string)
    (ocs : option (list SonarCheck.file_info)) :
  f <> "" ->
  SonarCheck.components w = inr ocs ->
  Forall (fun c => exists p, default (PStr "") (SonarCheck.path c) = PStr p) (default [] ocs) ->
  SonarCheck.get_coverage_detail w (Some f) =
    ([], inr (filter (fun c => String.prefix f (str (default (PStr "") (SonarCheck.path c))) = true)
                     (default [] ocs))) /\
  SonarCheck.get_coverage_detail w None = ([], inr (default [] ocs)) /\
  SonarCheck.get_coverage_detail w (Some "") = ([], inr (default [] ocs)).
Proof.
  intros Hf Hc Hty. unfold SonarCheck.get_coverage_detail. rewrite Hc.
  cbn [truthy_opt]. apply String.eqb_neq in Hf. rewrite Hf. cbn.
  split; [|split; reflexivity].
  assert (E : SonarCheck.filter_components f (default [] ocs) =
              inr (filter (fun c => String.prefix f
                                      (str (default (PStr "") (SonarCheck.path c))) = true)
                          (default [] ocs))).
  { induction Hty as [|c rest [p Hp] _ IH]; [reflexivity|].
    cbn [SonarCheck.filter_components]. unfold SonarCheck.path_startswith.
    rewrite filter_cons, Hp. cbn [as_str str mbind result_bind bind mret result_ret ret].
    rewrite IH. cbn [mbind result_bind bind mret result_ret ret].
    destruct (String.prefix f p) eqn:Ep.
    - by rewrite decide_True.
    - by rewrite decide_False by congruence. }
  rewrite E. reflexivity.
Qed.

(** The line of a file with a coverage value carries the icon of the same
    three tiers as the project line, and the value with one decimal. *)
Theorem file_entry_icon_tiers (st : SonarCheck.file_lists) (info : SonarCheck.file_info)
    (s : string) (x : spec_float) (q : Q) :
  SonarCheck.measures_dict PNone (default [] (SonarCheck.file_measures info)) !! "coverage" =
    Some (PStr s) ->
  float_of_str s = Some x ->
  valid_binary prec emax x = true ->
  float_value x = Some q ->
  exists icon tail,
    SonarCheck.file_loop_body st info =
      inr {| SonarCheck.files_with_coverage :=
               SonarCheck.files_with_coverage st ++
               ["  " +:+ icon +:+ " " +:+ SonarCheck.path_text info +:+ ": " +:+
                format_1f x +:+ "% (" +:+ tail];
             SonarCheck.files_without_coverage := SonarCheck.files_without_coverage st |} /\
    ((80 <= q)%Q -> icon = "✅") /\
    ((60 <= q)%Q /\ (q < 80)%Q -> icon = "⚠️") /\
    ((q < 60)%Q -> icon = "❌").
Proof.
  intros Hcov Hfloat Hv Hq.
  destruct (cov_icon_tiers x q Hv Hq) as (T1 & T2 & T3).
  exists (SonarCheck.cov_icon x). eexists. split; [|auto].
  unfold SonarCheck.file_loop_body. rewrite Hcov. cbn. rewrite Hfloat. cbn.
  reflexivity.
Qed.

(** When the answer names a metric twice the later measure is the one
    shown, and a measure without a value reads as "0". *)
Theorem project_measures_last_entry_wins (w : SonarCheck.World)
    (ms : list SonarCheck.measure) (m : SonarCheck.measure) :
  SonarCheck.component_measures w = inr (Some (Some (ms ++ [m]))) ->
  exists measures,
    SonarCheck.get_project_measures w = ([], inr measures) /\
    measures !! SonarCheck.metric m = Some (default (PStr "0") (SonarCheck.value m)) /\
    forall k, k <> SonarCheck.metric m ->
              measures !! k = SonarCheck.measures_dict (PStr "0") ms !! k.
Proof.
  intros H. unfold SonarCheck.get_project_measures. rewrite H. cbn [default].
  exists (SonarCheck.measures_dict (PStr "0") (ms ++ [m])).
  split; [reflexivity|]. rewrite measures_dict_snoc. split.
  - apply lookup_insert_eq.
  - intros k Hk. by apply lookup_insert_ne.
Qed.

End SonarMore.

(** ** Remote URLs of any scheme *)

Lemma contains_append (p front s : string) :
  contains p s = true -> contains p (front +:+ s) = true.
Proof.
  intros H. induction front as [|c front IH]; [exact H|].
  change (String c front +:+ s) with (String c (front +:+ s)). by apply contains_cons.
Qed.

Lemma split_host_once (front rest : string) :
  starts_within "github.com/" front ("github.com/" +:+ rest) = false ->
  contains "github.com/" rest = false ->
  last_piece (split "github.com/" (front +:+ "github.com/" +:+ rest)) = rest.
Proof.
  intros Hfront Hrest. unfold split. rewrite (split_go_front _ _ _ Hfront).
  assert (Hs : split_go "github.com/" 0 ("github.com/" +:+ rest) = [""; rest]).
  { pose proof (prefix_append "github.com/" rest) as E.
    change ("github.com/" +:+ rest) with (String "g" ("ithub.com/" +:+ rest)) in *.
    cbn [split_go]. rewrite E. f_equal.
    change (split_go "github.com/" (String.length "github.com/" - 1) ("ithub.com/" +:+ rest))
      with (split_go "github.com/" 0 rest).
    by apply split_go_absent. }
  rewrite Hs. reflexivity.
Qed.

(** The resolver does not look at the scheme: for a URL that is not of the
    [git@github.com:] form and holds [github.com/] once, the owner and the
    repository are read from what follows the host, whatever precedes it.
    This is for names without a slash in which [.git] occurs only as the
    optional final suffix. *)
Theorem resolver_any_scheme (front owner repo : string) (dot_git : bool) :
  String.prefix "git@github.com:"
    (front +:+ "github.com/" +:+ (owner +:+ "/" +:+ repo) +:+ (if dot_git then ".git" else "")) =
    false ->
  starts_within "github.com/" front
    ("github.com/" +:+ (owner +:+ "/" +:+ repo) +:+ (if dot_git then ".git" else "")) = false ->
  contains "github.com/" ((owner +:+ "/" +:+ repo) +:+ (if dot_git then ".git" else "")) = false ->
  contains "/" owner = false ->
  contains "/" repo = false ->
  starts_within ".git" (owner +:+ "/" +:+ repo) (if dot_git then ".git" else "") = false ->
  CiCheck.parse_remote_url
    (front +:+ "github.com/" +:+ (owner +:+ "/" +:+ repo) +:+ (if dot_git then ".git" else "")) =
    inr {| CiCheck.repo_owner := owner; CiCheck.repo_name := repo |}.
Proof.
  intros Hssh Hfront Hhost Ho Hr Hgit.
  set (rest := (owner +:+ "/" +:+ repo) +:+ (if dot_git then ".git" else "")) in *.
  assert (Hc : contains "github.com/" (front +:+ "github.com/" +:+ rest) = true).
  { apply contains_append, contains_prefix, prefix_append. }
  assert (Hc' : contains "github.com" (front +:+ "github.com/" +:+ rest) = true).
  { apply contains_append, contains_prefix.
    change ("github.com/" +:+ rest) with ("github.com" +:+ String "/" rest).
    apply prefix_append. }
  unfold CiCheck.parse_remote_url, CiCheck.url_parts.
  rewrite Hc', Hssh, Hc, (split_host_once front rest Hfront Hhost).
  subst rest. rewrite (replace_dot_git _ _ Hgit), (split_owner_repo _ _ Ho Hr). reflexivity.
Qed.

Example resolver_any_scheme_witness :
  CiCheck.parse_remote_url "ssh://git@github.com/griswaldbrooks/sonarcloud-cpp-minimal.git" =
    inr {| CiCheck.repo_owner := "griswaldbrooks";
           CiCheck.repo_name := "sonarcloud-cpp-minimal" |}.
Proof.
  apply (resolver_any_scheme "ssh://git@" "griswaldbrooks" "sonarcloud-cpp-minimal" true);
    vm_compute; reflexivity.
Defined.

Example run_tool_returns_witness :
  let w := {| Status.ci_tool := "tools/ci_check.py";
              Status.sonar_tool := "tools/sonarcloud_check.py";
              Status.returncode := fun _ => inl FileNotFoundError |} in
  exists l,
    Status.run_tool w "tools/ci_check.py" ["--limit"; "5"] = (l, inr 1) /\
    spawned l = [["python3"; "tools/ci_check.py"; "--limit"; "5"]] /\
    stdout_of l = [].
Proof.
  intros w. apply (run_tool_returns w "tools/ci_check.py" ["--limit"; "5"]). reflexivity.
Defined.

Example combined_exit_code_any_flags_witness :
  let w := {| Status.ci_tool := "tools/ci_check.py";
              Status.sonar_tool := "tools/sonarcloud_check.py";
              Status.returncode := fun argv =>
                if bool_decide (argv !! 1%nat = Some "tools/ci_check.py") then inr 0 else inr 2 |} in
  let args := {| Status.project := "p"; Status.organization := "o"; Status.ci_limit := 5;
                 Status.skip_ci := false; Status.skip_sonarcloud := true |} in
  spawned (events (Status.main w args)) = [["python3"; "tools/ci_check.py"; "--limit"; "5"]] /\
  (Status.main w args).2 = inr 0.
Proof.
  intros w args.
  destruct (combined_exit_code_any_flags w args I I) as (Hs & code & Hc & _ & Hiff).
  split; [exact Hs|]. rewrite Hc. f_equal. apply Hiff. repeat constructor.
Defined.

Example combined_one_check_skipped_witness :
  let w := {| Status.ci_tool := "tools/ci_check.py";
              Status.sonar_tool := "tools/sonarcloud_check.py";
              Status.returncode := fun argv =>
                if bool_decide (argv !! 1%nat = Some "tools/ci_check.py") then inr 0 else inr 1 |} in
  let args := {| Status.project := "p"; Status.organization := "o"; Status.ci_limit := 5;
                 Status.skip_ci := true; Status.skip_sonarcloud := false |} in
  spawned (events (Status.main w args)) =
    [["python3"; "tools/sonarcloud_check.py"; "--project"; "p"; "--organization"; "o"]] /\
  In "  SonarCloud: ❌ FAILED" (stdout_of (events (Status.main w args))) /\
  exit_status (Status.main w args) = 1.
Proof.
  intros w args.
  destruct (combined_one_check_skipped w args eq_refl I I) as (Hs & Ho & He).
  split; [exact Hs|]. split; [|exact He]. rewrite Ho. vm_compute. tauto.
Defined.

Example ci_exit_status_0_or_1_witness :
  let w := {| CiCheck.run_checked := fun _ => inl FileNotFoundError;
              CiCheck.run_json := fun _ => inl JSONDecodeError |} in
  let args := {| CiCheck.limit := 5; CiCheck.workflow := None |} in
  exit_status (CiCheck.main (H := Cpython.runtime) w args) = 0 \/
  exit_status (CiCheck.main (H := Cpython.runtime) w args) = 1.
Proof.
  intros w args. apply (ci_exit_status_0_or_1 (rt := Cpython.runtime) w args).
  split; intros argv; exact I.
Defined.

Example ci_exit_status_follows_latest_run_witness :
  let failed : gmap string pyval :=
    {[ "status" := PStr "completed"; "conclusion" := PStr "failure" ]} in
  let passed : gmap string pyval :=
    {[ "status" := PStr "completed"; "conclusion" := PStr "success" ]} in
  let w := {| CiCheck.run_checked := fun argv =>
                if bool_decide (argv = CiCheck.git_remote_cmd)
                then inr "git@github.com:griswaldbrooks/sonarcloud-cpp-minimal.git"
                else inr "gh version 2.40.1";
              CiCheck.run_json := fun argv =>
                if bool_decide (argv !! 6%nat = Some "1") then inr [passed]
                else inr [passed; failed] |} in
  let args := {| CiCheck.limit := 5; CiCheck.workflow := None |} in
  exit_status (CiCheck.main (H := Cpython.runtime) w args) = 0.
Proof.
  intros failed passed w args.
  set (self := {| CiCheck.repo_owner := "griswaldbrooks";
                  CiCheck.repo_name := "sonarcloud-cpp-minimal" |}).
  set (r := CiCheck.report_lines (H := Cpython.runtime) self None [passed; failed]).
  destruct (ci_exit_status_follows_latest_run (rt := Cpython.runtime) w args
              "git@github.com:griswaldbrooks/sonarcloud-cpp-minimal.git" "gh version 2.40.1"
              self [passed; failed] [passed]
              (match r with inr ls => ls | inl _ => [] end))
    as (_ & Hor & Hiff); [vm_compute; reflexivity..|].
  destruct Hor as [H0|H1].
  - exact H0.
  - exfalso. apply Hiff in H1 as (run & rest & [= <- <-] & Hc).
    vm_compute in Hc. discriminate.
Defined.

Example ci_without_gh_cli_witness :
  let w := {| CiCheck.run_checked := fun argv =>
                if bool_decide (argv = CiCheck.git_remote_cmd)
                then inr "git@github.com:griswaldbrooks/sonarcloud-cpp-minimal.git"
                else inl FileNotFoundError;
              CiCheck.run_json := fun _ => inr [] |} in
  let args := {| CiCheck.limit := 5; CiCheck.workflow := None |} in
  CiCheck.main (H := Cpython.runtime) w args =
    ([Spawn CiCheck.git_remote_cmd; Spawn ["gh"; "--version"];
      Stderr "Error: gh CLI not found";
      Stderr "Install with: https://cli.github.com/"],
     inr 1).
Proof.
  intros w args.
  apply (ci_without_gh_cli (rt := Cpython.runtime) w args
           "git@github.com:griswaldbrooks/sonarcloud-cpp-minimal.git"
           {| CiCheck.repo_owner := "griswaldbrooks";
              CiCheck.repo_name := "sonarcloud-cpp-minimal" |} FileNotFoundError);
    [vm_compute; reflexivity.. | by left].
Defined.


Example summary_counts_by_conclusion_witness :
  let self := {| CiCheck.repo_owner := "griswaldbrooks";
                 CiCheck.repo_name := "sonarcloud-cpp-minimal" |} in
  let runs : list (gmap string pyval) :=
    [ {[ "status" := PStr "completed"; "conclusion" := PStr "success" ]};
      {[ "status" := PStr "in_progress"; "conclusion" := PStr "failure" ]};
      {[ "status" := PStr "queued"; "conclusion" := PStr "" ]} ] in
  exists ls body,
    CiCheck.report_lines (H := Cpython.runtime) self None runs = inr ls /\
    ls = body ++ ["  Successful: 1"; "  Failed: 1"; "  Other: 1"; ""; repeat_str "=" 70].
Proof.
  intros self runs.
  set (r := CiCheck.report_lines (H := Cpython.runtime) self None runs).
  assert (E : r = inr (match r with inr ls => ls | inl _ => [] end)) by (vm_compute; reflexivity).
  destruct (summary_counts_by_conclusion (rt := Cpython.runtime) self None runs _
              ltac:(discriminate) E) as (body & Hls & _).
  eexists _, body. split; [exact E|]. rewrite Hls at 1. reflexivity.
Defined.

Example ci_null_conclusion_is_fatal_witness :
  let bad : gmap string pyval := {[ "status" := PStr "completed"; "conclusion" := PNone ]} in
  let w := {| CiCheck.run_checked := fun argv =>
                if bool_decide (argv = CiCheck.git_remote_cmd)
                then inr "git@github.com:griswaldbrooks/sonarcloud-cpp-minimal.git"
                else inr "gh version 2.40.1";
              CiCheck.run_json := fun _ => inr [bad] |} in
  let args := {| CiCheck.limit := 5; CiCheck.workflow := None |} in
  exit_status (CiCheck.main (H := Cpython.runtime) w args) = 1 /\
  stdout_of (events (CiCheck.main (H := Cpython.runtime) w args)) = [].
Proof.
  intros bad w args.
  rewrite (ci_null_conclusion_is_fatal (rt := Cpython.runtime) w args
             "git@github.com:griswaldbrooks/sonarcloud-cpp-minimal.git" "gh version 2.40.1"
             {| CiCheck.repo_owner := "griswaldbrooks";
                CiCheck.repo_name := "sonarcloud-cpp-minimal" |} [bad] bad PNone);
    [split; reflexivity | vm_compute; reflexivity.. | apply list_elem_of_here
    | vm_compute; reflexivity | vm_compute; reflexivity | discriminate].
Defined.

Example pending_run_icon_and_label_witness :
  let run : gmap string pyval := {[ "status" := PStr "queued"; "conclusion" := PNone ]} in
  exists tail, CiCheck.format_run_status (H := Cpython.runtime) run = inr ("⏳ QUEUED" +:+ tail).
Proof.
  intros run.
  destruct (pending_run_icon_and_label (rt := Cpython.runtime) run "queued")
    as (icon & text & tail & E & _ & H & _);
    [vm_compute; reflexivity | discriminate |].
  destruct H as [-> ->]; [reflexivity|]. exists tail. exact E.
Defined.

Example sonar_exit_status_0_or_1_witness :
  let w := {| SonarCheck.project_status := fun _ => inr (Some {[ "status" := PStr "OK" ]});
              SonarCheck.component_measures := inr None;
              SonarCheck.analyses := inr None;
              SonarCheck.components := inl RequestException |} in
  let args := {| SonarCheck.project := "griswaldbrooks_sonarcloud-cpp-minimal";
                 SonarCheck.arg_organization := "griswaldbrooks";
                 SonarCheck.component := None |} in
  exit_status (SonarCheck.main (H := Cpython.runtime) w args) = 0 \/
  exit_status (SonarCheck.main (H := Cpython.runtime) w args) = 1.
Proof.
  intros w args. apply (sonar_exit_status_0_or_1 (rt := Cpython.runtime) w args).
  split; [intros n; exact I | repeat split].
Defined.

Example sonar_request_failure_is_fatal_witness :
  let early := {| SonarCheck.project_status := fun _ => inr (Some {[ "status" := PStr "OK" ]});
                  SonarCheck.component_measures := inr None;
                  SonarCheck.analyses := inr None;
                  SonarCheck.components := inl RequestException |} in
  let late := {| SonarCheck.project_status := fun n =>
                   match n with
                   | O => inr (Some {[ "status" := PStr "OK" ]})
                   | _ => inl RequestException
                   end;
                 SonarCheck.component_measures := inr None;
                 SonarCheck.analyses := inr None;
                 SonarCheck.components := inr None |} in
  let args := {| SonarCheck.project := "griswaldbrooks_sonarcloud-cpp-minimal";
                 SonarCheck.arg_organization := "griswaldbrooks";
                 SonarCheck.component := None |} in
  (stdout_of (events (SonarCheck.main (H := Cpython.runtime) early args)) = [] /\
   exit_status (SonarCheck.main (H := Cpython.runtime) early args) = 1) /\
  (exists report,
     stdout_of (events (SonarCheck.main (H := Cpython.runtime) late args)) = [report] /\
     exit_status (SonarCheck.main (H := Cpython.runtime) late args) = 1).
Proof.
  intros early late args. split.
  - apply (sonar_request_failure_is_fatal (rt := Cpython.runtime) early args).
    + split; [intros n; exact I | repeat split].
    + right. right. right. reflexivity.
  - set (checker := {| SonarCheck.organization := SonarCheck.arg_organization args;
                       SonarCheck.project_key := SonarCheck.project args |}).
    set (m := SonarCheck.format_status_report (H := Cpython.runtime) late checker
                (SonarCheck.component args)).
    assert (E : m = ([], inr (returned_text m))) by (vm_compute; reflexivity).
    exists (returned_text m).
    apply (sonar_request_failure_is_fatal (rt := Cpython.runtime) late args) with (l := []).
    + split; [intros [|n]; [exact I | reflexivity] | repeat split].
    + exact E.
    + reflexivity.
Defined.

Example sonar_coverage_not_a_number_witness :
  let w := {| SonarCheck.project_status := fun _ => inr (Some {[ "status" := PStr "OK" ]});
              SonarCheck.component_measures :=
                inr (Some (Some [ {| SonarCheck.metric := "coverage";
                                     SonarCheck.value := Some (PStr "n/a") |} ]));
              SonarCheck.analyses := inr (Some []);
              SonarCheck.components := inr (Some []) |} in
  let args := {| SonarCheck.project := "griswaldbrooks_sonarcloud-cpp-minimal";
                 SonarCheck.arg_organization := "griswaldbrooks";
                 SonarCheck.component := None |} in
  stdout_of (events (SonarCheck.main (H := Cpython.runtime) w args)) = [] /\
  (SonarCheck.main (H := Cpython.runtime) w args).2 = inr 1.
Proof.
  intros w args.
  destruct (sonar_coverage_not_a_number (rt := Cpython.runtime) w args
              (Some []) (Some {[ "status" := PStr "OK" ]})
              (Some (Some [ {| SonarCheck.metric := "coverage";
                               SonarCheck.value := Some (PStr "n/a") |} ])) "n/a")
    as (H1 & H2 & _);
    [reflexivity | reflexivity | reflexivity | vm_compute; reflexivity | discriminate
    | vm_compute; reflexivity |].
  split; [exact H1 | exact H2].
Defined.

Example file_totals_add_up_witness :
  let file (p : string) (cov : option string) : SonarCheck.file_info :=
    {| SonarCheck.path := Some (PStr p);
       SonarCheck.file_measures :=
         Some (match cov with
               | Some c => [ {| SonarCheck.metric := "coverage"; SonarCheck.value := Some (PStr c) |} ]
               | None => []
               end) |} in
  let detail := [file "src/a.cpp" (Some "100.0"); file "src/b.cpp" None;
                 file "src/c.cpp" (Some "42.5")] in
  exists ls section,
    SonarCheck.coverage_detail_lines (H := Cpython.runtime) detail = inr ls /\
    ls = ["File Coverage:"; repeat_str "-" 70] ++ section ++
         [""; "Total Files: 3"; "With Coverage: 2"; "Without Coverage: 1"].
Proof.
  intros file detail.
  set (r := SonarCheck.coverage_detail_lines (H := Cpython.runtime) detail).
  assert (E : r = inr (match r with inr ls => ls | inl _ => [] end)) by (vm_compute; reflexivity).
  destruct (file_totals_add_up (rt := Cpython.runtime) detail _ ltac:(discriminate) E)
    as (section & covered & uncovered & Hls & Hc & Hsum).
  assert (covered = 2%nat) as -> by (rewrite Hc; vm_compute; reflexivity).
  assert (uncovered = 1%nat) as -> by (subst detail; cbn [length] in Hsum; lia).
  eexists _, section. split; [exact E|]. rewrite Hls at 1. reflexivity.
Defined.

Example component_filter_keeps_prefix_witness :
  let file (p : string) : SonarCheck.file_info :=
    {| SonarCheck.path := Some (PStr p); SonarCheck.file_measures := None |} in
  let nameless : SonarCheck.file_info :=
    {| SonarCheck.path := None; SonarCheck.file_measures := None |} in
  let w := {| SonarCheck.project_status := fun _ => inr None;
              SonarCheck.component_measures := inr None;
              SonarCheck.analyses := inr None;
              SonarCheck.components :=
                inr (Some [file "src/a.cpp"; file "test/t.cpp"; nameless; file "src/b.cpp"]) |} in
  SonarCheck.get_coverage_detail w (Some "src") =
    ([], inr [file "src/a.cpp"; file "src/b.cpp"]).
Proof.
  intros file nameless w.
  destruct (component_filter_keeps_prefix w "src"
              (Some [file "src/a.cpp"; file "test/t.cpp"; nameless; file "src/b.cpp"]))
    as (H & _); [discriminate | reflexivity | repeat constructor; eexists; reflexivity |].
  rewrite H. vm_compute. reflexivity.
Defined.

Example file_entry_icon_tiers_witness :
  let info := {| SonarCheck.path := Some (PStr "src/a.cpp");
                 SonarCheck.file_measures :=
                   Some [ {| SonarCheck.metric := "coverage";
                             SonarCheck.value := Some (PStr "59.9") |} ] |} in
  exists tail,
    SonarCheck.file_loop_body (H := Cpython.runtime) SonarCheck.no_files info =
      inr {| SonarCheck.files_with_coverage := ["  ❌ src/a.cpp: 59.9% (" +:+ tail];
             SonarCheck.files_without_coverage := [] |}.
Proof.
  intros info.
  destruct (file_entry_icon_tiers (rt := Cpython.runtime) SonarCheck.no_files info "59.9"
              (S754_finite false 8430175552484147 (-47))
              (8430175552484147 # 140737488355328)%Q)
    as (icon & tail & E & _ & _ & Hpoor); [vm_compute; reflexivity..|].
  rewrite Hpoor in E by (vm_compute; reflexivity).
  exists tail. exact E.
Defined.

Example project_measures_last_entry_wins_witness :
  let m1 := {| SonarCheck.metric := "bugs"; SonarCheck.value := Some (PStr "3") |} in
  let m2 := {| SonarCheck.metric := "bugs"; SonarCheck.value := None |} in
  let w := {| SonarCheck.project_status := fun _ => inr None;
              SonarCheck.component_measures := inr (Some (Some [m1; m2]));
              SonarCheck.analyses := inr None;
              SonarCheck.components := inr None |} in
  exists measures,
    SonarCheck.get_project_measures w = ([], inr measures) /\
    measures !! "bugs" = Some (PStr "0").
Proof.
  intros m1 m2 w.
  destruct (project_measures_last_entry_wins w [m1] m2 eq_refl) as (measures & H1 & H2 & _).
  exists measures. split; [exact H1 | exact H2].
Defined.
